(** * elysia-auth-starter: session authority and RBAC permission model

    A shallow embedding of the service layer of the repository
    (modules/rbac/service.ts, modules/user/service.ts, middleware/auth,
    the /auth routes) over an explicit relational store, and the
    properties of the specification that concern them.

    Conventions.
    - The store is a record of tables; a table is the list of its rows in
      insertion order (findMany without orderBy returns that order).
    - Every Prisma call is a computation in the monad [M]: it reads and
      writes the store and either returns a value or throws.  The store is
      threaded through a throw as well, so that a statement executed before
      the throw stays executed unless a [transaction] rolls it back.
    - Strings are byte strings; identifiers (cuid) are strings.  An id that
      the store generates on insert is an explicit argument [newId] of the
      embedded function; the insert fails with P2002 when it is taken.
    - Timestamps (createdAt / updatedAt) and the logger are left out: no
      decision of the code depends on them. *)

From Stdlib Require Import String Ascii List ZArith Bool Arith Lia.
Import ListNotations.

Local Open Scope string_scope.
Local Open Scope list_scope.

(* ================================================================== *)
(** ** Entities *)
(* ================================================================== *)

Record User := mkUser {
  user_id : string;
  user_email : string;
  user_name : string;
  user_password : string;
  user_isActive : bool;
  user_tokenVersion : Z;
  user_roleId : string
}.

Record RefreshToken := mkRefreshToken {
  rt_id : string;
  rt_userId : string;
  rt_expiresAt : Z;
  rt_revoked : bool
}.

Record Role := mkRole {
  role_id : string;
  role_name : string;
  role_description : option string
}.

Record Feature := mkFeature {
  feature_id : string;
  feature_name : string;
  feature_description : option string
}.

Record RoleFeature := mkRoleFeature {
  rf_roleId : string;
  rf_featureId : string;
  canCreate : bool;
  canRead : bool;
  canUpdate : bool;
  canDelete : bool;
  canPrint : bool
}.

Record Db := mkDb {
  users : list User;
  refreshTokens : list RefreshToken;
  roles : list Role;
  features : list Feature;
  roleFeatures : list RoleFeature
}.

Definition set_users (us : list User) (db : Db) : Db :=
  mkDb us (refreshTokens db) (roles db) (features db) (roleFeatures db).
Definition set_refreshTokens (ts : list RefreshToken) (db : Db) : Db :=
  mkDb (users db) ts (roles db) (features db) (roleFeatures db).
Definition set_roles (rs : list Role) (db : Db) : Db :=
  mkDb (users db) (refreshTokens db) rs (features db) (roleFeatures db).
Definition set_features (fs : list Feature) (db : Db) : Db :=
  mkDb (users db) (refreshTokens db) (roles db) fs (roleFeatures db).
Definition set_roleFeatures (ps : list RoleFeature) (db : Db) : Db :=
  mkDb (users db) (refreshTokens db) (roles db) (features db) ps.

(* ================================================================== *)
(** ** Errors *)
(* ================================================================== *)

(** Prisma's known request errors the code and its tests rely on. *)
Inductive PrismaCode :=
| P2002   (* unique constraint failed *)
| P2003   (* foreign key constraint failed *)
| P2025.  (* record not found *)

(** The error kinds of the session authority (spec, section 7). *)
Inductive AuthErrorKind :=
| InvalidCredentials
| AccountDisabled
| InvalidToken
| TokenVersionMismatch
| Unauthorized.

Inductive Error :=
| PrismaClientKnownRequestError (code : PrismaCode)
| DeleteSystemError                       (* modules/rbac/error.ts *)
| InvalidFeatureIdError (message : string)
| DeleteSelfError                         (* modules/user/error.ts *)
| CreateSystemError
| UpdateSystemError
| UnauthorizedError (message : string)    (* libs/exceptions *)
| AccountDisabledError (message : string)
| AuthError (kind : AuthErrorKind).       (* modules/auth/error *)

Inductive result (A : Type) :=
| Ok (a : A)
| Err (e : Error).
Arguments Ok {A} a.
Arguments Err {A} e.

(* ================================================================== *)
(** ** The store monad *)
(* ================================================================== *)

Definition M (A : Type) : Type := Db -> result A * Db.

Definition ret {A} (a : A) : M A := fun db => (Ok a, db).
Definition throw {A} (e : Error) : M A := fun db => (Err e, db).
Definition bind {A B} (m : M A) (k : A -> M B) : M B :=
  fun db =>
    match m db with
    | (Ok a, db') => k a db'
    | (Err e, db') => (Err e, db')
    end.

(** [prisma.$transaction(async (tx) => body)]: all or nothing. *)
Definition transaction {A} (body : M A) : M A :=
  fun db =>
    match body db with
    | (Ok a, db') => (Ok a, db')
    | (Err e, _) => (Err e, db)
    end.

(** [try { body } catch { }]: the throw is swallowed, its effects stay. *)
Definition swallow (body : M unit) : M unit :=
  fun db =>
    match body db with
    | (Ok _, db') => (Ok tt, db')
    | (Err _, db') => (Ok tt, db')
    end.

Declare Scope store_scope.
Delimit Scope store_scope with store.
Notation "x <- m ;; k" := (bind m (fun x => k))
  (at level 61, m at next level, right associativity) : store_scope.
Notation "m ;;; k" := (bind m (fun _ => k))
  (at level 61, right associativity) : store_scope.
Local Open Scope store_scope.

Definition prismaError {A} (c : PrismaCode) : M A :=
  throw (PrismaClientKnownRequestError c).

(* ================================================================== *)
(** ** Strings as JavaScript uses them here *)
(* ================================================================== *)

(** [String.prototype.toLowerCase] on the ASCII letters. *)
Definition lower_ascii (c : ascii) : ascii :=
  let n := nat_of_ascii c in
  if (65 <=? n)%nat && (n <=? 90)%nat then ascii_of_nat (n + 32) else c.

Fixpoint toLowerCase (s : string) : string :=
  match s with
  | EmptyString => EmptyString
  | String c s' => String (lower_ascii c) (toLowerCase s')
  end.

(** [String.prototype.includes]: [needle] occurs in [s]. *)
Fixpoint includes (s needle : string) : bool :=
  String.prefix needle s
  || match s with
     | EmptyString => false
     | String _ s' => includes s' needle
     end.

(** [Array.prototype.includes] on strings. *)
Definition Array_includes (xs : list string) (x : string) : bool :=
  existsb (String.eqb x) xs.

(* ================================================================== *)
(** ** The store contract (Prisma client over the relational schema) *)
(* ================================================================== *)

(** Modelled from the spec: the schema (schema.prisma), which is not part
    of the sources at hand.  Its unique columns (ids, User.email,
    Role.name, Feature.name, the pair (roleId, featureId) of RoleFeature),
    its foreign keys and its column defaults are those of spec section 3;
    the referential actions are stated at the three deletes.  A violated
    constraint is the Prisma error the routes and the tests handle: P2002
    (unique), P2003 (foreign key), P2025 (no such record). *)
Module Prisma.

Definition same_pair (a b : RoleFeature) : bool :=
  (rf_roleId a =? rf_roleId b) && (rf_featureId a =? rf_featureId b).

Definition has_pair (rid fid : string) (p : RoleFeature) : bool :=
  (rf_roleId p =? rid) && (rf_featureId p =? fid).

Fixpoint pairs_distinct (ps : list RoleFeature) : bool :=
  match ps with
  | [] => true
  | p :: ps' => negb (existsb (same_pair p) ps') && pairs_distinct ps'
  end.

Definition role_exists (db : Db) (id : string) : bool :=
  existsb (fun r => role_id r =? id) (roles db).

Definition feature_exists (db : Db) (id : string) : bool :=
  existsb (fun f => feature_id f =? id) (features db).

(** [findUnique({ where: { id } })] on each table. *)
Definition roleById (db : Db) (id : string) : option Role :=
  find (fun r => role_id r =? id) (roles db).

Definition featureById (db : Db) (id : string) : option Feature :=
  find (fun f => feature_id f =? id) (features db).

Definition userById (db : Db) (id : string) : option User :=
  find (fun u => user_id u =? id) (users db).

Definition tokenById (db : Db) (id : string) : option RefreshToken :=
  find (fun t => rt_id t =? id) (refreshTokens db).

(* ---------------- feature ---------------- *)

(** [findMany({ select: { id: true } })].  The call names no [orderBy]:
    the order of the rows is the choice of the database, and they are
    given here in the order of the store. *)
Definition feature_findMany : M (list Feature) :=
  fun db => (Ok (features db), db).

(** [findMany({ where: { id: { in: ids } } })] *)
Definition feature_findMany_in (ids : list string) : M (list Feature) :=
  fun db => (Ok (filter (fun f => Array_includes ids (feature_id f)) (features db)), db).

Definition feature_findUnique (id : string) : M (option Feature) :=
  fun db => (Ok (featureById db id), db).

Definition feature_findUniqueOrThrow (id : string) : M Feature :=
  o <- feature_findUnique id ;;
  match o with
  | Some f => ret f
  | None => prismaError P2025
  end.

(** [create({ data })]; [id] and [name] are unique columns. *)
Definition feature_create (newId name : string) (description : option string)
  : M Feature :=
  fun db =>
    if existsb (fun f => (feature_id f =? newId) || (feature_name f =? name))
               (features db)
    then (Err (PrismaClientKnownRequestError P2002), db)
    else
      let f := mkFeature newId name description in
      (Ok f, set_features (features db ++ [f]) db).

(** Modelled from the spec: the schema's referential action, which is not
    part of the sources at hand.  "Deleting a Role or Feature cascades
    deletion of its RoleFeature rows" (spec, section 3). *)
Definition feature_delete (id : string) : M Feature :=
  fun db =>
    match featureById db id with
    | None => (Err (PrismaClientKnownRequestError P2025), db)
    | Some f =>
        (Ok f,
         set_roleFeatures
           (filter (fun p => negb (rf_featureId p =? id)) (roleFeatures db))
           (set_features
              (filter (fun g => negb (feature_id g =? id)) (features db)) db))
    end.

(* ---------------- role ---------------- *)

Definition role_findMany : M (list Role) :=
  fun db => (Ok (roles db), db).

Definition role_findUnique (id : string) : M (option Role) :=
  fun db => (Ok (roleById db id), db).

Definition role_findUniqueOrThrow (id : string) : M Role :=
  o <- role_findUnique id ;;
  match o with
  | Some r => ret r
  | None => prismaError P2025
  end.

(** [create({ data })]; [id] and [name] are unique columns. *)
Definition role_create (newId name : string) (description : option string)
  : M Role :=
  fun db =>
    if existsb (fun r => (role_id r =? newId) || (role_name r =? name)) (roles db)
    then (Err (PrismaClientKnownRequestError P2002), db)
    else
      let r := mkRole newId name description in
      (Ok r, set_roles (roles db ++ [r]) db).

(** [update({ where: { id }, data })]; an absent field of [data] is left
    as it is, and the unique name is checked when it changes. *)
Definition role_update (id : string) (name : option string)
           (description : option (option string)) : M Role :=
  fun db =>
    match roleById db id with
    | None => (Err (PrismaClientKnownRequestError P2025), db)
    | Some r =>
        let r' := mkRole id
                    (match name with Some n => n | None => role_name r end)
                    (match description with
                     | Some d => d
                     | None => role_description r
                     end) in
        if negb (role_name r' =? role_name r)
           && existsb (fun q => role_name q =? role_name r') (roles db)
        then (Err (PrismaClientKnownRequestError P2002), db)
        else
          (Ok r',
           set_roles
             (map (fun q => if role_id q =? id then r' else q) (roles db)) db)
    end.

(** Modelled from the spec: the schema's referential actions, which are
    not part of the sources at hand.  The role's RoleFeature rows go with
    it (spec, section 3); a role still assigned to a user is not deleted
    (the foreign key of User.roleId restricts, as the integration test
    "should prevent deletion if role is currently assigned to users"
    expects). *)
Definition role_delete (id : string) : M Role :=
  fun db =>
    match roleById db id with
    | None => (Err (PrismaClientKnownRequestError P2025), db)
    | Some r =>
        if existsb (fun u => user_roleId u =? id) (users db)
        then (Err (PrismaClientKnownRequestError P2003), db)
        else
          (Ok r,
           set_roleFeatures
             (filter (fun p => negb (rf_roleId p =? id)) (roleFeatures db))
             (set_roles
                (filter (fun q => negb (role_id q =? id)) (roles db)) db))
    end.

(* ---------------- roleFeature ---------------- *)

(** The rows of [include: { permissions: true }] on a role.  The include
    names no [orderBy]: the order of the rows is the choice of the
    database, and they are given here in the order of the store. *)
Definition roleFeature_findMany_role (rid : string) : M (list RoleFeature) :=
  fun db => (Ok (filter (fun p => rf_roleId p =? rid) (roleFeatures db)), db).

(** [createMany({ data })]: (roleId, featureId) is composite-unique, and
    both foreign keys must resolve.  The unique index is tested as the rows
    go in and the foreign keys when the statement ends, so a list with both
    faults fails with P2002. *)
Definition roleFeature_createMany (data : list RoleFeature) : M nat :=
  fun db =>
    if negb (pairs_distinct data)
       || existsb (fun p => existsb (same_pair p) (roleFeatures db)) data
    then (Err (PrismaClientKnownRequestError P2002), db)
    else if negb (forallb (fun p => role_exists db (rf_roleId p)
                                    && feature_exists db (rf_featureId p)) data)
    then (Err (PrismaClientKnownRequestError P2003), db)
    else (Ok (length data), set_roleFeatures (roleFeatures db ++ data) db).

(** [deleteMany({ where: { roleId } })] *)
Definition roleFeature_deleteMany_role (rid : string) : M nat :=
  fun db =>
    (Ok (length (filter (fun p => rf_roleId p =? rid) (roleFeatures db))),
     set_roleFeatures
       (filter (fun p => negb (rf_roleId p =? rid)) (roleFeatures db)) db).

(* ---------------- user ---------------- *)

Definition user_findUnique (id : string) : M (option User) :=
  fun db => (Ok (userById db id), db).

Definition user_findUniqueOrThrow (id : string) : M User :=
  o <- user_findUnique id ;;
  match o with
  | Some u => ret u
  | None => prismaError P2025
  end.

(** [create({ data })]; [id] and [email] are unique columns, [roleId] is
    a foreign key. *)
Definition user_create (u : User) : M User :=
  fun db =>
    if existsb (fun v => (user_id v =? user_id u) || (user_email v =? user_email u))
               (users db)
    then (Err (PrismaClientKnownRequestError P2002), db)
    else if negb (role_exists db (user_roleId u))
    then (Err (PrismaClientKnownRequestError P2003), db)
    else (Ok u, set_users (users db ++ [u]) db).

(** [update({ where: { id }, data })] with the row computed by [f]; a
    constraint is checked for the column that changes. *)
Definition user_update (id : string) (f : User -> User) : M User :=
  fun db =>
    match userById db id with
    | None => (Err (PrismaClientKnownRequestError P2025), db)
    | Some u =>
        let u' := f u in
        if negb (user_email u' =? user_email u)
           && existsb (fun v => user_email v =? user_email u') (users db)
        then (Err (PrismaClientKnownRequestError P2002), db)
        else if negb (user_roleId u' =? user_roleId u)
                && negb (role_exists db (user_roleId u'))
        then (Err (PrismaClientKnownRequestError P2003), db)
        else
          (Ok u',
           set_users (map (fun v => if user_id v =? id then u' else v) (users db)) db)
    end.

(** [data: { tokenVersion: { increment: 1 } }] *)
Definition incrementTokenVersion (u : User) : User :=
  mkUser (user_id u) (user_email u) (user_name u) (user_password u)
         (user_isActive u) (user_tokenVersion u + 1) (user_roleId u).

(** Modelled from the spec: the schema's referential action, which is not
    part of the sources at hand.  A RefreshToken row is "never physically
    deleted except by cascading user deletion" (spec, section 3). *)
Definition user_delete (id : string) : M User :=
  fun db =>
    match userById db id with
    | None => (Err (PrismaClientKnownRequestError P2025), db)
    | Some u =>
        (Ok u,
         set_refreshTokens
           (filter (fun t => negb (rt_userId t =? id)) (refreshTokens db))
           (set_users (filter (fun v => negb (user_id v =? id)) (users db)) db))
    end.

(* ---------------- refreshToken ---------------- *)

Definition refreshToken_findUnique (id : string) : M (option RefreshToken) :=
  fun db => (Ok (tokenById db id), db).

(** [create({ data })]; the id is unique, [userId] is a foreign key. *)
Definition refreshToken_create (t : RefreshToken) : M RefreshToken :=
  fun db =>
    if existsb (fun v => rt_id v =? rt_id t) (refreshTokens db)
    then (Err (PrismaClientKnownRequestError P2002), db)
    else if negb (existsb (fun u => user_id u =? rt_userId t) (users db))
    then (Err (PrismaClientKnownRequestError P2003), db)
    else (Ok t, set_refreshTokens (refreshTokens db ++ [t]) db).

(** [data: { revoked: true }] *)
Definition revoke (t : RefreshToken) : RefreshToken :=
  mkRefreshToken (rt_id t) (rt_userId t) (rt_expiresAt t) true.

(** [update({ where, data: { revoked: true } })]: throws when no row
    satisfies [where]. *)
Definition refreshToken_revoke (where_ : RefreshToken -> bool) : M unit :=
  fun db =>
    if existsb where_ (refreshTokens db)
    then (Ok tt,
          set_refreshTokens
            (map (fun t => if where_ t then revoke t else t) (refreshTokens db)) db)
    else (Err (PrismaClientKnownRequestError P2025), db).

(** [updateMany({ where, data: { revoked: true } })] *)
Definition refreshToken_revokeMany (where_ : RefreshToken -> bool) : M nat :=
  fun db =>
    (Ok (length (filter where_ (refreshTokens db))),
     set_refreshTokens
       (map (fun t => if where_ t then revoke t else t) (refreshTokens db)) db).

End Prisma.

(* ================================================================== *)
(** ** modules/rbac/service.ts *)
(* ================================================================== *)

(** The input types of ./schema, as the service reads them.  The five
    action flags of a permission input are optional (prismabox
    RoleFeaturePlainInputCreate). *)
Record PermissionFlags := mkFlags {
  pf_canCreate : option bool;
  pf_canRead : option bool;
  pf_canUpdate : option bool;
  pf_canDelete : option bool;
  pf_canPrint : option bool
}.

Record CreateFeatureInput := mkCreateFeatureInput {
  cf_name : string;
  cf_description : option string;
  cf_defaultPermissions : option PermissionFlags
}.

Record PermissionInput := mkPermissionInput {
  pi_featureId : string;
  pi_flags : PermissionFlags
}.

Record CreateRoleInput := mkCreateRoleInput {
  cr_name : string;
  cr_description : option string;
  cr_permissions : option (list PermissionInput)
}.

Record UpdateRoleInput := mkUpdateRoleInput {
  ur_name : option string;
  ur_description : option (option string);
  ur_permissions : option (list PermissionInput)
}.

(** [x ?? false] *)
Definition orFalse (x : option bool) : bool :=
  match x with Some b => b | None => false end.

(** Modelled from the spec: the column defaults of RoleFeature, declared in
    the schema, which is not part of the sources at hand.  A row written
    with some flags left out gets false there (spec, section 3: "all bool,
    default false"). *)
Definition rowOf (rid fid : string) (fl : PermissionFlags) : RoleFeature :=
  mkRoleFeature rid fid
    (orFalse (pf_canCreate fl)) (orFalse (pf_canRead fl))
    (orFalse (pf_canUpdate fl)) (orFalse (pf_canDelete fl))
    (orFalse (pf_canPrint fl)).

Definition fullAccess (rid fid : string) : RoleFeature :=
  mkRoleFeature rid fid true true true true true.

Definition noAccess : PermissionFlags := mkFlags None None None None None.

(** [new Map(entries).get(key)]: the last entry for a key wins. *)
Definition Map_get (entries : list PermissionInput) (key : string)
  : option PermissionInput :=
  find (fun p => pi_featureId p =? key) (rev entries).

Module RbacService.

Definition PROTECTED_FEATURES : list string := ["RBAC_management"].
Definition PROTECTED_ROLES : list string := ["SuperAdmin"].

(** [role.name.toLowerCase().includes("admin")] *)
Definition isAdmin (role : Role) : bool :=
  includes (toLowerCase (role_name role)) "admin".

(** The row createFeature builds for one role: full access for an admin
    role, [{ roleId, featureId, ...defaultPermissions }] otherwise. *)
Definition featureRow (newFeature : Feature) (defaultPermissions : PermissionFlags)
           (role : Role) : RoleFeature :=
  if isAdmin role
  then fullAccess (role_id role) (feature_id newFeature)
  else rowOf (role_id role) (feature_id newFeature) defaultPermissions.

(** RbacService.createFeature *)
Definition createFeature (newId : string) (data : CreateFeatureInput) : M Feature :=
  transaction
    (newFeature <- Prisma.feature_create newId (cf_name data) (cf_description data) ;;
     (match cf_defaultPermissions data with
      | Some defaultPermissions =>
          allRoles <- Prisma.role_findMany ;;
          if (0 <? length allRoles)%nat
          then
            (let roleFeaturesData :=
               map (featureRow newFeature defaultPermissions) allRoles in
             Prisma.roleFeature_createMany roleFeaturesData ;;; ret tt)
          else ret tt
      | None => ret tt
      end) ;;;
     ret newFeature).

(** RbacService.deleteFeature *)
Definition deleteFeature (id : string) : M Feature :=
  feature <- Prisma.feature_findUniqueOrThrow id ;;
  if Array_includes PROTECTED_FEATURES (feature_name feature)
  then throw DeleteSystemError
  else Prisma.feature_delete id.

(** The row createRole builds for one feature:
    [provided?.canCreate ?? false] and so on. *)
Definition roleRow (role : Role) (permissions : list PermissionInput)
           (feature : Feature) : RoleFeature :=
  let provided := Map_get permissions (feature_id feature) in
  rowOf (role_id role) (feature_id feature)
        (match provided with Some p => pi_flags p | None => noAccess end).

(** [data.permissions || []] *)
Definition orEmpty (ps : option (list PermissionInput)) : list PermissionInput :=
  match ps with Some l => l | None => [] end.

(** The check at the head of createRole: every supplied featureId must
    exist. *)
Definition validateFeatureIds (permissions : option (list PermissionInput)) : M unit :=
  match permissions with
  | Some ((_ :: _) as ps) =>
      let featureIds := map pi_featureId ps in
      existingFeatures <- Prisma.feature_findMany_in featureIds ;;
      let existingFeatureIds := map feature_id existingFeatures in
      let invalidFeatureIds :=
        filter (fun id => negb (Array_includes existingFeatureIds id)) featureIds in
      if (0 <? length invalidFeatureIds)%nat
      then throw (InvalidFeatureIdError
                    ("Invalid featureId(s): " ++ String.concat ", " invalidFeatureIds))
      else ret tt
  | _ => ret tt
  end.

(** RbacService.createRole *)
Definition createRole (newId : string) (data : CreateRoleInput)
  : M (Role * list RoleFeature) :=
  transaction
    (validateFeatureIds (cr_permissions data) ;;;
     role <- Prisma.role_create newId (cr_name data) (cr_description data) ;;
     allFeatures <- Prisma.feature_findMany ;;
     (let roleFeaturesData :=
        map (roleRow role (orEmpty (cr_permissions data))) allFeatures in
      (if (0 <? length roleFeaturesData)%nat
       then Prisma.roleFeature_createMany roleFeaturesData ;;; ret tt
       else ret tt) ;;;
      newRole <- Prisma.role_findUniqueOrThrow (role_id role) ;;
      permissions <- Prisma.roleFeature_findMany_role (role_id role) ;;
      ret (newRole, permissions))).

(** RbacService.updateRole *)
Definition updateRole (id : string) (data : UpdateRoleInput)
  : M (Role * list RoleFeature) :=
  transaction
    (Prisma.role_update id (ur_name data) (ur_description data) ;;;
     (match ur_permissions data with
      | Some permissions =>
          Prisma.roleFeature_deleteMany_role id ;;;
          if (0 <? length permissions)%nat
          then
            Prisma.roleFeature_createMany
              (map (fun p => rowOf id (pi_featureId p) (pi_flags p)) permissions) ;;;
            ret tt
          else ret tt
      | None => ret tt
      end) ;;;
     updatedRole <- Prisma.role_findUniqueOrThrow id ;;
     permissions <- Prisma.roleFeature_findMany_role id ;;
     ret (updatedRole, permissions)).

(** RbacService.deleteRole *)
Definition deleteRole (id : string) : M Role :=
  role <- Prisma.role_findUniqueOrThrow id ;;
  if Array_includes PROTECTED_ROLES (role_name role)
  then throw DeleteSystemError
  else Prisma.role_delete id.

End RbacService.

(* ================================================================== *)
(** ** modules/user/service.ts *)
(* ================================================================== *)

(** The input types of ./schema, as the service reads them. *)
Record CreateUserInput := mkCreateUserInput {
  cu_email : string;
  cu_name : string;
  cu_password : string;
  cu_roleId : string;
  cu_isActive : option bool
}.

Record UpdateUserInput := mkUpdateUserInput {
  uu_email : option string;
  uu_name : option string;
  uu_password : option string;
  uu_roleId : option string;
  uu_isActive : option bool
}.

Definition orElse {A} (x : option A) (d : A) : A :=
  match x with Some a => a | None => d end.

Module UserService.

Section WithHash.

(** [Bun.password.hash], an opaque one-way hash. *)
Variable hash : string -> string.

Definition PROTECTED_ROLES : list string := ["SuperAdmin"].

(** [role?.name === "SuperAdmin"] *)
Definition isSuperAdmin (role : option Role) : bool :=
  match role with
  | Some r => role_name r =? "SuperAdmin"
  | None => false
  end.

(** UserService.createUser.  The new row takes the column defaults of the
    schema: isActive true (integration test "should create user with
    isActive defaulted to true"), tokenVersion 0. *)
Definition createUser (newId : string) (data : CreateUserInput) : M User :=
  role <- Prisma.role_findUnique (cu_roleId data) ;;
  if isSuperAdmin role
  then throw CreateSystemError
  else
    let hashedPassword := hash (cu_password data) in
    Prisma.user_create
      (mkUser newId (cu_email data) (cu_name data) hashedPassword
              (orElse (cu_isActive data) true) 0 (cu_roleId data)).

(** [if (updateData.password)]: the empty string is falsy and is stored
    as it is. *)
Definition hashIfPresent (password : option string) : option string :=
  match password with
  | Some p => if p =? "" then Some p else Some (hash p)
  | None => None
  end.

(** [data: updateData]: an absent field is left as it is. *)
Definition applyUpdate (updateData : UpdateUserInput) (u : User) : User :=
  mkUser (user_id u)
         (orElse (uu_email updateData) (user_email u))
         (orElse (uu_name updateData) (user_name u))
         (orElse (uu_password updateData) (user_password u))
         (orElse (uu_isActive updateData) (user_isActive u))
         (user_tokenVersion u)
         (orElse (uu_roleId updateData) (user_roleId u)).

(** [select: { role: { select: { name: true } } }] *)
Definition roleOfUser (id : string) : M (option Role) :=
  existingUser <- Prisma.user_findUnique id ;;
  match existingUser with
  | Some u => Prisma.role_findUnique (user_roleId u)
  | None => ret None
  end.

(** UserService.updateUser *)
Definition updateUser (id : string) (data : UpdateUserInput) : M User :=
  let updateData :=
    mkUpdateUserInput (uu_email data) (uu_name data)
                      (hashIfPresent (uu_password data))
                      (uu_roleId data) (uu_isActive data) in
  (match uu_isActive updateData with
   | Some false =>
       role <- roleOfUser id ;;
       if isSuperAdmin role then throw UpdateSystemError else ret tt
   | _ => ret tt
   end) ;;;
  Prisma.user_update id (applyUpdate updateData).

(** UserService.deleteUser *)
Definition deleteUser (targetId requestingUserId : string) : M User :=
  if targetId =? requestingUserId
  then throw DeleteSelfError
  else
    targetUser <- Prisma.user_findUniqueOrThrow targetId ;;
    role <- Prisma.role_findUnique (user_roleId targetUser) ;;
    match role with
    | Some r =>
        if Array_includes PROTECTED_ROLES (role_name r)
        then throw DeleteSystemError
        else Prisma.user_delete targetId
    | None => Prisma.user_delete targetId
    end.

End WithHash.

End UserService.

(* ================================================================== *)
(** ** Token codec *)
(* ================================================================== *)

(** The claims a handler inspects with [typeof]. *)
Inductive JsValue :=
| JsUndefined
| JsString (s : string)
| JsNumber (n : Z).

Record JwtPayload := mkPayload {
  sub : JsValue;
  tv : JsValue;
  jti : option string
}.

Inductive JwtKind := AccessJwt | RefreshJwt.

Definition JwtKind_eqb (a b : JwtKind) : bool :=
  match a, b with
  | AccessJwt, AccessJwt => true
  | RefreshJwt, RefreshJwt => true
  | _, _ => false
  end.

(** What a well-formed token with an intact signature carries: the secret
    it was signed with, its claims and its expiry. *)
Record Jwt := mkJwt {
  jwt_kind : JwtKind;
  jwt_payload : JwtPayload;
  jwt_exp : Z
}.

(** Modelled from the spec: the token codec ([accessJwt] and [refreshJwt]
    of plugins/jwt, which is not part of the sources at hand).
    "verify(kind, token string) -> claims | fails": two kinds with
    independent secrets, expiry "evaluated at verification time by
    comparing embedded expiry against current time" (spec, sections 5 and
    6).  [decode] stands for parsing and signature checking: it answers
    [None] for a string that is malformed or whose signature does not
    match.  A failed [verify] is the [false] the handlers test for. *)
Definition verify (decode : string -> option Jwt) (kind : JwtKind) (now : Z)
           (token : string) : option JwtPayload :=
  match decode token with
  | Some j =>
      if JwtKind_eqb (jwt_kind j) kind && (now <? jwt_exp j)%Z
      then Some (jwt_payload j)
      else None
  | None => None
  end.

(* ================================================================== *)
(** ** libs/response.ts *)
(* ================================================================== *)

Record Response (A : Type) := mkResponse {
  error : bool;
  code : Z;
  message : string;
  data : option A
}.
Arguments mkResponse {A}.
Arguments error {A}.
Arguments code {A}.
Arguments message {A}.
Arguments data {A}.

Definition successResponse {A} (d : option A) (msg : string) (c : Z) : Response A :=
  mkResponse false c msg d.

Definition errorResponse {A} (c : Z) (msg : string) : Response A :=
  mkResponse true c msg None.

(** [a || b] on optional strings: undefined and the empty string are
    falsy. *)
Definition truthy (a : option string) : bool :=
  match a with
  | Some s => negb (s =? "")
  | None => false
  end.

Definition jsOr (a b : option string) : option string :=
  if truthy a then a else b.

(* ================================================================== *)
(** ** Session authority (modules/auth/service) *)
(* ================================================================== *)

Record SessionUser := mkSessionUser {
  su_id : string;
  su_email : string;
  su_name : string
}.

Record RefreshData := mkRefreshData {
  rd_user : SessionUser;
  rd_tokenVersion : Z;
  rd_refreshToken : string
}.

Definition sessionUser (u : User) : SessionUser :=
  mkSessionUser (user_id u) (user_email u) (user_name u).

Module AuthService.

Section WithLifetime.

(** The refresh lifetime (JWT_REFRESH_EXPIRES_IN). *)
Variable refreshLifetime : Z.

(** Modelled from the spec: AuthService.createRefreshToken, whose source is
    not at hand.  Login "creates one new RefreshToken row (revoked=false,
    expiresAt = now + refresh lifetime)" (spec, section 4.1); the id of
    the row is the [jti] of the token. *)
Definition createRefreshToken (now : Z) (newId userId : string) : M string :=
  t <- Prisma.refreshToken_create
         (mkRefreshToken newId userId (now + refreshLifetime) false) ;;
  ret (rt_id t).

(** Modelled from the spec: AuthService.refresh, whose source is not at
    hand; the caller has done step 1 and passes the verified claims.
    Steps 2 to 6 of section 4.1: load the row by [jti], or InvalidToken;
    a revoked row is a reuse: increment the owner's tokenVersion and fail
    with InvalidToken; AccountDisabled for an inactive owner;
    TokenVersionMismatch when the claim differs from the owner's current
    version; otherwise, in one transaction, revoke the row and insert a new
    one for the same user. *)
Definition refresh (now : Z) (newId refreshToken userId : string)
           (tokenVersion : Z) : M RefreshData :=
  stored <- Prisma.refreshToken_findUnique refreshToken ;;
  match stored with
  | None => throw (AuthError InvalidToken)
  | Some row =>
      if rt_revoked row
      then
        Prisma.user_update (rt_userId row) Prisma.incrementTokenVersion ;;;
        throw (AuthError InvalidToken)
      else
        user <- Prisma.user_findUniqueOrThrow (rt_userId row) ;;
        if negb (user_isActive user)
        then throw (AuthError AccountDisabled)
        else if negb (tokenVersion =? user_tokenVersion user)%Z
        then throw (AuthError TokenVersionMismatch)
        else
          transaction
            (Prisma.refreshToken_revoke (fun t => rt_id t =? rt_id row) ;;;
             Prisma.refreshToken_create
               (mkRefreshToken newId (rt_userId row) (now + refreshLifetime) false)) ;;;
          ret (mkRefreshData (sessionUser user) (user_tokenVersion user) newId)
  end.

(** Modelled from the spec: AuthService.logout, whose source is not at
    hand.  "If the token verifies and a matching row exists, mark it
    revoked.  Any failure to parse, find, or revoke is swallowed" (spec,
    section 4.1).  The row matches on the [jti] and the subject passed by
    the route. *)
Definition logout (refreshToken userId : string) : M unit :=
  swallow
    (Prisma.refreshToken_revoke
       (fun t => (rt_id t =? refreshToken) && (rt_userId t =? userId))).

(** Modelled from the spec: AuthService.logoutAll, whose source is not at
    hand (its unit tests are).  Section 4.1: Unauthorized when the
    initiating row is not found, belongs to another user (section 7) or is
    already revoked; AccountDisabled for an inactive user;
    TokenVersionMismatch for a stale version; otherwise, in one
    transaction, revoke every unrevoked row of the user and increment the
    user's tokenVersion once. *)
Definition logoutAll (userId requestingTokenId : string) (tokenVersion : Z)
  : M unit :=
  stored <- Prisma.refreshToken_findUnique requestingTokenId ;;
  match stored with
  | None => throw (AuthError Unauthorized)
  | Some row =>
      if negb (rt_userId row =? userId)
      then throw (AuthError Unauthorized)
      else if rt_revoked row
      then throw (AuthError Unauthorized)
      else
        user <- Prisma.user_findUniqueOrThrow userId ;;
        if negb (user_isActive user)
        then throw (AuthError AccountDisabled)
        else if negb (tokenVersion =? user_tokenVersion user)%Z
        then throw (AuthError TokenVersionMismatch)
        else
          transaction
            (Prisma.refreshToken_revokeMany
               (fun t => (rt_userId t =? userId) && negb (rt_revoked t)) ;;;
             Prisma.user_update userId Prisma.incrementTokenVersion ;;;
             ret tt)
  end.

(** Modelled from the spec: the procedure of [logoutAll] over any two write
    operations, [revokeAll] in the place of `refreshToken.updateMany` and
    [bump] in the place of `user.update`; [logoutAll] is the instance at
    the operations of [Prisma].  The operations of [Prisma] cannot fail
    once the checks have passed, those of a database can (the row is
    deleted in between, the connection drops): what "in one transaction"
    promises shows at an operation that throws after the other has
    written. *)
Definition logoutAllOver (revokeAll : (RefreshToken -> bool) -> M nat)
           (bump : string -> M User)
           (userId requestingTokenId : string) (tokenVersion : Z)
  : M unit :=
  stored <- Prisma.refreshToken_findUnique requestingTokenId ;;
  match stored with
  | None => throw (AuthError Unauthorized)
  | Some row =>
      if negb (rt_userId row =? userId)
      then throw (AuthError Unauthorized)
      else if rt_revoked row
      then throw (AuthError Unauthorized)
      else
        user <- Prisma.user_findUniqueOrThrow userId ;;
        if negb (user_isActive user)
        then throw (AuthError AccountDisabled)
        else if negb (tokenVersion =? user_tokenVersion user)%Z
        then throw (AuthError TokenVersionMismatch)
        else
          transaction
            (revokeAll (fun t => (rt_userId t =? userId) && negb (rt_revoked t)) ;;;
             bump userId ;;;
             ret tt)
  end.

End WithLifetime.

End AuthService.

(* ================================================================== *)
(** ** middleware/auth and the /auth routes *)
(* ================================================================== *)

Record AuthUser := mkAuthUser {
  au_id : string;
  au_tokenVersion : Z
}.

Record SessionBody := mkSessionBody {
  access_token : string;
  refresh_token : string;
  sb_user : SessionUser
}.

Module Routes.

Section WithCodec.

(** The codec: parsing with signature check, and signing at an instant. *)
Variable decode : string -> option Jwt.
Variable sign : JwtKind -> JwtPayload -> Z -> string.
Variable refreshLifetime : Z.

(** [auth.slice(7)] *)
Definition slice7 (auth : string) : string :=
  String.substring 7 (String.length auth - 7) auth.

Definition authMiddleware (now : Z) (authorization : option string) : M AuthUser :=
  match authorization with
  | Some auth =>
      if String.prefix "Bearer " auth
      then
        let token := slice7 auth in
        match verify decode AccessJwt now token with
        | Some (mkPayload (JsString sub_) (JsNumber tv_) _) =>
            user <- Prisma.user_findUnique sub_ ;;
            match user with
            | None => throw (UnauthorizedError "User no longer exists")
            | Some user =>
                if negb (user_isActive user)
                then throw (AccountDisabledError "Your account has been disabled.")
                else if negb (user_tokenVersion user =? tv_)%Z
                then throw (UnauthorizedError "Session expired, please login again")
                else ret (mkAuthUser sub_ tv_)
            end
        | _ => throw (UnauthorizedError "Invalid or expired token")
        end
      else throw (UnauthorizedError "Missing or invalid Authorization header")
  | None => throw (UnauthorizedError "Missing or invalid Authorization header")
  end.

(** The [onError] hook of createProtectedApp (libs/base). *)
Definition protectedOnError (e : Error) : option (Response unit) :=
  match e with
  | UnauthorizedError msg => Some (errorResponse 401 msg)
  | AccountDisabledError msg => Some (errorResponse 403 msg)
  | _ => None
  end.

(** The handler of POST /auth/refresh.  It runs once the body has passed
    RefreshTokenSchema, with the [refresh_token] of the cookie and of the
    validated body. *)
Definition refreshRoute (now : Z) (newId : string)
           (cookie_refresh_token body_refresh_token : option string)
  : M (Response SessionBody) :=
  let incomingRefreshToken := jsOr cookie_refresh_token body_refresh_token in
  if negb (truthy incomingRefreshToken)
  then ret (errorResponse 400 "Refresh token is missing")
  else
    match verify decode RefreshJwt now (orElse incomingRefreshToken "") with
    | Some (mkPayload (JsString sub_) (JsNumber tv_) (Some jti_)) =>
        if jti_ =? ""
        then ret (errorResponse 401 "Unauthorized")
        else
          data <- AuthService.refresh refreshLifetime now newId jti_ sub_ tv_ ;;
          let newAccessToken :=
            sign AccessJwt
                 (mkPayload (JsString (su_id (rd_user data)))
                            (JsNumber (rd_tokenVersion data)) None) now in
          let newRefreshToken :=
            sign RefreshJwt
                 (mkPayload (JsString (su_id (rd_user data)))
                            (JsNumber (rd_tokenVersion data))
                            (Some (rd_refreshToken data))) now in
          ret (successResponse
                 (Some (mkSessionBody newAccessToken newRefreshToken (rd_user data)))
                 "Token refreshed successfully" 200)
    | _ => ret (errorResponse 401 "Unauthorized")
    end.

(** The handler of POST /auth/logout.  It runs once the body has passed
    the route's `body: TokenSchema`, with the [refresh_token] of the
    cookie and of the validated body; a body the schema refuses does not
    reach it. *)
Definition logoutRoute (now : Z)
           (cookie_refresh_token body_refresh_token : option string)
  : M (Response unit) :=
  let incomingRefreshToken := jsOr cookie_refresh_token body_refresh_token in
  (if truthy incomingRefreshToken
   then
     match verify decode RefreshJwt now (orElse incomingRefreshToken "") with
     | Some (mkPayload (JsString sub_) _ (Some jti_)) =>
         if jti_ =? "" then ret tt else AuthService.logout jti_ sub_
     | _ => ret tt
     end
   else ret tt) ;;;
  ret (successResponse None "Logged out successfully" 200).

End WithCodec.

End Routes.

(** Modelled from the spec: the status a thrown session error surfaces
    with; the hook that maps the errors of modules/auth/error is not part
    of the sources at hand.  "A 401 class covers token/identity failures; a
    403 class covers account-disabled and permission-denied" (spec,
    section 6). *)
Definition statusOfAuthError (k : AuthErrorKind) : Z :=
  match k with
  | AccountDisabled => 403
  | InvalidCredentials | InvalidToken | TokenVersionMismatch | Unauthorized => 401
  end.

(** The status a throw surfaces with: the code the error hooks give it,
    500 when no hook takes it. *)
Definition statusOfError (e : Error) : Z :=
  match e with
  | AuthError k => statusOfAuthError k
  | _ =>
      match Routes.protectedOnError e with
      | Some resp => code resp
      | None => 500
      end
  end.

(** The status a request ends with. *)
Definition statusOf {A} (r : result (Response A)) : Z :=
  match r with
  | Ok resp => code resp
  | Err e => statusOfError e
  end.

(* ================================================================== *)
(** ** The permission coverage invariant *)
(* ================================================================== *)

Definition roleIds (db : Db) : list string := map role_id (roles db).
Definition featureIds (db : Db) : list string := map feature_id (features db).

(** The number of RoleFeature rows for the pair (role id, feature id). *)
Definition pairCount (db : Db) (rid fid : string) : nat :=
  length (filter (Prisma.has_pair rid fid) (roleFeatures db)).

(** The constraints the schema puts on the permission tables: ids are
    keys, both foreign keys of a RoleFeature row resolve, and (roleId,
    featureId) is unique. *)
Record SchemaOk (db : Db) : Prop := mkSchemaOk {
  so_roles : NoDup (roleIds db);
  so_features : NoDup (featureIds db);
  so_rows :
    forall p, In p (roleFeatures db) ->
              In (rf_roleId p) (roleIds db) /\ In (rf_featureId p) (featureIds db);
  so_pairs : Prisma.pairs_distinct (roleFeatures db) = true
}.

(** Permission coverage: on a store the schema accepts, every existing
    role and feature have exactly one row between them.  (No row is
    orphaned, by the foreign keys.) *)
Record Coverage (db : Db) : Prop := mkCoverage {
  cov_schema : SchemaOk db;
  cov_exactly_one :
    forall rid fid, In rid (roleIds db) -> In fid (featureIds db) ->
                    pairCount db rid fid = 1%nat
}.

(** The mutations of the permission model. *)
Inductive RbacOp :=
| CreateFeature (newId : string) (data : CreateFeatureInput)
| DeleteFeature (id : string)
| CreateRole (newId : string) (data : CreateRoleInput)
| UpdateRole (id : string) (data : UpdateRoleInput)
| DeleteRole (id : string).

(** The store an operation leaves, whether it returns or throws. *)
Definition exec (op : RbacOp) (db : Db) : Db :=
  match op with
  | CreateFeature newId data => snd (RbacService.createFeature newId data db)
  | DeleteFeature id => snd (RbacService.deleteFeature id db)
  | CreateRole newId data => snd (RbacService.createRole newId data db)
  | UpdateRole id data => snd (RbacService.updateRole id data db)
  | DeleteRole id => snd (RbacService.deleteRole id db)
  end.

(** The calls that write a row for every pair they touch: createFeature
    with defaultPermissions, and updateRole either without a permission
    list or with one that names every existing feature. *)
Definition backfills (db : Db) (op : RbacOp) : bool :=
  match op with
  | CreateFeature _ data =>
      match cf_defaultPermissions data with Some _ => true | None => false end
  | UpdateRole _ data =>
      match ur_permissions data with
      | None => true
      | Some ps => forallb (Array_includes (map pi_featureId ps)) (featureIds db)
      end
  | _ => true
  end.

(** The store after a successful createFeature with defaults [d]: the
    feature inserted, and one row per role appended. *)
Definition afterCreateFeature (db : Db) (f : Feature) (d : PermissionFlags) : Db :=
  set_roleFeatures (roleFeatures db ++ map (RbacService.featureRow f d) (roles db))
                   (set_features (features db ++ [f]) db).

(** The store after a successful createRole: the role inserted, and one
    row per feature appended. *)
Definition afterCreateRole (db : Db) (r : Role) (ps : list PermissionInput) : Db :=
  set_roleFeatures (roleFeatures db ++ map (RbacService.roleRow r ps) (features db))
                   (set_roles (roles db ++ [r]) db).

(** The rows of the store for one pair. *)
Definition rowsFor (db : Db) (rid fid : string) : list RoleFeature :=
  filter (Prisma.has_pair rid fid) (roleFeatures db).

(** The rows updateRole writes for a supplied permission list. *)
Definition updateRows (id : string) (ps : list PermissionInput) : list RoleFeature :=
  map (fun p => rowOf id (pi_featureId p) (pi_flags p)) ps.

(** The store after a role or a feature is deleted with its rows. *)
Definition afterDeleteRole (db : Db) (id : string) : Db :=
  set_roleFeatures (filter (fun p => negb (rf_roleId p =? id)) (roleFeatures db))
                   (set_roles (filter (fun q => negb (role_id q =? id)) (roles db)) db).

Definition afterDeleteFeature (db : Db) (id : string) : Db :=
  set_roleFeatures
    (filter (fun p => negb (rf_featureId p =? id)) (roleFeatures db))
    (set_features (filter (fun g => negb (feature_id g =? id)) (features db)) db).

(** The store after updateRole replaced the rows of role [id]. *)
Definition afterReplaceRows (db : Db) (id : string) (ps : list PermissionInput) : Db :=
  set_roleFeatures
    (filter (fun p => negb (rf_roleId p =? id)) (roleFeatures db) ++ updateRows id ps)
    db.

(** What a mutation of the permission model can do to the store: nothing
    (it threw, or it found nothing to do), or one of seven writes. *)
Inductive Effect (db : Db) : RbacOp -> Db -> Prop :=
| EffNone op : Effect db op db
| EffFeatureBackfilled newId data d :
    cf_defaultPermissions data = Some d ->
    ~ In newId (featureIds db) ->
    Effect db (CreateFeature newId data)
           (afterCreateFeature db (mkFeature newId (cf_name data) (cf_description data)) d)
| EffFeatureAlone newId data :
    cf_defaultPermissions data = None ->
    ~ In newId (featureIds db) ->
    Effect db (CreateFeature newId data)
           (set_features
              (features db ++ [mkFeature newId (cf_name data) (cf_description data)]) db)
| EffFeatureDeleted id : Effect db (DeleteFeature id) (afterDeleteFeature db id)
| EffRoleBackfilled newId data :
    ~ In newId (roleIds db) ->
    Effect db (CreateRole newId data)
           (afterCreateRole db (mkRole newId (cr_name data) (cr_description data))
                            (RbacService.orEmpty (cr_permissions data)))
| EffRoleRenamed id data rs :
    ur_permissions data = None ->
    map role_id rs = roleIds db ->
    Effect db (UpdateRole id data) (set_roles rs db)
| EffRoleReplaced id data rs ps :
    ur_permissions data = Some ps ->
    map role_id rs = roleIds db ->
    In id (roleIds db) ->
    (forall p, In p ps -> In (pi_featureId p) (featureIds db)) ->
    Prisma.pairs_distinct (updateRows id ps) = true ->
    Effect db (UpdateRole id data) (afterReplaceRows (set_roles rs db) id ps)
| EffRoleDeleted id : Effect db (DeleteRole id) (afterDeleteRole db id).

(** A sequence of mutations, and the sequences all of whose calls
    back-fill at the store they run on. *)
Definition execAll (ops : list RbacOp) (db : Db) : Db :=
  fold_left (fun d op => exec op d) ops db.

Fixpoint allBackfill (db : Db) (ops : list RbacOp) : bool :=
  match ops with
  | [] => true
  | op :: ops' => backfills db op && allBackfill (exec op db) ops'
  end.

(* ================================================================== *)
(** ** A seeded store, for examples *)
(* ================================================================== *)

Definition r_super : Role := mkRole "r_super" "SuperAdmin" None.
Definition r_clerk : Role := mkRole "r_clerk" "Clerk" None.
Definition f_rbac : Feature := mkFeature "f_rbac" "RBAC_management" None.
Definition f_user : Feature := mkFeature "f_user" "user_management" None.

Definition u_root : User :=
  mkUser "u_root" "root@example.com" "Root" "hash1" true 0 "r_super".
Definition u_bob : User :=
  mkUser "u_bob" "bob@example.com" "Bob" "hash2" true 3 "r_clerk".
Definition u_eve : User :=
  mkUser "u_eve" "eve@example.com" "Eve" "hash3" false 1 "r_clerk".

Definition t_live : RefreshToken := mkRefreshToken "jti_live" "u_bob" 1000 false.
Definition t_dead : RefreshToken := mkRefreshToken "jti_dead" "u_bob" 1000 true.
Definition t_other : RefreshToken := mkRefreshToken "jti_other" "u_bob" 2000 false.

Definition db_seed : Db :=
  mkDb [u_root; u_bob; u_eve]
       [t_live; t_dead; t_other]
       [r_super; r_clerk]
       [f_rbac; f_user]
       [fullAccess "r_super" "f_rbac"; fullAccess "r_super" "f_user";
        rowOf "r_clerk" "f_rbac" noAccess;
        rowOf "r_clerk" "f_user" (mkFlags None (Some true) None None None)].

Definition billing (defaults : option PermissionFlags) : CreateFeatureInput :=
  mkCreateFeatureInput "billing" None defaults.

Definition readOnly : PermissionFlags := mkFlags None (Some true) None None None.

Definition manager : CreateRoleInput :=
  mkCreateRoleInput "Manager" None
    (Some [mkPermissionInput "f_user" (mkFlags (Some true) (Some true) None None None)]).


Definition clerkReadsUsers : UpdateRoleInput :=
  mkUpdateRoleInput None None (Some [mkPermissionInput "f_user" readOnly]).

(* ================================================================== *)
(** ** SuperAdmin users *)
(* ================================================================== *)

(** The user's role is the one named "SuperAdmin". *)
Definition holdsSuperAdmin (db : Db) (u : User) : bool :=
  UserService.isSuperAdmin (Prisma.roleById db (user_roleId u)).

Definition superAdmins (db : Db) : list User :=
  filter (holdsSuperAdmin db) (users db).

Definition promote : UpdateUserInput :=
  mkUpdateUserInput None None None (Some "r_super") None.

Definition demote : UpdateUserInput :=
  mkUpdateUserInput None None None (Some "r_clerk") None.

Definition deactivate : UpdateUserInput :=
  mkUpdateUserInput None None None None (Some false).

(* ================================================================== *)
(** ** A codec for examples *)
(* ================================================================== *)

(** Four tokens: an access token of u_eve issued at version 1, an access
    token of u_bob at version 3, and refresh tokens of u_bob for the rows
    jti_dead and jti_live; they expire at 100, 100, 1000 and 1000. *)
Definition decode_demo (token : string) : option Jwt :=
  if token =? "acc_eve_v1"
  then Some (mkJwt AccessJwt (mkPayload (JsString "u_eve") (JsNumber 1) None) 100)
  else if token =? "acc_bob_v3"
  then Some (mkJwt AccessJwt (mkPayload (JsString "u_bob") (JsNumber 3) None) 100)
  else if token =? "ref_bob_dead"
  then Some (mkJwt RefreshJwt
                   (mkPayload (JsString "u_bob") (JsNumber 3) (Some "jti_dead")) 1000)
  else if token =? "ref_bob_live"
  then Some (mkJwt RefreshJwt
                   (mkPayload (JsString "u_bob") (JsNumber 3) (Some "jti_live")) 1000)
  else None.

(** The seeded store after the tokenVersion of u_eve is incremented. *)
Definition db_eve_bumped : Db :=
  snd (Prisma.user_update "u_eve" Prisma.incrementTokenVersion db_seed).

Definition sign_demo (kind : JwtKind) (payload : JwtPayload) (now : Z) : string :=
  match kind with
  | AccessJwt => "acc_new"
  | RefreshJwt => "ref_new"
  end.

(* ================================================================== *)
(** ** Stores after session operations *)
(* ================================================================== *)

(** [updateMany({ where, data: { revoked: true } })] on the table. *)
Definition revokeWhere (where_ : RefreshToken -> bool) (ts : list RefreshToken)
  : list RefreshToken :=
  map (fun t => if where_ t then Prisma.revoke t else t) ts.

(** The store after a successful logoutAll of [user]. *)
Definition afterLogoutAll (db : Db) (user : User) : Db :=
  set_users
    (map (fun v => if user_id v =? user_id user
                   then Prisma.incrementTokenVersion user else v) (users db))
    (set_refreshTokens
       (revokeWhere (fun t => (rt_userId t =? user_id user) && negb (rt_revoked t))
                    (refreshTokens db)) db).

(** The store after logout of the row [jti] of user [uid]. *)
Definition afterLogout (db : Db) (jti_ uid : string) : Db :=
  set_refreshTokens
    (revokeWhere (fun t => (rt_id t =? jti_) && (rt_userId t =? uid))
                 (refreshTokens db)) db.

(** The operations of the session authority on the store. *)
Inductive SessionOp :=
| OpLogin (now : Z) (newId userId : string)
| OpRefresh (now : Z) (newId jti_ userId : string) (tokenVersion : Z)
| OpLogout (jti_ userId : string)
| OpLogoutAll (userId tokenId : string) (tokenVersion : Z).

(** The store an operation leaves, whether it returns or throws. *)
Definition runSession (refreshLifetime : Z) (op : SessionOp) (db : Db) : Db :=
  match op with
  | OpLogin now newId userId =>
      snd (AuthService.createRefreshToken refreshLifetime now newId userId db)
  | OpRefresh now newId jti_ userId tokenVersion =>
      snd (AuthService.refresh refreshLifetime now newId jti_ userId tokenVersion db)
  | OpLogout jti_ userId => snd (AuthService.logout jti_ userId db)
  | OpLogoutAll userId tokenId tokenVersion =>
      snd (AuthService.logoutAll userId tokenId tokenVersion db)
  end.

Definition runSessions (refreshLifetime : Z) (ops : list SessionOp) (db : Db) : Db :=
  fold_left (fun d op => runSession refreshLifetime op d) ops db.

(** What a session operation may do to the two tables: revoke rows and
    append rows; rewrite users without changing their ids. *)
Record Monotone (db db' : Db) : Prop := mkMonotone {
  mono_tokens :
    exists w extra,
      refreshTokens db' = revokeWhere w (refreshTokens db) ++ extra;
  mono_users :
    exists f, users db' = map f (users db) /\ forall v, user_id (f v) = user_id v
}.

(** The store of the unit test "should create feature WITH defaults
    (Auto-Assign)": two roles, no feature. *)
Definition db_unit : Db :=
  mkDb [] [] [mkRole "role_admin" "Super Admin" None; mkRole "role_staff" "Staff" None]
       [] [].

From Stdlib Require Import Permutation Sorted.

(* ================================================================== *)
(** ** The store contract, continued: update of a feature, paged reads *)
(* ================================================================== *)

(** [findMany({ ..., orderBy })]: the rows in ascending order of the
    comparison [le]; rows that compare equal keep their order. *)
Fixpoint insertBy {A} (le : A -> A -> bool) (x : A) (l : list A) : list A :=
  match l with
  | [] => [x]
  | y :: l' => if le x y then x :: l else y :: insertBy le x l'
  end.

Definition orderBy {A} (le : A -> A -> bool) (l : list A) : list A :=
  fold_right (insertBy le) [] l.

(** [findMany({ ..., skip, take })]: [take] rows after the first [skip],
    for a [skip] and a [take] from 0 to 2^31 - 1, the numbers the query
    engine takes as they are.  The query schemas admit a page and a limit
    of at least 1, so that neither number is negative; a larger number
    does not reach the database as it is (a skip of 2^32 reads from the
    first row), and there the definition is not a model of the code. *)
Definition skipTake {A} (skip take : Z) (rows : list A) : list A :=
  firstn (Z.to_nat take) (skipn (Z.to_nat skip) rows).

(** [Math.ceil(total / limit)] for a count and a limit of at least 1. *)
Definition ceilDiv (total limit : Z) : Z := ((total + limit - 1) / limit)%Z.

Record Pagination := mkPagination {
  pg_total : Z;
  pg_page : Z;
  pg_limit : Z;
  pg_totalPages : Z
}.

(** [select: { id: true, name: true }] on a feature and on a role. *)
Record FeatureRef := mkFeatureRef {
  fr_id : string;
  fr_name : string
}.

Record RoleOption := mkRoleOption {
  ro_id : string;
  ro_name : string
}.

(** A permission row with [include: { feature: { select: { id, name } } }]. *)
Record PermissionView := mkPermissionView {
  pv_row : RoleFeature;
  pv_feature : FeatureRef
}.

(** A role with [include: { permissions: ... }]. *)
Record RoleView := mkRoleView {
  rv_role : Role;
  rv_permissions : list PermissionView
}.

(** [select: SAFE_USER_SELECT] (modules/user/service.ts): the row without
    its password and its tokenVersion. *)
Record SafeUser := mkSafeUser {
  safe_id : string;
  safe_email : string;
  safe_name : string;
  safe_isActive : bool;
  safe_roleId : string
}.

Definition safeUser (u : User) : SafeUser :=
  mkSafeUser (user_id u) (user_email u) (user_name u) (user_isActive u)
             (user_roleId u).


Module PrismaExt.

(** [feature.update({ where: { id }, data })]; an absent field of [data]
    is left as it is, and the unique name is checked when it changes (the
    unique columns of Feature are id and name: prismabox
    FeatureWhereUnique). *)
Definition feature_update (id : string) (name : option string)
           (description : option (option string)) : M Feature :=
  fun db =>
    match Prisma.featureById db id with
    | None => (Err (PrismaClientKnownRequestError P2025), db)
    | Some f =>
        let f' := mkFeature id
                    (match name with Some n => n | None => feature_name f end)
                    (match description with
                     | Some d => d
                     | None => feature_description f
                     end) in
        if negb (feature_name f' =? feature_name f)
           && existsb (fun g => feature_name g =? feature_name f') (features db)
        then (Err (PrismaClientKnownRequestError P2002), db)
        else
          (Ok f',
           set_features
             (map (fun g => if feature_id g =? id then f' else g) (features db)) db)
    end.

(** [feature.findMany({ where, skip, take, orderBy })] and
    [feature.count({ where })]. *)
Definition feature_findMany_where (where_ : Feature -> bool)
           (le : Feature -> Feature -> bool) (skip take : Z) : M (list Feature) :=
  fun db => (Ok (skipTake skip take (orderBy le (filter where_ (features db)))), db).

Definition feature_count (where_ : Feature -> bool) : M Z :=
  fun db => (Ok (Z.of_nat (length (filter where_ (features db)))), db).

(** The permission rows of a role, each with its feature.  The relation
    is required, so that every row has its feature by the foreign key; the
    join yields nothing for a row without one. *)
Definition permissionsOf (db : Db) (rid : string) : list PermissionView :=
  flat_map
    (fun p =>
       match Prisma.featureById db (rf_featureId p) with
       | Some f => [mkPermissionView p (mkFeatureRef (feature_id f) (feature_name f))]
       | None => []
       end)
    (filter (fun p => rf_roleId p =? rid) (roleFeatures db)).

(** [role.findMany({ where, skip, take, orderBy })]; the [where] of
    getAllRoles looks into the permission rows, so that it reads the
    store. *)
Definition role_findMany_where (where_ : Db -> Role -> bool)
           (le : Role -> Role -> bool) (skip take : Z) : M (list Role) :=
  fun db => (Ok (skipTake skip take (orderBy le (filter (where_ db) (roles db)))), db).

Definition role_count (where_ : Db -> Role -> bool) : M Z :=
  fun db => (Ok (Z.of_nat (length (filter (where_ db) (roles db)))), db).



End PrismaExt.

(* ================================================================== *)
(** ** modules/rbac/service.ts, continued *)
(* ================================================================== *)

(** UpdateFeatureInput of ./schema (prismabox FeaturePlainInputUpdate). *)
Record UpdateFeatureInput := mkUpdateFeatureInput {
  uf_name : option string;
  uf_description : option (option string)
}.

(** The result of getMyRole. *)
Record MyPermission := mkMyPermission {
  mp_featureId : string;
  mp_featureName : string;
  mp_canCreate : bool;
  mp_canRead : bool;
  mp_canUpdate : bool;
  mp_canDelete : bool;
  mp_canPrint : bool
}.

Record MyRole := mkMyRole {
  mr_roleName : string;
  mr_permissions : list MyPermission
}.

Module RbacServiceExt.

Section WithCollation.

(** [{ contains: s }] and [orderBy: { name: "asc" }] are evaluated by the
    database, under its collation. *)
Variable contains : string -> string -> bool.
Variable nameLe : string -> string -> bool.

(** The [where] of getAllFeatures: [if (search)], name or description
    contains it; a description that is null contains nothing. *)
Definition featureWhere (search : option string) (f : Feature) : bool :=
  if truthy search
  then contains (feature_name f) (orElse search "")
       || match feature_description f with
          | Some d => contains d (orElse search "")
          | None => false
          end
  else true.

(** RbacService.getAllFeatures *)
Definition getAllFeatures (page limit : Z) (search : option string)
  : M (list Feature * Pagination) :=
  let where_ := featureWhere search in
  let skip := ((page - 1) * limit)%Z in
  features <- PrismaExt.feature_findMany_where
                where_ (fun a b => nameLe (feature_name a) (feature_name b))
                skip limit ;;
  total <- PrismaExt.feature_count where_ ;;
  ret (features, mkPagination total page limit (ceilDiv total limit)).

(** RbacService.updateFeature *)
Definition updateFeature (id : string) (data : UpdateFeatureInput) : M Feature :=
  PrismaExt.feature_update id (uf_name data) (uf_description data).

(** The [where] of getAllRoles: [if (search)] the name contains it;
    [if (feature)] some permission row of the role is for a feature whose
    name contains it. *)
Definition roleWhere (search feature : option string) (db : Db) (r : Role) : bool :=
  (if truthy search then contains (role_name r) (orElse search "") else true)
  && (if truthy feature
      then existsb (fun pv => contains (fr_name (pv_feature pv)) (orElse feature ""))
                   (PrismaExt.permissionsOf db (role_id r))
      else true).

(** RbacService.getAllRoles *)
Definition getAllRoles (page limit : Z) (search feature : option string)
  : M (list RoleView * Pagination) :=
  let where_ := roleWhere search feature in
  let skip := ((page - 1) * limit)%Z in
  roles <- PrismaExt.role_findMany_where
             where_ (fun a b => nameLe (role_name a) (role_name b)) skip limit ;;
  withPermissions <-
    (fun db => (Ok (map (fun r => mkRoleView r (PrismaExt.permissionsOf db (role_id r)))
                        roles), db)) ;;
  total <- PrismaExt.role_count where_ ;;
  ret (withPermissions, mkPagination total page limit (ceilDiv total limit)).

(** RbacService.getRoleOptions *)
Definition getRoleOptions (page limit : Z) (search : option string)
  : M (list RoleOption * Pagination) :=
  let where_ := roleWhere search None in
  let skip := ((page - 1) * limit)%Z in
  roles <- PrismaExt.role_findMany_where
             where_ (fun a b => nameLe (role_name a) (role_name b)) skip limit ;;
  total <- PrismaExt.role_count where_ ;;
  ret (map (fun r => mkRoleOption (role_id r) (role_name r)) roles,
       mkPagination total page limit (ceilDiv total limit)).

End WithCollation.

(** The entry of getMyRole for one permission row. *)
Definition myPermission (pv : PermissionView) : MyPermission :=
  mkMyPermission (fr_id (pv_feature pv)) (fr_name (pv_feature pv))
                 (canCreate (pv_row pv)) (canRead (pv_row pv))
                 (canUpdate (pv_row pv)) (canDelete (pv_row pv))
                 (canPrint (pv_row pv)).

(** RbacService.getMyRole.  The relation User.role is required: by the
    foreign key the store has the role of every user, and the query
    cannot produce its record without it. *)
Definition getMyRole (userId : string) : M MyRole :=
  user <- Prisma.user_findUniqueOrThrow userId ;;
  role <- Prisma.role_findUniqueOrThrow (user_roleId user) ;;
  fun db =>
    (Ok (mkMyRole (role_name role)
                  (map myPermission (PrismaExt.permissionsOf db (role_id role)))), db).

End RbacServiceExt.

(* ================================================================== *)
(** ** modules/user/service.ts, continued *)
(* ================================================================== *)

Module UserServiceExt.

Section WithCollation.

Variable contains : string -> string -> bool.




End WithCollation.

(** UserService.getUser *)
Definition getUser (id : string) : M SafeUser :=
  user <- Prisma.user_findUniqueOrThrow id ;;
  ret (safeUser user).

End UserServiceExt.

(** The items of a paged answer; none when the call throws. *)
Definition itemsOf {A B} (r : result (list A * B) * Db) : list A :=
  match fst r with
  | Ok (items, _) => items
  | Err _ => []
  end.

(** The pagination record of a paged answer. *)
Definition paginationOf {A} (r : result (list A * Pagination) * Db)
  : option Pagination :=
  match fst r with
  | Ok (_, pg) => Some pg
  | Err _ => None
  end.

(* ================================================================== *)
(** ** The error hooks of the route groups *)
(* ================================================================== *)

(** [error.meta.target] of a P2002: the fields of the unique index as an
    array of strings, or the name of the index as one string. *)
Inductive MetaTarget :=
| TargetArray (fields : list string)
| TargetString (name : string).

(** [error.meta] of a PrismaClientKnownRequestError, as the hooks read
    it: [field_name] on P2003, a string when it is there, and [target] on
    P2002.  The store contract above carries the code of the error; the
    meta is what the client attaches to it. *)
Record PrismaMeta := mkMeta {
  field_name : option string;
  target : option MetaTarget
}.

(** [(error.meta?.target as string[])?.join(", ")] runs to its end.  The
    cast does nothing when the program runs: a target that is a string
    has no [join], and the call throws a TypeError inside the hook. *)
Definition joinable (meta : PrismaMeta) : bool :=
  match target meta with
  | Some (TargetString _) => false
  | _ => true
  end.

(** The character class [[a-zA-Z0-9]]. *)
Definition isAlnum (c : ascii) : bool :=
  let n := nat_of_ascii c in
  ((48 <=? n)%nat && (n <=? 57)%nat)
  || ((65 <=? n)%nat && (n <=? 90)%nat)
  || ((97 <=? n)%nat && (n <=? 122)%nat).

(** The longest run of the class at the head of a string, and the rest. *)
Fixpoint takeAlnum (s : string) : string * string :=
  match s with
  | EmptyString => (EmptyString, EmptyString)
  | String c s' =>
      if isAlnum c
      then let (run, rest) := takeAlnum s' in (String c run, rest)
      else (EmptyString, s)
  end.

(** The regular expression [/_([a-zA-Z0-9]+)_fkey/] tried at the head of
    a string.  The underscore is not in the class, so that the group can
    only be the whole run of the class that follows the first underscore:
    a shorter one is followed by a character of the class. *)
Definition matchFkeyAt (s : string) : option string :=
  match s with
  | String c s' =>
      if Ascii.eqb c "_"
      then let (run, rest) := takeAlnum s' in
           if negb (run =? "") && String.prefix "_fkey" rest
           then Some run
           else None
      else None
  | EmptyString => None
  end.

(** [rawField.match(/_([a-zA-Z0-9]+)_fkey/)]: group 1 of the leftmost
    match, if there is a match. *)
Fixpoint matchFkey (s : string) : option string :=
  match matchFkeyAt s with
  | Some run => Some run
  | None =>
      match s with
      | String _ s' => matchFkey s'
      | EmptyString => None
      end
  end.

(** The message of the P2003 branch. *)
Definition invalidReference (meta : PrismaMeta) : string :=
  let rawField :=
    if truthy (field_name meta) then orElse (field_name meta) "" else "unknown" in
  let fieldName :=
    match matchFkey rawField with
    | Some run => run
    | None => rawField
    end in
  "Invalid Reference: The ID provided for '" ++ fieldName ++ "' does not exist.".

(** The message of the P2002 branch, for a meta that is [joinable]. *)
Definition duplicateValue (meta : PrismaMeta) : string :=
  let joined :=
    match target meta with
    | Some (TargetArray fields) => Some (String.concat ", " fields)
    | _ => None
    end in
  let target_ := if truthy joined then orElse joined "" else "field" in
  "Duplicate value for unique field: " ++ target_.

Definition PrismaCode_eqb (a b : PrismaCode) : bool :=
  match a, b with
  | P2002, P2002 => true
  | P2003, P2003 => true
  | P2025, P2025 => true
  | _, _ => false
  end.

(** [error instanceof Prisma.PrismaClientKnownRequestError &&
    error.code === c] *)
Definition isPrisma (c : PrismaCode) (e : Error) : bool :=
  match e with
  | PrismaClientKnownRequestError c' => PrismaCode_eqb c' c
  | _ => false
  end.

(** The hooks of a group in the order they are asked; the first that
    answers gives the response. *)
Fixpoint firstAnswer (hooks : list (Error -> option (Response unit))) (e : Error)
  : option (Response unit) :=
  match hooks with
  | [] => None
  | h :: hs =>
      match h e with
      | Some resp => Some resp
      | None => firstAnswer hs e
      end
  end.

(** The status a request ends with: that of the handler's response, or
    that of the hook that takes the throw; a throw no hook takes is
    answered by the framework with 500. *)
Definition statusWith {A} (hooks : list (Error -> option (Response unit)))
           (r : result (Response A)) : Z :=
  match r with
  | Ok resp => code resp
  | Err e =>
      match firstAnswer hooks e with
      | Some resp => code resp
      | None => 500
      end
  end.

(* ================================================================== *)
(** ** modules/user/index.ts *)
(* ================================================================== *)

Module UserRoutes.

(** The [onError] hook of the group /users: the response it returns, if
    it returns one.  On a P2002 whose target is a string the hook throws
    at [join] and returns nothing. *)
Definition onError (meta : PrismaMeta) (e : Error) : option (Response unit) :=
  if isPrisma P2003 e
  then Some (errorResponse 400 (invalidReference meta))
  else if isPrisma P2002 e
  then if joinable meta
       then Some (errorResponse 409 (duplicateValue meta))
       else None
  else if isPrisma P2025 e
  then Some (errorResponse 404 "Resource not found")
  else
    match e with
    | DeleteSystemError =>
        Some (errorResponse 403
                "Operation Forbidden: This is a protected user and cannot be deleted")
    | DeleteSelfError =>
        Some (errorResponse 403
                "Operation Forbidden: You cannot delete your own account")
    | CreateSystemError =>
        Some (errorResponse 403
                "Operation Forbidden: You cannot create user with SuperAdmin role more than one")
    | UpdateSystemError =>
        Some (errorResponse 403
                "Operation Forbidden: You cannot update user status to inactive with SuperAdmin role")
    | _ => None
    end.

(** The hooks that see a throw of a handler of the group: its own, and
    that of createProtectedApp. *)
Definition hooks (meta : PrismaMeta) : list (Error -> option (Response unit)) :=
  [onError meta; Routes.protectedOnError].

(** The handlers of the routes.  A request reaches the handler of a route
    once authMiddleware has derived the user, the route's [params] and
    [body] have passed their schemas and its
    [beforeHandle: hasPermission(FEATURE_NAME, action)] has let it
    through; the schemas and middleware/permission are not among the
    sources at hand, and what is embedded is the handler, on the typed
    values a validated request gives it. *)

Section WithHash.

Variable hash : string -> string.

(** The handler of POST /users; the service selects SAFE_USER_SELECT. *)
Definition createUserHandler (newId : string) (body : CreateUserInput)
  : M (Response SafeUser) :=
  data <- UserService.createUser hash newId body ;;
  ret (successResponse (Some (safeUser data)) "User Succesfully Created" 201).

(** The handler of PATCH /users/:id. *)
Definition updateUserHandler (id : string) (body : UpdateUserInput)
  : M (Response SafeUser) :=
  updatedUser <- UserService.updateUser hash id body ;;
  ret (successResponse (Some (safeUser updatedUser)) "User updated successfully" 200).

End WithHash.

(** The handler of GET /users/:id.  It tests [!user] on the object the
    service returns, which is never falsy: a missing user is the throw of
    findUniqueOrThrow. *)
Definition getUserHandler (id : string) : M (Response SafeUser) :=
  user <- UserServiceExt.getUser id ;;
  ret (successResponse (Some user) "User details retrieved" 200).

(** The handler of DELETE /users/:id; [user] is the one authMiddleware
    derived. *)
Definition deleteUserHandler (id : string) (user : AuthUser) : M (Response SafeUser) :=
  deletedUser <- UserService.deleteUser id (au_id user) ;;
  ret (successResponse (Some (safeUser deletedUser)) "User Successfully Deleted" 200).

End UserRoutes.

(* ================================================================== *)
(** ** modules/rbac/index.ts *)
(* ================================================================== *)

Module RbacRoutes.

(** The [onError] hook of the group /rbac, branch by branch in the order
    of the source: the response it returns, if it returns one.  On a
    P2002 whose target is a string the hook throws at [join] and returns
    nothing.  Its last but two branch tests for UpdateSystemError of
    modules/rbac/error, a class the service never throws and which is
    none of the errors above. *)
Definition onError (meta : PrismaMeta) (e : Error) : option (Response unit) :=
  if isPrisma P2003 e
  then Some (errorResponse 400 (invalidReference meta))
  else if isPrisma P2002 e
  then if joinable meta
       then Some (errorResponse 409 (duplicateValue meta))
       else None
  else if isPrisma P2025 e
  then Some (errorResponse 404 "Resource not found")
  else if isPrisma P2003 e
  then
    if match field_name meta with
       | Some s => includes s "User_roleId_fkey"
       | None => false
       end
    then Some (errorResponse 409
                 "Cannot delete Role: It is currently assigned to one or more users.")
    else Some (errorResponse 400 "Invalid Reference...")
  else
    match e with
    | DeleteSystemError =>
        Some (errorResponse 403
                "Operation Forbidden: This is a protected system feature and cannot be deleted.")
    | InvalidFeatureIdError message => Some (errorResponse 400 message)
    | _ => None
    end.

Definition hooks (meta : PrismaMeta) : list (Error -> option (Response unit)) :=
  [onError meta; Routes.protectedOnError].

(** The handlers of the routes.  As in /users, a request reaches the
    handler once authMiddleware, the schemas of [params] and [body] and
    [beforeHandle: hasPermission(FEATURE_NAME, action)] have let it
    through (/roles/me has no [beforeHandle]); what is embedded is the
    handler, on the typed values a validated request gives it. *)

(** The handler of DELETE /rbac/roles/:id. *)
Definition deleteRoleHandler (id : string) : M (Response Role) :=
  deletedRole <- RbacService.deleteRole id ;;
  ret (successResponse (Some deletedRole) "Role deleted successfully" 200).

(** The handler of DELETE /rbac/features/:id. *)
Definition deleteFeatureHandler (id : string) : M (Response Feature) :=
  deletedFeature <- RbacService.deleteFeature id ;;
  ret (successResponse (Some deletedFeature) "Feature deleted successfully" 200).

(** The handler of POST /rbac/features. *)
Definition createFeatureHandler (newId : string) (body : CreateFeatureInput)
  : M (Response Feature) :=
  feature <- RbacService.createFeature newId body ;;
  ret (successResponse (Some feature) "Feature created successfully" 201).

(** The handler of PATCH /rbac/features/:id. *)
Definition updateFeatureHandler (id : string) (body : UpdateFeatureInput)
  : M (Response Feature) :=
  feature <- RbacServiceExt.updateFeature id body ;;
  ret (successResponse (Some feature) "Feature updated successfully" 200).

(** The handler of GET /rbac/roles/me; [user] is the one authMiddleware
    derived. *)
Definition getMyRoleHandler (user : AuthUser) : M (Response MyRole) :=
  myRole <- RbacServiceExt.getMyRole (au_id user) ;;
  ret (successResponse (Some myRole) "My role retrieved successfully" 200).

(** The handler of POST /rbac/roles. *)
Definition createRoleHandler (newId : string) (body : CreateRoleInput)
  : M (Response (Role * list RoleFeature)) :=
  newRole <- RbacService.createRole newId body ;;
  ret (successResponse (Some newRole) "Role created successfully" 201).

(** The handler of PATCH /rbac/roles/:id. *)
Definition updateRoleHandler (id : string) (body : UpdateRoleInput)
  : M (Response (Role * list RoleFeature)) :=
  updatedRole <- RbacService.updateRole id body ;;
  ret (successResponse (Some updatedRole) "Role updated successfully" 200).

End RbacRoutes.

(* ================================================================== *)
(** ** What a computation can throw *)
(* ================================================================== *)

(** Every throw of [m] satisfies [P]. *)
Definition Throws {A} (P : Error -> Prop) (m : M A) : Prop :=
  forall db e db', m db = (Err e, db') -> P e.

(** A known request error of the store with one of the codes [cs]. *)
Definition PrismaOf (cs : list PrismaCode) (e : Error) : Prop :=
  match e with
  | PrismaClientKnownRequestError c => In c cs
  | _ => False
  end.

(** The hooks answer the error, with one of the statuses [allowed]. *)
Definition Answered (hooks : list (Error -> option (Response unit)))
           (allowed : list Z) (e : Error) : Prop :=
  exists resp, firstAnswer hooks e = Some resp /\ In (code resp) allowed.

(** The status the hooks of /users and of /rbac give each code of the
    store. *)
Definition prismaStatus (c : PrismaCode) : Z :=
  match c with
  | P2002 => 409
  | P2003 => 400
  | P2025 => 404
  end.

(** The ids of the users whose role is the one named "SuperAdmin". *)
Definition superAdminIds (db : Db) : list string := map user_id (superAdmins db).

(** Two stores with the same roles, features and permission rows. *)
Definition SamePermissions (db db' : Db) : Prop :=
  roles db' = roles db /\ features db' = features db
  /\ roleFeatures db' = roleFeatures db.

(* ================================================================== *)
(** ** The /auth routes: logout/all, and the validation of the body *)
(* ================================================================== *)

Module SessionRoutes.

Section WithService.

Variable decode : string -> option Jwt.

(** [AuthService.logoutAll({ userId, requestingTokenId, log })], whose
    source is not at hand: the route is embedded over any service. *)
Variable logoutAll : string -> string -> M unit.


End WithService.

(** The value of the field [refresh_token] of a request body. *)
Inductive BodyField :=
| FieldAbsent
| FieldNull
| FieldString (s : string)
| FieldOther.

(** The answer of the [onError] hook of createBaseApp (libs/response.ts)
    to a body the schema of the route refuses: the framework throws
    before the handler runs, and the hook answers the code VALIDATION
    with 400.  The list of issues it attaches is left out. *)
Definition validationError {A} : Response A := errorResponse 400 "Validation Error".

Section WithSchema.

Variable decode : string -> option Jwt.
Variable sign : JwtKind -> JwtPayload -> Z -> string.
Variable refreshLifetime : Z.

(** `body: TokenSchema` and `body: RefreshTokenSchema` (the module
    ./schema of the routes, not among the sources at hand): what the
    schema makes of the field
    [refresh_token], [None] when it refuses the body, else the field as
    the handler reads it.  The routes are embedded over any schema. *)
Variable TokenSchema RefreshTokenSchema : BodyField -> option (option string).

(** POST /auth/logout: the validation of the body, then the handler. *)
Definition logout (now : Z) (cookie_refresh_token : option string)
           (body_refresh_token : BodyField) : M (Response unit) :=
  match TokenSchema body_refresh_token with
  | Some field => Routes.logoutRoute decode now cookie_refresh_token field
  | None => ret validationError
  end.

(** POST /auth/refresh: the validation of the body, then the handler. *)
Definition refresh (now : Z) (newId : string) (cookie_refresh_token : option string)
           (body_refresh_token : BodyField) : M (Response SessionBody) :=
  match RefreshTokenSchema body_refresh_token with
  | Some field =>
      Routes.refreshRoute decode sign refreshLifetime now newId
                          cookie_refresh_token field
  | None => ret validationError
  end.

End WithSchema.

(** Modelled from the spec: request-body validation is a collaborator of
    which the spec gives the interface only (section 1), and the schema's
    source is not at hand.  This is the TokenSchema the repository's
    tests of POST /auth/logout show: a string, the empty one too, passes
    and reaches the handler (200), null is refused (400); a field that is
    no string is refused like null, and [optional] says whether the
    field may be left out, which the tests do not show. *)
Definition tokenSchema (optional : bool) (field : BodyField) : option (option string) :=
  match field with
  | FieldString s => Some (Some s)
  | FieldAbsent => if optional then Some None else None
  | FieldNull | FieldOther => None
  end.

End SessionRoutes.

(* ================================================================== *)
(** * Properties *)
(* ================================================================== *)

(** ** Lists of rows and their keys *)

Section Keys.

Context {A : Type} (key : A -> string).

Lemma existsb_key_In (l : list A) (id : string) :
  existsb (fun x => key x =? id) l = true <-> In id (map key l).
Proof.
  rewrite existsb_exists, in_map_iff. split.
  - intros [x [Hx He]]. apply String.eqb_eq in He. eauto.
  - intros [x [He Hx]]. exists x. split; [assumption|]. now apply String.eqb_eq.
Qed.

Lemma existsb_key_notIn (l : list A) (id : string) :
  existsb (fun x => key x =? id) l = false <-> ~ In id (map key l).
Proof.
  rewrite <- existsb_key_In. destruct (existsb _ l); intuition congruence.
Qed.

Lemma find_key_In (l : list A) (id : string) (x : A) :
  find (fun y => key y =? id) l = Some x -> In x l /\ key x = id.
Proof.
  intros H. apply find_some in H. now rewrite String.eqb_eq in H.
Qed.

Lemma find_key_None (l : list A) (id : string) :
  find (fun y => key y =? id) l = None <-> ~ In id (map key l).
Proof.
  induction l as [|a l IH]; simpl; [tauto|].
  destruct (String.eqb_spec (key a) id); [intuition congruence|].
  rewrite IH. tauto.
Qed.

Lemma find_key_app_new (l : list A) (x : A) :
  ~ In (key x) (map key l) ->
  find (fun y => key y =? key x) (l ++ [x]) = Some x.
Proof.
  intros H. induction l as [|a l IH]; simpl in *.
  - now rewrite String.eqb_refl.
  - destruct (String.eqb_spec (key a) (key x)); [tauto|]. apply IH. tauto.
Qed.

Lemma count_key_absent (l : list A) (id : string) :
  ~ In id (map key l) -> filter (fun x => key x =? id) l = [].
Proof.
  induction l as [|a l IH]; simpl; intros H; [reflexivity|].
  destruct (String.eqb_spec (key a) id); [tauto|]. apply IH. tauto.
Qed.

Lemma count_key_unique (l : list A) (id : string) :
  NoDup (map key l) -> In id (map key l) ->
  length (filter (fun x => key x =? id) l) = 1%nat.
Proof.
  induction l as [|a l IH]; simpl; intros Hnd Hin; [contradiction|].
  inversion Hnd as [|? ? Hna Hnd']; subst.
  destruct (String.eqb_spec (key a) id) as [E|E].
  - subst id. simpl. now rewrite count_key_absent.
  - apply IH; [assumption|]. destruct Hin; [contradiction|assumption].
Qed.

Lemma map_key_filter_neq (l : list A) (id x : string) :
  In x (map key (filter (fun y => negb (key y =? id)) l)) <->
  In x (map key l) /\ x <> id.
Proof.
  rewrite !in_map_iff. split.
  - intros [y [E Hy]]. apply filter_In in Hy. destruct Hy as [Hy Hn].
    apply negb_true_iff, String.eqb_neq in Hn. split; [eauto|congruence].
  - intros [[y [E Hy]] Hn]. exists y. split; [assumption|].
    apply filter_In. split; [assumption|].
    apply negb_true_iff, String.eqb_neq. congruence.
Qed.

Lemma NoDup_map_key_filter (l : list A) (f : A -> bool) :
  NoDup (map key l) -> NoDup (map key (filter f l)).
Proof.
  induction l as [|a l IH]; simpl; intros Hnd; [constructor|].
  inversion Hnd as [|? ? Hna Hnd']; subst.
  destruct (f a); simpl; [|now apply IH].
  constructor; [|now apply IH].
  intros Hin. apply Hna. apply in_map_iff in Hin. destruct Hin as [y [E Hy]].
  apply filter_In in Hy. apply in_map_iff. exists y. tauto.
Qed.

End Keys.

Lemma filter_none {A} (g : A -> bool) (l : list A) :
  (forall x, In x l -> g x = false) -> filter g l = [].
Proof.
  induction l as [|a l IH]; simpl; intros H; [reflexivity|].
  rewrite (H a (or_introl eq_refl)). apply IH. intros x Hx. apply H. now right.
Qed.

Lemma filter_all {A} (g : A -> bool) (l : list A) :
  (forall x, In x l -> g x = true) -> filter g l = l.
Proof.
  induction l as [|a l IH]; simpl; intros H; [reflexivity|].
  rewrite (H a (or_introl eq_refl)). f_equal. apply IH. intros x Hx. apply H. now right.
Qed.

Lemma find_app_first {A} (g : A -> bool) (l1 l2 : list A) :
  find g (l1 ++ l2)
  = match find g l1 with Some x => Some x | None => find g l2 end.
Proof.
  induction l1 as [|a l IH]; simpl; [reflexivity|]. now destruct (g a).
Qed.

Lemma Array_includes_In (xs : list string) (x : string) :
  Array_includes xs x = true <-> In x xs.
Proof.
  unfold Array_includes. rewrite existsb_exists. split.
  - intros [y [Hy E]]. apply String.eqb_eq in E. now subst.
  - intros H. exists x. split; [assumption|apply String.eqb_refl].
Qed.

(** ** Protected entities *)

(** C9. Deleting the role named "SuperAdmin" or the feature named
    "RBAC_management" throws DeleteSystemError, whatever the rest of the
    store is, and the store (the entity and every RoleFeature row) is left
    as it was. *)
Theorem protected_delete_rejected :
  forall (db : Db) (id : string),
    (forall r, Prisma.roleById db id = Some r -> role_name r = "SuperAdmin" ->
               RbacService.deleteRole id db = (Err DeleteSystemError, db))
    /\
    (forall f, Prisma.featureById db id = Some f -> feature_name f = "RBAC_management" ->
               RbacService.deleteFeature id db = (Err DeleteSystemError, db)).
Proof.
  intros db id. split.
  - intros r Hfind Hname.
    unfold RbacService.deleteRole, Prisma.role_findUniqueOrThrow,
      Prisma.role_findUnique, bind. rewrite Hfind. cbn. now rewrite Hname.
  - intros f Hfind Hname.
    unfold RbacService.deleteFeature, Prisma.feature_findUniqueOrThrow,
      Prisma.feature_findUnique, bind. rewrite Hfind. cbn. now rewrite Hname.
Qed.

Lemma protected_delete_rejected_witness :
  RbacService.deleteRole "r_super" db_seed = (Err DeleteSystemError, db_seed)
  /\ RbacService.deleteFeature "f_rbac" db_seed = (Err DeleteSystemError, db_seed).
Proof.
  split.
  - apply (proj1 (protected_delete_rejected db_seed "r_super") r_super); reflexivity.
  - apply (proj2 (protected_delete_rejected db_seed "f_rbac") f_rbac); reflexivity.
Defined.

(** ** The store monad *)

Lemma bind_ok {A B} (m : M A) (k : A -> M B) db a db' res :
  m db = (Ok a, db') -> k a db' = res -> bind m k db = res.
Proof. intros Hm Hk. unfold bind. now rewrite Hm. Qed.

Lemma bind_err {A B} (m : M A) (k : A -> M B) db e db' :
  m db = (Err e, db') -> bind m k db = (Err e, db').
Proof. intros Hm. unfold bind. now rewrite Hm. Qed.

Lemma bind_Ok_inv {A B} (m : M A) (k : A -> M B) db b db' :
  bind m k db = (Ok b, db') ->
  exists a db1, m db = (Ok a, db1) /\ k a db1 = (Ok b, db').
Proof.
  unfold bind. destruct (m db) as [[a|e] db1]; intros H; [eauto|discriminate].
Qed.

Lemma transaction_ok {A} (body : M A) db a db' :
  body db = (Ok a, db') -> transaction body db = (Ok a, db').
Proof. intros H. unfold transaction. now rewrite H. Qed.

Lemma transaction_err {A} (body : M A) db e db' :
  body db = (Err e, db') -> transaction body db = (Err e, db).
Proof. intros H. unfold transaction. now rewrite H. Qed.

Lemma transaction_atomic {A} (body : M A) db e db' :
  transaction body db = (Err e, db') -> db' = db.
Proof.
  unfold transaction. destruct (body db) as [[a|e'] d]; intros H; inversion H.
  reflexivity.
Qed.

Lemma transaction_Ok_inv {A} (body : M A) db a db' :
  transaction body db = (Ok a, db') -> body db = (Ok a, db').
Proof.
  unfold transaction. destruct (body db) as [[x|e] d]; intros H; now inversion H.
Qed.

Lemma snd_transaction {A} (body : M A) db (P : Db -> Prop) :
  P db -> (forall a db', body db = (Ok a, db') -> P db') ->
  P (snd (transaction body db)).
Proof.
  intros H0 H1. unfold transaction. destruct (body db) as [[a|e] d] eqn:E; simpl; eauto.
Qed.

(** ** RoleFeature rows *)

Lemma featureRow_roleId f d r : rf_roleId (RbacService.featureRow f d r) = role_id r.
Proof. unfold RbacService.featureRow. now destruct (RbacService.isAdmin r). Qed.

Lemma featureRow_featureId f d r :
  rf_featureId (RbacService.featureRow f d r) = feature_id f.
Proof. unfold RbacService.featureRow. now destruct (RbacService.isAdmin r). Qed.

Lemma roleRow_roleId r ps f : rf_roleId (RbacService.roleRow r ps f) = role_id r.
Proof. reflexivity. Qed.

Lemma roleRow_featureId r ps f :
  rf_featureId (RbacService.roleRow r ps f) = feature_id f.
Proof. reflexivity. Qed.

Lemma same_pair_has_pair p q :
  Prisma.same_pair p q = Prisma.has_pair (rf_roleId p) (rf_featureId p) q.
Proof.
  unfold Prisma.same_pair, Prisma.has_pair.
  now rewrite (String.eqb_sym (rf_roleId p)), (String.eqb_sym (rf_featureId p)).
Qed.

Lemma has_pair_true rid fid p :
  Prisma.has_pair rid fid p = true <-> rf_roleId p = rid /\ rf_featureId p = fid.
Proof.
  unfold Prisma.has_pair. now rewrite andb_true_iff, !String.eqb_eq.
Qed.

(** No row of [rows] is about the pair. *)
Lemma no_row_for (rows : list RoleFeature) rid fid :
  (forall p, In p rows -> rf_roleId p <> rid \/ rf_featureId p <> fid) ->
  filter (Prisma.has_pair rid fid) rows = [].
Proof.
  intros H. apply filter_none. intros p Hp. apply not_true_is_false.
  intros E. apply has_pair_true in E. destruct (H p Hp); tauto.
Qed.

Lemma rowsFor_none (rows : list RoleFeature) rid fid :
  (forall p, In p rows -> rf_featureId p <> fid) ->
  filter (Prisma.has_pair rid fid) rows = [].
Proof. intros H. apply no_row_for. intros p Hp. right. now apply H. Qed.

Lemma rowsFor_none_role (rows : list RoleFeature) rid fid :
  (forall p, In p rows -> rf_roleId p <> rid) ->
  filter (Prisma.has_pair rid fid) rows = [].
Proof. intros H. apply no_row_for. intros p Hp. left. now apply H. Qed.

Lemma no_clash (old new : list RoleFeature) :
  (forall p q, In p new -> In q old ->
               rf_roleId p <> rf_roleId q \/ rf_featureId p <> rf_featureId q) ->
  existsb (fun p => existsb (Prisma.same_pair p) old) new = false.
Proof.
  intros H. apply not_true_is_false. intros E.
  apply existsb_exists in E. destruct E as [p [Hp E]].
  apply existsb_exists in E. destruct E as [q [Hq E]].
  rewrite same_pair_has_pair in E. apply has_pair_true in E.
  destruct (H p q Hp Hq); intuition congruence.
Qed.

Lemma no_clash_inv (old new : list RoleFeature) p q :
  existsb (fun p => existsb (Prisma.same_pair p) old) new = false ->
  In p new -> In q old -> Prisma.same_pair p q = false.
Proof.
  intros H Hp Hq. apply not_true_is_false. intros E.
  assert (existsb (fun p => existsb (Prisma.same_pair p) old) new = true);
    [|congruence].
  apply existsb_exists. exists p. split; [assumption|].
  apply existsb_exists. now exists q.
Qed.

Lemma pairs_distinct_app (l1 l2 : list RoleFeature) :
  Prisma.pairs_distinct l1 = true ->
  Prisma.pairs_distinct l2 = true ->
  existsb (fun p => existsb (Prisma.same_pair p) l2) l1 = false ->
  Prisma.pairs_distinct (l1 ++ l2) = true.
Proof.
  induction l1 as [|a l1 IH]; simpl; intros H1 H2 Hc; [assumption|].
  apply andb_true_iff in H1. destruct H1 as [Ha H1].
  apply orb_false_iff in Hc. destruct Hc as [Hca Hc].
  rewrite IH by assumption. rewrite andb_true_r.
  rewrite existsb_app, Hca. apply negb_true_iff in Ha. now rewrite Ha.
Qed.

Lemma pairs_distinct_filter (g : RoleFeature -> bool) (l : list RoleFeature) :
  Prisma.pairs_distinct l = true -> Prisma.pairs_distinct (filter g l) = true.
Proof.
  induction l as [|a l IH]; simpl; intros H; [reflexivity|].
  apply andb_true_iff in H. destruct H as [Ha H].
  destruct (g a); [|now apply IH]. simpl. rewrite IH by assumption.
  rewrite andb_true_r. apply negb_true_iff. apply negb_true_iff in Ha.
  apply not_true_is_false. intros E. apply existsb_exists in E.
  destruct E as [q [Hq E]]. apply filter_In in Hq.
  assert (existsb (Prisma.same_pair a) l = true); [|congruence].
  apply existsb_exists. exists q. tauto.
Qed.

Lemma clash_sym (l1 l2 : list RoleFeature) :
  existsb (fun p => existsb (Prisma.same_pair p) l2) l1 = false ->
  existsb (fun p => existsb (Prisma.same_pair p) l1) l2 = false.
Proof.
  intros H. apply no_clash. intros p q Hp Hq.
  pose proof (no_clash_inv l2 l1 q p H Hq Hp) as E.
  rewrite same_pair_has_pair in E.
  destruct (String.eqb_spec (rf_roleId p) (rf_roleId q)) as [E1|E1]; [|now left].
  destruct (String.eqb_spec (rf_featureId p) (rf_featureId q)) as [E2|E2]; [|now right].
  exfalso. assert (Prisma.has_pair (rf_roleId q) (rf_featureId q) p = true);
    [|congruence].
  apply has_pair_true. now split.
Qed.

Lemma pairs_distinct_featureRows f d (rs : list Role) :
  NoDup (map role_id rs) ->
  Prisma.pairs_distinct (map (RbacService.featureRow f d) rs) = true.
Proof.
  induction rs as [|r rs IH]; simpl; intros Hnd; [reflexivity|].
  inversion Hnd as [|? ? Hna Hnd']; subst.
  rewrite IH by assumption. rewrite andb_true_r. apply negb_true_iff.
  apply not_true_is_false. intros H. apply existsb_exists in H.
  destruct H as [p [Hp Hs]]. apply in_map_iff in Hp. destruct Hp as [r' [E Hr']].
  subst p. rewrite same_pair_has_pair in Hs. apply has_pair_true in Hs.
  rewrite !featureRow_roleId in Hs. destruct Hs as [Hs _].
  apply Hna. rewrite <- Hs. now apply in_map.
Qed.

Lemma pairs_distinct_roleRows r ps (fs : list Feature) :
  NoDup (map feature_id fs) ->
  Prisma.pairs_distinct (map (RbacService.roleRow r ps) fs) = true.
Proof.
  induction fs as [|f fs IH]; simpl; intros Hnd; [reflexivity|].
  inversion Hnd as [|? ? Hna Hnd']; subst.
  rewrite IH by assumption. rewrite andb_true_r. apply negb_true_iff.
  apply not_true_is_false. intros H. apply existsb_exists in H.
  destruct H as [p [Hp Hs]]. apply in_map_iff in Hp. destruct Hp as [f' [E Hf']].
  subst p. rewrite same_pair_has_pair in Hs. apply has_pair_true in Hs.
  rewrite !roleRow_featureId in Hs. destruct Hs as [_ Hs].
  apply Hna. rewrite <- Hs. now apply in_map.
Qed.

Lemma rowsFor_featureRows f d (rs : list Role) (r : Role) :
  NoDup (map role_id rs) -> In r rs ->
  filter (Prisma.has_pair (role_id r) (feature_id f))
         (map (RbacService.featureRow f d) rs)
  = [RbacService.featureRow f d r].
Proof.
  induction rs as [|a rs IH]; simpl; intros Hnd Hin; [contradiction|].
  inversion Hnd as [|? ? Hna Hnd']; subst.
  unfold Prisma.has_pair at 1.
  rewrite featureRow_roleId, featureRow_featureId, String.eqb_refl, andb_true_r.
  destruct (String.eqb_spec (role_id a) (role_id r)) as [E|E].
  - destruct Hin as [Hin|Hin].
    + subst a. f_equal. apply rowsFor_none_role.
      intros p Hp Hq. apply in_map_iff in Hp. destruct Hp as [g [Eg Hg]].
      subst p. rewrite featureRow_roleId in Hq. apply Hna. rewrite <- Hq.
      now apply in_map.
    + exfalso. apply Hna. rewrite E. now apply in_map.
  - destruct Hin as [Hin|Hin]; [subst a; congruence|]. now apply IH.
Qed.

Lemma rowsFor_roleRows r ps (fs : list Feature) (f : Feature) :
  NoDup (map feature_id fs) -> In f fs ->
  filter (Prisma.has_pair (role_id r) (feature_id f))
         (map (RbacService.roleRow r ps) fs)
  = [RbacService.roleRow r ps f].
Proof.
  induction fs as [|a fs IH]; simpl; intros Hnd Hin; [contradiction|].
  inversion Hnd as [|? ? Hna Hnd']; subst.
  unfold Prisma.has_pair at 1.
  rewrite roleRow_roleId, roleRow_featureId, String.eqb_refl. cbn [andb].
  destruct (String.eqb_spec (feature_id a) (feature_id f)) as [E|E].
  - destruct Hin as [Hin|Hin].
    + subst a. f_equal. apply rowsFor_none.
      intros p Hp Hq. apply in_map_iff in Hp. destruct Hp as [g [Eg Hg]].
      subst p. rewrite roleRow_featureId in Hq. apply Hna. rewrite <- Hq.
      now apply in_map.
    + exfalso. apply Hna. rewrite E. now apply in_map.
  - destruct Hin as [Hin|Hin]; [subst a; congruence|]. now apply IH.
Qed.

Lemma count_app (g : RoleFeature -> bool) (l1 l2 : list RoleFeature) :
  length (filter g (l1 ++ l2)) = (length (filter g l1) + length (filter g l2))%nat.
Proof. now rewrite filter_app, length_app. Qed.

Lemma count_distinct (l : list RoleFeature) rid fid :
  Prisma.pairs_distinct l = true ->
  existsb (Prisma.has_pair rid fid) l = true ->
  length (filter (Prisma.has_pair rid fid) l) = 1%nat.
Proof.
  induction l as [|a l IH]; simpl; intros Hpd Hex; [discriminate|].
  apply andb_true_iff in Hpd. destruct Hpd as [Hna Hpd].
  destruct (Prisma.has_pair rid fid a) eqn:Ea.
  - simpl. f_equal. rewrite filter_none; [reflexivity|].
    intros q Hq. apply not_true_is_false. intros Eq.
    apply negb_true_iff in Hna.
    assert (existsb (Prisma.same_pair a) l = true); [|congruence].
    apply existsb_exists. exists q. split; [assumption|].
    rewrite same_pair_has_pair. apply has_pair_true in Ea. destruct Ea as [E1 E2].
    now rewrite E1, E2.
  - simpl in Hex. now apply IH.
Qed.

Lemma filter_filter_implied {A} (g h : A -> bool) (l : list A) :
  (forall x, g x = true -> h x = true) -> filter g (filter h l) = filter g l.
Proof.
  intros Himp. induction l as [|a l IH]; simpl; [reflexivity|].
  destruct (h a) eqn:Eh; simpl.
  - now rewrite IH.
  - destruct (g a) eqn:Eg; [|assumption].
    apply Himp in Eg. congruence.
Qed.

Lemma createMany_ok db (rows : list RoleFeature) :
  forallb (fun p => Prisma.role_exists db (rf_roleId p)
                    && Prisma.feature_exists db (rf_featureId p)) rows = true ->
  Prisma.pairs_distinct rows = true ->
  existsb (fun p => existsb (Prisma.same_pair p) (roleFeatures db)) rows = false ->
  Prisma.roleFeature_createMany rows db
  = (Ok (length rows), set_roleFeatures (roleFeatures db ++ rows) db).
Proof.
  intros Hfk Hpd Hcl. unfold Prisma.roleFeature_createMany.
  now rewrite Hpd, Hcl, Hfk.
Qed.

Lemma createMany_inv rows db n db' :
  Prisma.roleFeature_createMany rows db = (Ok n, db') ->
  forallb (fun p => Prisma.role_exists db (rf_roleId p)
                    && Prisma.feature_exists db (rf_featureId p)) rows = true
  /\ Prisma.pairs_distinct rows = true
  /\ existsb (fun p => existsb (Prisma.same_pair p) (roleFeatures db)) rows = false
  /\ db' = set_roleFeatures (roleFeatures db ++ rows) db.
Proof.
  unfold Prisma.roleFeature_createMany.
  destruct (Prisma.pairs_distinct rows); cbn [negb orb]; [|discriminate].
  destruct (existsb _ rows); [discriminate|].
  destruct (forallb _ rows); cbn [negb]; [|discriminate].
  intros H. inversion H. auto.
Qed.

(** ** Stores the schema accepts *)

Lemma Schema_fresh_feature db newId :
  SchemaOk db -> ~ In newId (featureIds db) ->
  forall p, In p (roleFeatures db) -> rf_featureId p <> newId.
Proof.
  intros Hs Hn p Hp E. apply Hn. rewrite <- E. now apply (so_rows db Hs).
Qed.

Lemma Schema_fresh_role db newId :
  SchemaOk db -> ~ In newId (roleIds db) ->
  forall p, In p (roleFeatures db) -> rf_roleId p <> newId.
Proof.
  intros Hs Hn p Hp E. apply Hn. rewrite <- E. now apply (so_rows db Hs).
Qed.

Lemma feature_free_fresh db newId name :
  existsb (fun f => (feature_id f =? newId) || (feature_name f =? name))
          (features db) = false ->
  ~ In newId (featureIds db).
Proof.
  intros H. apply (existsb_key_notIn feature_id). apply not_true_is_false.
  intros H'. apply existsb_exists in H'. destruct H' as [x [Hx E]].
  assert (existsb (fun f => (feature_id f =? newId) || (feature_name f =? name))
                  (features db) = true); [|congruence].
  apply existsb_exists. exists x. split; [assumption|]. now rewrite E.
Qed.

Lemma role_free_fresh db newId name :
  existsb (fun r => (role_id r =? newId) || (role_name r =? name)) (roles db) = false ->
  ~ In newId (roleIds db).
Proof.
  intros H. apply (existsb_key_notIn role_id). apply not_true_is_false.
  intros H'. apply existsb_exists in H'. destruct H' as [x [Hx E]].
  assert (existsb (fun r => (role_id r =? newId) || (role_name r =? name))
                  (roles db) = true); [|congruence].
  apply existsb_exists. exists x. split; [assumption|]. now rewrite E.
Qed.

Lemma NoDup_snoc (l : list string) (x : string) :
  NoDup l -> ~ In x l -> NoDup (l ++ [x]).
Proof.
  intros Hl Hx. apply NoDup_app; [assumption|repeat constructor; simpl; tauto|].
  intros y Hy [E|[]]. now subst y.
Qed.

Lemma Schema_insertFeature db f :
  SchemaOk db -> ~ In (feature_id f) (featureIds db) ->
  SchemaOk (set_features (features db ++ [f]) db).
Proof.
  intros [Hr Hf Ho Hp] Hfresh. constructor; unfold roleIds, featureIds in *;
    cbn [roles features roleFeatures set_features]; try assumption.
  - rewrite map_app. now apply NoDup_snoc.
  - intros p Hin. destruct (Ho p Hin). split; [assumption|].
    rewrite map_app. apply in_or_app. now left.
Qed.

Lemma Schema_afterCreateFeature db f d :
  SchemaOk db -> ~ In (feature_id f) (featureIds db) ->
  SchemaOk (afterCreateFeature db f d).
Proof.
  intros Hs Hfresh.
  pose proof (Schema_fresh_feature _ _ Hs Hfresh) as Hrows.
  destruct Hs as [Hr Hf Ho Hp]. constructor.
  - exact Hr.
  - unfold featureIds, afterCreateFeature. cbn [features set_roleFeatures set_features].
    rewrite map_app. now apply NoDup_snoc.
  - intros p Hin. unfold afterCreateFeature in Hin.
    cbn [roleFeatures set_roleFeatures] in Hin.
    unfold roleIds, featureIds, afterCreateFeature.
    cbn [roles features set_roleFeatures set_features]. rewrite map_app.
    apply in_app_or in Hin. destruct Hin as [Hin|Hin].
    + destruct (Ho p Hin). split; [assumption|]. apply in_or_app. now left.
    + apply in_map_iff in Hin. destruct Hin as [r [E Hrin]]. subst p.
      rewrite featureRow_roleId, featureRow_featureId. split.
      * now apply in_map.
      * apply in_or_app. right. now left.
  - unfold afterCreateFeature. cbn [roleFeatures set_roleFeatures].
    apply pairs_distinct_app; [assumption|now apply pairs_distinct_featureRows|].
    apply no_clash. intros p q Hq Hin. right.
    apply in_map_iff in Hin. destruct Hin as [r [E _]]. subst q.
    rewrite featureRow_featureId. now apply Hrows.
Qed.

Lemma Schema_afterCreateRole db r ps :
  SchemaOk db -> ~ In (role_id r) (roleIds db) ->
  SchemaOk (afterCreateRole db r ps).
Proof.
  intros Hs Hfresh.
  pose proof (Schema_fresh_role _ _ Hs Hfresh) as Hrows.
  destruct Hs as [Hr Hf Ho Hp]. constructor.
  - unfold roleIds, afterCreateRole. cbn [roles set_roleFeatures set_roles].
    rewrite map_app. now apply NoDup_snoc.
  - exact Hf.
  - intros p Hin. unfold afterCreateRole in Hin.
    cbn [roleFeatures set_roleFeatures] in Hin.
    unfold roleIds, featureIds, afterCreateRole.
    cbn [roles features set_roleFeatures set_roles]. rewrite map_app.
    apply in_app_or in Hin. destruct Hin as [Hin|Hin].
    + destruct (Ho p Hin). split; [|assumption]. apply in_or_app. now left.
    + apply in_map_iff in Hin. destruct Hin as [f [E Hfin]]. subst p.
      rewrite roleRow_roleId, roleRow_featureId. split.
      * apply in_or_app. right. now left.
      * now apply in_map.
  - unfold afterCreateRole. cbn [roleFeatures set_roleFeatures].
    apply pairs_distinct_app; [assumption|now apply pairs_distinct_roleRows|].
    apply no_clash. intros p q Hq Hin. left.
    apply in_map_iff in Hin. destruct Hin as [f [E _]]. subst q.
    rewrite roleRow_roleId. now apply Hrows.
Qed.

Lemma Schema_afterDeleteRole db id : SchemaOk db -> SchemaOk (afterDeleteRole db id).
Proof.
  intros [Hr Hf Ho Hp]. constructor.
  - apply (NoDup_map_key_filter role_id). exact Hr.
  - exact Hf.
  - intros p Hin. unfold afterDeleteRole in Hin. cbn [roleFeatures set_roleFeatures] in Hin.
    apply filter_In in Hin. destruct Hin as [Hin Hn]. destruct (Ho p Hin) as [H1 H2].
    split; [|exact H2]. unfold roleIds, afterDeleteRole.
    cbn [roles set_roleFeatures set_roles]. apply (map_key_filter_neq role_id).
    split; [exact H1|]. now apply negb_true_iff, String.eqb_neq in Hn.
  - unfold afterDeleteRole. cbn [roleFeatures set_roleFeatures].
    now apply pairs_distinct_filter.
Qed.

Lemma Schema_afterDeleteFeature db id :
  SchemaOk db -> SchemaOk (afterDeleteFeature db id).
Proof.
  intros [Hr Hf Ho Hp]. constructor.
  - exact Hr.
  - apply (NoDup_map_key_filter feature_id). exact Hf.
  - intros p Hin. unfold afterDeleteFeature in Hin.
    cbn [roleFeatures set_roleFeatures] in Hin.
    apply filter_In in Hin. destruct Hin as [Hin Hn]. destruct (Ho p Hin) as [H1 H2].
    split; [exact H1|]. unfold featureIds, afterDeleteFeature.
    cbn [features set_roleFeatures set_features]. apply (map_key_filter_neq feature_id).
    split; [exact H2|]. now apply negb_true_iff, String.eqb_neq in Hn.
  - unfold afterDeleteFeature. cbn [roleFeatures set_roleFeatures].
    now apply pairs_distinct_filter.
Qed.

Lemma Schema_rename db (rs : list Role) :
  map role_id rs = roleIds db -> SchemaOk db -> SchemaOk (set_roles rs db).
Proof.
  intros E [Hr Hf Ho Hp]. constructor; unfold roleIds, featureIds in *;
    cbn [roles features roleFeatures set_roles]; rewrite ?E; assumption.
Qed.

Lemma Schema_afterReplaceRows db id (ps : list PermissionInput) :
  SchemaOk db ->
  In id (roleIds db) ->
  (forall p, In p ps -> In (pi_featureId p) (featureIds db)) ->
  Prisma.pairs_distinct (updateRows id ps) = true ->
  SchemaOk (afterReplaceRows db id ps).
Proof.
  intros [Hr Hf Ho Hp] Hid Hfk Hpd. constructor.
  - exact Hr.
  - exact Hf.
  - intros p Hin. unfold afterReplaceRows in Hin. cbn [roleFeatures set_roleFeatures] in Hin.
    apply in_app_or in Hin. destruct Hin as [Hin|Hin].
    + apply filter_In in Hin. now apply Ho.
    + unfold updateRows in Hin. apply in_map_iff in Hin. destruct Hin as [q [E Hq]].
      subst p. split; [exact Hid|]. now apply Hfk.
  - unfold afterReplaceRows. cbn [roleFeatures set_roleFeatures].
    apply pairs_distinct_app; [now apply pairs_distinct_filter|assumption|].
    apply no_clash. intros p q Hq Hin. left.
    apply filter_In in Hq. destruct Hq as [_ Hn].
    apply negb_true_iff, String.eqb_neq in Hn.
    unfold updateRows in Hin. apply in_map_iff in Hin. destruct Hin as [x [E _]].
    subst q. exact Hn.
Qed.

Lemma db_seed_SchemaOk : SchemaOk db_seed.
Proof.
  constructor.
  - repeat constructor; simpl; intuition discriminate.
  - repeat constructor; simpl; intuition discriminate.
  - intros p Hp. simpl in Hp. intuition (subst; simpl; tauto).
  - reflexivity.
Qed.

Lemma db_seed_Coverage : Coverage db_seed.
Proof.
  constructor; [exact db_seed_SchemaOk|].
  intros rid fid Hr Hf. simpl in Hr, Hf. intuition (subst; reflexivity).
Qed.

(** ** Back-fill on feature creation *)

Lemma createFeature_with_defaults db newId data d :
  cf_defaultPermissions data = Some d ->
  SchemaOk db ->
  existsb (fun f => (feature_id f =? newId) || (feature_name f =? cf_name data))
          (features db) = false ->
  let f := mkFeature newId (cf_name data) (cf_description data) in
  RbacService.createFeature newId data db = (Ok f, afterCreateFeature db f d).
Proof.
  intros Hd Hs Hfree f.
  pose proof (feature_free_fresh _ _ _ Hfree) as Hfresh.
  pose proof (Schema_fresh_feature _ _ Hs Hfresh) as Hrows.
  unfold RbacService.createFeature. apply transaction_ok.
  eapply bind_ok; [unfold Prisma.feature_create; now rewrite Hfree|]. fold f.
  rewrite Hd. set (db1 := set_features (features db ++ [f]) db).
  eapply bind_ok; [|reflexivity].
  eapply bind_ok; [reflexivity|]. cbn [roles db1 set_features].
  set (rows := map (RbacService.featureRow f d) (roles db)).
  unfold afterCreateFeature. fold rows db1.
  destruct (0 <? length (roles db))%nat eqn:Hlen.
  - eapply bind_ok; [apply createMany_ok|reflexivity].
    + apply forallb_forall. intros p Hp. unfold rows in Hp.
      apply in_map_iff in Hp. destruct Hp as [r [E Hr]]. subst p.
      rewrite featureRow_roleId, featureRow_featureId. apply andb_true_iff. split.
      * unfold Prisma.role_exists, db1. cbn [roles set_features].
        apply (existsb_key_In role_id). now apply in_map.
      * unfold Prisma.feature_exists, db1. cbn [features set_features].
        apply (existsb_key_In feature_id). rewrite map_app. apply in_or_app.
        right. now left.
    + apply pairs_distinct_featureRows. apply (so_roles db Hs).
    + unfold db1. cbn [roleFeatures set_features]. apply no_clash.
      intros p q Hp Hq. right. unfold rows in Hp. apply in_map_iff in Hp.
      destruct Hp as [r [E _]]. subst p. rewrite featureRow_featureId.
      intros E. now apply (Hrows q Hq).
  - apply Nat.ltb_ge in Hlen. unfold rows.
    destruct (roles db); [|simpl in Hlen; lia].
    unfold ret. cbn [map]. now rewrite app_nil_r.
Qed.

Lemma createFeature_without_defaults db newId data :
  cf_defaultPermissions data = None ->
  existsb (fun f => (feature_id f =? newId) || (feature_name f =? cf_name data))
          (features db) = false ->
  let f := mkFeature newId (cf_name data) (cf_description data) in
  RbacService.createFeature newId data db
  = (Ok f, set_features (features db ++ [f]) db).
Proof.
  intros Hd Hfree f. unfold RbacService.createFeature. apply transaction_ok.
  eapply bind_ok; [unfold Prisma.feature_create; now rewrite Hfree|].
  now rewrite Hd.
Qed.

Lemma createFeature_taken db newId data :
  existsb (fun f => (feature_id f =? newId) || (feature_name f =? cf_name data))
          (features db) = true ->
  RbacService.createFeature newId data db
  = (Err (PrismaClientKnownRequestError P2002), db).
Proof.
  intros Htaken. unfold RbacService.createFeature.
  eapply transaction_err. apply bind_err.
  unfold Prisma.feature_create. now rewrite Htaken.
Qed.

(** C6, as the code has it.  On a store the schema accepts, when
    defaultPermissions is supplied and the id and name of the feature are
    free, createFeature inserts the feature and leaves exactly one
    RoleFeature row for every role of the store: all five flags true when
    the lower-cased role name contains "admin", the supplied defaults (an
    omitted flag being false) otherwise.  Insert and back-fill are one
    transaction: a createFeature that throws leaves the store as it
    was. *)
Theorem createFeature_backfills_every_role :
  forall (db : Db) (newId : string) (data : CreateFeatureInput) (d : PermissionFlags),
    SchemaOk db ->
    cf_defaultPermissions data = Some d ->
    existsb (fun f => (feature_id f =? newId) || (feature_name f =? cf_name data))
            (features db) = false ->
    let f := mkFeature newId (cf_name data) (cf_description data) in
    let db' := afterCreateFeature db f d in
    RbacService.createFeature newId data db = (Ok f, db')
    /\ (forall role, In role (roles db) ->
          rowsFor db' (role_id role) newId
          = [if includes (toLowerCase (role_name role)) "admin"
             then fullAccess (role_id role) newId
             else rowOf (role_id role) newId d])
    /\ (forall data0 db0 e db1,
          RbacService.createFeature newId data0 db0 = (Err e, db1) -> db1 = db0).
Proof.
  intros db newId data d Hs Hd Hfree f db'.
  pose proof (feature_free_fresh _ _ _ Hfree) as Hfresh.
  pose proof (Schema_fresh_feature _ _ Hs Hfresh) as Hrows.
  split; [|split].
  - now apply createFeature_with_defaults.
  - intros role Hin. unfold rowsFor, db', afterCreateFeature.
    cbn [roleFeatures set_roleFeatures]. rewrite filter_app.
    rewrite rowsFor_none by assumption. cbn [app].
    change newId with (feature_id f).
    rewrite rowsFor_featureRows; [reflexivity| apply (so_roles db Hs) | assumption].
  - intros data0 db0 e db1 H. unfold RbacService.createFeature in H.
    now apply transaction_atomic in H.
Qed.

Lemma createFeature_backfills_every_role_witness :
  RbacService.createFeature "f_bill" (billing (Some readOnly)) db_seed
  = (Ok (mkFeature "f_bill" "billing" None),
     afterCreateFeature db_seed (mkFeature "f_bill" "billing" None) readOnly)
  /\ rowsFor (afterCreateFeature db_seed (mkFeature "f_bill" "billing" None) readOnly)
             "r_super" "f_bill" = [fullAccess "r_super" "f_bill"]
  /\ rowsFor (afterCreateFeature db_seed (mkFeature "f_bill" "billing" None) readOnly)
             "r_clerk" "f_bill"
     = [mkRoleFeature "r_clerk" "f_bill" false true false false false].
Proof.
  destruct (createFeature_backfills_every_role
              db_seed "f_bill" (billing (Some readOnly)) readOnly
              db_seed_SchemaOk eq_refl eq_refl) as [H1 [H2 _]].
  split; [exact H1|]. split.
  - exact (H2 r_super (or_introl eq_refl)).
  - exact (H2 r_clerk (or_intror (or_introl eq_refl))).
Defined.

(** C6, as stated, fails where no defaultPermissions is supplied: the
    feature is inserted and no RoleFeature row is written, although two
    roles exist. *)
Lemma createFeature_without_defaults_writes_no_row :
  RbacService.createFeature "f_bill" (billing None) db_seed
  = (Ok (mkFeature "f_bill" "billing" None),
     set_features (features db_seed ++ [mkFeature "f_bill" "billing" None]) db_seed)
  /\ rowsFor (snd (RbacService.createFeature "f_bill" (billing None) db_seed))
             "r_clerk" "f_bill" = []
  /\ rowsFor (snd (RbacService.createFeature "f_bill" (billing None) db_seed))
             "r_super" "f_bill" = [].
Proof. repeat split. Qed.

(** The unit test "should create feature WITH defaults (Auto-Assign)":
    the rows handed to createMany. *)
Example createFeature_unit_test :
  roleFeatures
    (snd (RbacService.createFeature "feat_1"
            (mkCreateFeatureInput "New Feat" None
               (Some (mkFlags (Some false) (Some true) None None None)))
            db_unit))
  = [mkRoleFeature "role_admin" "feat_1" true true true true true;
     mkRoleFeature "role_staff" "feat_1" false true false false false].
Proof. reflexivity. Qed.

(** ** Back-fill on role creation *)

Lemma Map_get_Some (ps : list PermissionInput) (fid : string) :
  In fid (map pi_featureId ps) ->
  exists p, Map_get ps fid = Some p /\ In p ps /\ pi_featureId p = fid.
Proof.
  intros Hin. unfold Map_get.
  destruct (find (fun p => pi_featureId p =? fid) (rev ps)) as [p|] eqn:E.
  - exists p. split; [reflexivity|]. apply (find_key_In pi_featureId) in E.
    destruct E as [Hp He]. split; [now apply in_rev in Hp|assumption].
  - exfalso. apply (find_key_None pi_featureId) in E. apply E.
    rewrite map_rev. now apply -> in_rev.
Qed.

Lemma Map_get_None (ps : list PermissionInput) (fid : string) :
  ~ In fid (map pi_featureId ps) -> Map_get ps fid = None.
Proof.
  intros Hn. unfold Map_get. apply (find_key_None pi_featureId).
  rewrite map_rev. intros H. apply Hn. now apply in_rev in H.
Qed.

Lemma validateFeatureIds_state (permissions : option (list PermissionInput)) db res db' :
  RbacService.validateFeatureIds permissions db = (res, db') -> db' = db.
Proof.
  unfold RbacService.validateFeatureIds.
  destruct permissions as [[|p ps]|]; try (intros H; now inversion H).
  unfold bind, Prisma.feature_findMany_in.
  match goal with |- context [if ?c then _ else _] => destruct c end;
    intros H; now inversion H.
Qed.

Lemma validateFeatureIds_ok db (permissions : option (list PermissionInput)) :
  (forall p, In p (RbacService.orEmpty permissions) ->
             In (pi_featureId p) (featureIds db)) ->
  RbacService.validateFeatureIds permissions db = (Ok tt, db).
Proof.
  intros Hall. unfold RbacService.validateFeatureIds.
  destruct permissions as [[|p ps]|]; try reflexivity.
  unfold bind, Prisma.feature_findMany_in.
  set (ids := map pi_featureId (p :: ps)).
  set (existing := map feature_id
                       (filter (fun f => Array_includes ids (feature_id f)) (features db))).
  assert (Hinv : filter (fun id => negb (Array_includes existing id)) ids = []).
  { apply filter_none. intros id Hid. apply negb_false_iff. apply Array_includes_In.
    assert (Hex : In id (featureIds db)).
    { unfold ids in Hid. apply in_map_iff in Hid. destruct Hid as [q [E Hq]].
      subst id. now apply Hall. }
    unfold featureIds in Hex. apply in_map_iff in Hex. destruct Hex as [f [E Hf]].
    unfold existing. apply in_map_iff. exists f. split; [assumption|]. apply filter_In.
    split; [assumption|]. apply Array_includes_In. now rewrite E. }
  rewrite Hinv. reflexivity.
Qed.

Lemma validateFeatureIds_Ok_inv db (permissions : option (list PermissionInput)) u db' :
  RbacService.validateFeatureIds permissions db = (Ok u, db') ->
  forall p, In p (RbacService.orEmpty permissions) ->
            In (pi_featureId p) (featureIds db).
Proof.
  unfold RbacService.validateFeatureIds.
  destruct permissions as [[|q ps]|];
    [intros _ p Hp; contradiction| |intros _ p Hp; contradiction].
  unfold bind, Prisma.feature_findMany_in. cbn [RbacService.orEmpty].
  set (ids := map pi_featureId (q :: ps)).
  set (existing := map feature_id
                       (filter (fun f => Array_includes ids (feature_id f)) (features db))).
  destruct (filter (fun id => negb (Array_includes existing id)) ids) as [|bad l] eqn:E;
    [|cbn [length Nat.ltb Nat.leb]; unfold throw; discriminate].
  intros _ p Hp.
  assert (Hin : In (pi_featureId p) ids) by (unfold ids; now apply in_map).
  destruct (Array_includes existing (pi_featureId p)) eqn:Ei.
  - apply Array_includes_In in Ei. unfold existing in Ei. apply in_map_iff in Ei.
    destruct Ei as [f [Ef Hf]]. apply filter_In in Hf. rewrite <- Ef.
    unfold featureIds. now apply in_map.
  - assert (Hbad : In (pi_featureId p)
                      (filter (fun id => negb (Array_includes existing id)) ids)).
    { apply filter_In. split; [assumption|]. now rewrite Ei. }
    rewrite E in Hbad. contradiction.
Qed.

Lemma createRole_after_validate db newId data :
  SchemaOk db ->
  existsb (fun r => (role_id r =? newId) || (role_name r =? cr_name data))
          (roles db) = false ->
  RbacService.validateFeatureIds (cr_permissions data) db = (Ok tt, db) ->
  let r := mkRole newId (cr_name data) (cr_description data) in
  let ps := RbacService.orEmpty (cr_permissions data) in
  RbacService.createRole newId data db
  = (Ok (r, map (RbacService.roleRow r ps) (features db)), afterCreateRole db r ps).
Proof.
  intros Hs Hfree Hvalid r ps.
  pose proof (role_free_fresh _ _ _ Hfree) as Hnew.
  pose proof (Schema_fresh_role _ _ Hs Hnew) as Hfresh.
  unfold RbacService.createRole. apply transaction_ok.
  eapply bind_ok; [exact Hvalid|].
  eapply bind_ok; [unfold Prisma.role_create; now rewrite Hfree|]. fold r.
  eapply bind_ok; [reflexivity|]. cbn [features set_roles]. fold ps.
  set (rows := map (RbacService.roleRow r ps) (features db)).
  set (db1 := set_roles (roles db ++ [r]) db).
  assert (Hwrite :
            (if (0 <? length rows)%nat
             then Prisma.roleFeature_createMany rows ;;; ret tt
             else ret tt) db1 = (Ok tt, afterCreateRole db r ps)).
  { unfold afterCreateRole. fold rows db1.
    destruct (0 <? length rows)%nat eqn:Hlen.
    - eapply bind_ok; [apply createMany_ok|reflexivity].
      + apply forallb_forall. intros p Hp. unfold rows in Hp.
        apply in_map_iff in Hp. destruct Hp as [f [E Hf]]. subst p.
        rewrite roleRow_roleId, roleRow_featureId. apply andb_true_iff. split.
        * unfold Prisma.role_exists, db1. cbn [roles set_roles].
          apply (existsb_key_In role_id). rewrite map_app. apply in_or_app.
          right. now left.
        * unfold Prisma.feature_exists, db1. cbn [features set_roles].
          apply (existsb_key_In feature_id). now apply in_map.
      + apply pairs_distinct_roleRows. apply (so_features db Hs).
      + unfold db1. cbn [roleFeatures set_roles]. apply no_clash.
        intros p q Hp Hq. left. unfold rows in Hp. apply in_map_iff in Hp.
        destruct Hp as [f [E _]]. subst p. rewrite roleRow_roleId.
        intros E. now apply (Hfresh q Hq).
    - apply Nat.ltb_ge in Hlen. destruct rows; [|simpl in Hlen; lia].
      unfold ret. now rewrite app_nil_r. }
  eapply bind_ok; [exact Hwrite|].
  eapply bind_ok.
  { unfold Prisma.role_findUniqueOrThrow. eapply bind_ok; [reflexivity|].
    unfold Prisma.roleById, afterCreateRole.
    cbn [roles set_roleFeatures set_roles].
    change newId with (role_id r).
    rewrite (find_key_app_new role_id) by exact Hnew. reflexivity. }
  eapply bind_ok; [reflexivity|].
  unfold ret, afterCreateRole at 1. cbn [roleFeatures set_roleFeatures role_id r].
  rewrite filter_app. fold rows.
  rewrite (filter_none _ (roleFeatures db)).
  - rewrite filter_all; [reflexivity|].
    intros p Hp. unfold rows in Hp. apply in_map_iff in Hp.
    destruct Hp as [f [E _]]. subst p. apply String.eqb_refl.
  - intros p Hp. apply String.eqb_neq. now apply Hfresh.
Qed.

(** C7.  On a store the schema accepts, when the id and name of the role
    are free and every featureId of the supplied list exists, createRole
    inserts the role and leaves exactly one RoleFeature row for every
    feature of the store.  For a feature named in the list the row carries
    the flags of its entry (the last one, should the list repeat the
    feature), an omitted flag being false; for any other feature all five
    flags are false.  Insert and back-fill are one transaction: a
    createRole that throws leaves the store as it was. *)
Theorem createRole_backfills_every_feature :
  forall (db : Db) (newId : string) (data : CreateRoleInput),
    SchemaOk db ->
    existsb (fun r => (role_id r =? newId) || (role_name r =? cr_name data))
            (roles db) = false ->
    (forall p, In p (RbacService.orEmpty (cr_permissions data)) ->
               In (pi_featureId p) (featureIds db)) ->
    let r := mkRole newId (cr_name data) (cr_description data) in
    let ps := RbacService.orEmpty (cr_permissions data) in
    let db' := afterCreateRole db r ps in
    RbacService.createRole newId data db
    = (Ok (r, map (RbacService.roleRow r ps) (features db)), db')
    /\ (forall f, In f (features db) ->
          In (feature_id f) (map pi_featureId ps) ->
          exists p, In p ps /\ pi_featureId p = feature_id f
                    /\ Map_get ps (feature_id f) = Some p
                    /\ rowsFor db' newId (feature_id f)
                       = [mkRoleFeature newId (feature_id f)
                            (orFalse (pf_canCreate (pi_flags p)))
                            (orFalse (pf_canRead (pi_flags p)))
                            (orFalse (pf_canUpdate (pi_flags p)))
                            (orFalse (pf_canDelete (pi_flags p)))
                            (orFalse (pf_canPrint (pi_flags p)))])
    /\ (forall f, In f (features db) ->
          ~ In (feature_id f) (map pi_featureId ps) ->
          rowsFor db' newId (feature_id f)
          = [mkRoleFeature newId (feature_id f) false false false false false])
    /\ (forall data0 db0 e db1,
          RbacService.createRole newId data0 db0 = (Err e, db1) -> db1 = db0).
Proof.
  intros db newId data Hs Hfree Hvalid r ps db'.
  pose proof (role_free_fresh _ _ _ Hfree) as Hfresh.
  pose proof (Schema_fresh_role _ _ Hs Hfresh) as Hrows.
  assert (Hone : forall f, In f (features db) ->
            rowsFor db' newId (feature_id f) = [RbacService.roleRow r ps f]).
  { intros f Hf. unfold rowsFor, db', afterCreateRole.
    cbn [roleFeatures set_roleFeatures]. rewrite filter_app.
    rewrite rowsFor_none_role by assumption. cbn [app].
    change newId with (role_id r).
    apply rowsFor_roleRows; [apply (so_features db Hs)|assumption]. }
  split; [|split; [|split]].
  - apply createRole_after_validate; try assumption.
    now apply validateFeatureIds_ok.
  - intros f Hf Hin. destruct (Map_get_Some ps _ Hin) as [p [Hget [Hp He]]].
    exists p. repeat split; try assumption.
    rewrite (Hone f Hf). unfold RbacService.roleRow. now rewrite Hget.
  - intros f Hf Hn. rewrite (Hone f Hf). unfold RbacService.roleRow.
    now rewrite (Map_get_None ps _ Hn).
  - intros data0 db0 e db1 H. unfold RbacService.createRole in H.
    now apply transaction_atomic in H.
Qed.

Lemma createRole_backfills_every_feature_witness :
  RbacService.createRole "r_mgr" manager db_seed
  = (Ok (mkRole "r_mgr" "Manager" None,
         [mkRoleFeature "r_mgr" "f_rbac" false false false false false;
          mkRoleFeature "r_mgr" "f_user" true true false false false]),
     afterCreateRole db_seed (mkRole "r_mgr" "Manager" None)
                     (RbacService.orEmpty (cr_permissions manager)))
  /\ rowsFor (afterCreateRole db_seed (mkRole "r_mgr" "Manager" None)
                              (RbacService.orEmpty (cr_permissions manager)))
             "r_mgr" "f_rbac"
     = [mkRoleFeature "r_mgr" "f_rbac" false false false false false].
Proof.
  assert (Hvalid : forall p, In p (RbacService.orEmpty (cr_permissions manager)) ->
                             In (pi_featureId p) (featureIds db_seed)).
  { intros p Hp. simpl in Hp. destruct Hp as [Hp|[]]. subst p. simpl. tauto. }
  destruct (createRole_backfills_every_feature
              db_seed "r_mgr" manager db_seed_SchemaOk eq_refl Hvalid)
    as [H1 [_ [H3 _]]].
  split; [exact H1|].
  apply (H3 f_rbac (or_introl eq_refl)).
  simpl. intros [H|[]]. discriminate H.
Defined.

(** ** What the mutations do to the store *)

Lemma role_findUniqueOrThrow_state id db res db' :
  Prisma.role_findUniqueOrThrow id db = (res, db') -> db' = db.
Proof.
  unfold Prisma.role_findUniqueOrThrow, Prisma.role_findUnique, bind.
  destruct (Prisma.roleById db id); intros H; now inversion H.
Qed.

Lemma role_update_inv id name description db r' db' :
  Prisma.role_update id name description db = (Ok r', db') ->
  In id (roleIds db) /\ map role_id (roles db') = roleIds db
  /\ db' = set_roles (roles db') db.
Proof.
  unfold Prisma.role_update. destruct (Prisma.roleById db id) as [r|] eqn:Hr;
    [|discriminate].
  match goal with |- context [if ?c then _ else _] => destruct c end; [discriminate|].
  intros H. inversion H. subst. clear H.
  apply (find_key_In role_id) in Hr. destruct Hr as [Hin Hid].
  split; [|split].
  - rewrite <- Hid. unfold roleIds. now apply in_map.
  - cbn [roles set_roles]. unfold roleIds. rewrite map_map. apply map_ext.
    intros q. destruct (String.eqb_spec (role_id q) id); [now cbn|reflexivity].
  - reflexivity.
Qed.

Lemma updateRows_exist db id (ps : list PermissionInput) :
  forallb (fun p => Prisma.role_exists db (rf_roleId p)
                    && Prisma.feature_exists db (rf_featureId p))
          (updateRows id ps) = true ->
  forall p, In p ps -> In (pi_featureId p) (featureIds db).
Proof.
  intros H p Hp. rewrite forallb_forall in H.
  specialize (H (rowOf id (pi_featureId p) (pi_flags p))).
  assert (Hin : In (rowOf id (pi_featureId p) (pi_flags p)) (updateRows id ps)).
  { unfold updateRows. apply in_map_iff. exists p. now split. }
  apply H in Hin. apply andb_true_iff in Hin. destruct Hin as [_ Hin].
  cbn [rowOf rf_featureId] in Hin. now apply (existsb_key_In feature_id) in Hin.
Qed.

Lemma updateRole_effect db id data :
  Effect db (UpdateRole id data) (snd (RbacService.updateRole id data db)).
Proof.
  unfold RbacService.updateRole.
  apply snd_transaction; [constructor|]. intros a db' H.
  apply bind_Ok_inv in H. destruct H as [r' [db1 [H1 H]]].
  apply role_update_inv in H1. destruct H1 as [Hid [Hids Hdb1]].
  apply bind_Ok_inv in H. destruct H as [u [db2 [H2 H]]].
  apply bind_Ok_inv in H. destruct H as [ur [db3 [H3 H]]].
  apply role_findUniqueOrThrow_state in H3.
  apply bind_Ok_inv in H. destruct H as [pp [db4 [H4 H]]].
  inversion H4. inversion H. subst db' db4 db3. clear H H4.
  destruct (ur_permissions data) as [ps|] eqn:Hps.
  - apply bind_Ok_inv in H2. destruct H2 as [n [dbd [Hd H2]]].
    inversion Hd. subst dbd. clear Hd.
    assert (Hshape : db2 = afterReplaceRows (set_roles (roles db1) db) id ps
                     /\ (forall p, In p ps -> In (pi_featureId p) (featureIds db))
                     /\ Prisma.pairs_distinct (updateRows id ps) = true).
    { rewrite <- Hdb1. destruct (0 <? length ps)%nat eqn:Hlen.
      - apply bind_Ok_inv in H2. destruct H2 as [n' [dbc [Hcm H2]]].
        inversion H2. subst db2. clear H2.
        apply createMany_inv in Hcm. destruct Hcm as [Hfk [Hpd [_ Hdbc]]].
        fold (updateRows id ps) in *.
        pose proof (updateRows_exist _ _ _ Hfk) as Hex.
        split; [exact Hdbc|]. split; [|exact Hpd].
        intros p Hp. specialize (Hex p Hp). now rewrite Hdb1 in Hex. 
      - apply Nat.ltb_ge in Hlen. destruct ps; [|simpl in Hlen; lia].
        inversion H2. subst db2. clear H2. split; [|split].
        + unfold afterReplaceRows, updateRows. cbn [map]. now rewrite app_nil_r.
        + intros p [].
        + reflexivity. }
    destruct Hshape as [E [Hex Hpd]]. rewrite E.
    now apply EffRoleReplaced.
  - inversion H2. subst db2. rewrite Hdb1. now apply EffRoleRenamed.
Qed.

Lemma exec_effect db op : SchemaOk db -> Effect db op (exec op db).
Proof.
  intros Hs. destruct op as [newId data | id | newId data | id data | id];
    cbn [exec].
  - destruct (existsb (fun f => (feature_id f =? newId) || (feature_name f =? cf_name data))
                      (features db)) eqn:Hfree.
    + rewrite createFeature_taken by assumption. constructor.
    + pose proof (feature_free_fresh _ _ _ Hfree) as Hfresh.
      destruct (cf_defaultPermissions data) as [d|] eqn:Hd.
      * rewrite (createFeature_with_defaults db newId data d) by assumption.
        now apply EffFeatureBackfilled.
      * rewrite createFeature_without_defaults by assumption.
        now apply EffFeatureAlone.
  - unfold RbacService.deleteFeature, Prisma.feature_findUniqueOrThrow,
      Prisma.feature_findUnique, bind, Prisma.feature_delete.
    destruct (Prisma.featureById db id) as [f|] eqn:E; cbn -[Array_includes];
      [|constructor].
    destruct (Array_includes RbacService.PROTECTED_FEATURES (feature_name f)); cbn;
      [constructor|].
    rewrite E. apply EffFeatureDeleted.
  - destruct (RbacService.validateFeatureIds (cr_permissions data) db)
      as [[[]|e] dbv] eqn:Hv;
      pose proof (validateFeatureIds_state _ _ _ _ Hv) as Edb; subst dbv.
    + destruct (existsb (fun r => (role_id r =? newId) || (role_name r =? cr_name data))
                        (roles db)) eqn:Hfree.
      * unfold RbacService.createRole. apply snd_transaction; [constructor|].
        intros a db' H. apply bind_Ok_inv in H. destruct H as [u [db1 [H1 H]]].
        rewrite Hv in H1. inversion H1. subst db1.
        apply bind_Ok_inv in H. destruct H as [r [db2 [H _]]].
        unfold Prisma.role_create in H. rewrite Hfree in H. discriminate.
      * rewrite createRole_after_validate by assumption.
        apply EffRoleBackfilled. now apply role_free_fresh in Hfree.
    + unfold RbacService.createRole. apply snd_transaction; [constructor|].
      intros a db' H. apply bind_Ok_inv in H. destruct H as [u [db1 [H1 _]]].
      rewrite Hv in H1. discriminate.
  - apply updateRole_effect.
  - unfold RbacService.deleteRole, Prisma.role_findUniqueOrThrow,
      Prisma.role_findUnique, bind, Prisma.role_delete.
    destruct (Prisma.roleById db id) as [r|] eqn:E; cbn -[Array_includes];
      [|constructor].
    destruct (Array_includes RbacService.PROTECTED_ROLES (role_name r)); cbn;
      [constructor|].
    rewrite E.
    destruct (existsb (fun u => user_roleId u =? id) (users db)); cbn; [constructor|].
    apply EffRoleDeleted.
Qed.

(** The schema's constraints hold after every mutation. *)
Lemma schema_step db op : SchemaOk db -> SchemaOk (exec op db).
Proof.
  intros Hs. pose proof (exec_effect db op Hs) as He.
  destruct He as [op | newId data d Hd Hfresh | newId data Hd Hfresh | id
                  | newId data Hfresh | id data rs Hps Hids
                  | id data rs ps Hps Hids Hid Hex Hpd | id].
  - exact Hs.
  - now apply Schema_afterCreateFeature.
  - now apply Schema_insertFeature.
  - now apply Schema_afterDeleteFeature.
  - now apply Schema_afterCreateRole.
  - now apply Schema_rename.
  - apply Schema_afterReplaceRows; try assumption.
    + now apply Schema_rename.
    + unfold roleIds. cbn [roles set_roles]. now rewrite Hids.
  - now apply Schema_afterDeleteRole.
Qed.

(** Every createRole that returns is the one described above. *)
Lemma createRole_Ok_inv db newId data res db' :
  SchemaOk db ->
  RbacService.createRole newId data db = (Ok res, db') ->
  existsb (fun r => (role_id r =? newId) || (role_name r =? cr_name data))
          (roles db) = false
  /\ (forall p, In p (RbacService.orEmpty (cr_permissions data)) ->
                In (pi_featureId p) (featureIds db))
  /\ db' = afterCreateRole db (mkRole newId (cr_name data) (cr_description data))
                           (RbacService.orEmpty (cr_permissions data)).
Proof.
  intros Hs H. pose proof H as H0. unfold RbacService.createRole in H.
  apply transaction_Ok_inv in H.
  apply bind_Ok_inv in H. destruct H as [u [d1 [Hv H]]].
  pose proof (validateFeatureIds_state _ _ _ _ Hv) as E. subst d1.
  apply bind_Ok_inv in H. destruct H as [r [d2 [Hr _]]].
  unfold Prisma.role_create in Hr.
  destruct (existsb _ (roles db)) eqn:Hfree; [discriminate|]. clear Hr.
  pose proof (validateFeatureIds_Ok_inv _ _ _ _ Hv) as Hvalid.
  split; [reflexivity|]. split; [exact Hvalid|].
  destruct u. rewrite createRole_after_validate in H0 by assumption.
  now inversion H0.
Qed.

(** Every createFeature that returns either had defaultPermissions and
    back-filled, or had none and wrote no row. *)
Lemma createFeature_Ok_inv db newId data f db' :
  SchemaOk db ->
  RbacService.createFeature newId data db = (Ok f, db') ->
  existsb (fun g => (feature_id g =? newId) || (feature_name g =? cf_name data))
          (features db) = false
  /\ f = mkFeature newId (cf_name data) (cf_description data)
  /\ db' = match cf_defaultPermissions data with
           | Some d => afterCreateFeature db f d
           | None => set_features (features db ++ [f]) db
           end.
Proof.
  intros Hs H.
  destruct (existsb (fun g => (feature_id g =? newId) || (feature_name g =? cf_name data))
                    (features db)) eqn:Hfree.
  - rewrite createFeature_taken in H by assumption. discriminate.
  - split; [reflexivity|].
    destruct (cf_defaultPermissions data) as [d|] eqn:Hd.
    + rewrite (createFeature_with_defaults db newId data d) in H by assumption.
      inversion H. now subst.
    + rewrite createFeature_without_defaults in H by assumption.
      inversion H. now subst.
Qed.

(** ** The coverage invariant *)

Lemma Coverage_afterCreateFeature db f d :
  Coverage db -> ~ In (feature_id f) (featureIds db) ->
  Coverage (afterCreateFeature db f d).
Proof.
  intros [Hs He] Hfresh. unfold pairCount in He.
  pose proof (Schema_fresh_feature _ _ Hs Hfresh) as Hrows.
  constructor; [now apply Schema_afterCreateFeature|].
  intros rid fid Hrid Hfid. unfold pairCount, afterCreateFeature.
  cbn [roleFeatures set_roleFeatures]. rewrite count_app.
  unfold featureIds, afterCreateFeature in Hfid.
  cbn [features set_roleFeatures set_features] in Hfid.
  rewrite map_app in Hfid. apply in_app_or in Hfid. destruct Hfid as [Hfid|[Hfid|[]]].
  - rewrite (He rid fid Hrid Hfid). rewrite rowsFor_none; [reflexivity|].
    intros p Hp E. apply in_map_iff in Hp. destruct Hp as [r [Er _]]. subst p.
    rewrite featureRow_featureId in E. apply Hfresh. now rewrite E.
  - subst fid. rewrite rowsFor_none by assumption.
    unfold roleIds in Hrid. cbn [roles afterCreateFeature set_roleFeatures set_features] in Hrid.
    apply in_map_iff in Hrid. destruct Hrid as [r [Er Hrin]]. subst rid.
    rewrite rowsFor_featureRows; [reflexivity|apply (so_roles db Hs)|assumption].
Qed.

Lemma Coverage_afterCreateRole db r ps :
  Coverage db -> ~ In (role_id r) (roleIds db) ->
  Coverage (afterCreateRole db r ps).
Proof.
  intros [Hs He] Hfresh. unfold pairCount in He.
  pose proof (Schema_fresh_role _ _ Hs Hfresh) as Hrows.
  constructor; [now apply Schema_afterCreateRole|].
  intros rid fid Hrid Hfid. unfold pairCount, afterCreateRole.
  cbn [roleFeatures set_roleFeatures]. rewrite count_app.
  unfold roleIds, afterCreateRole in Hrid.
  cbn [roles set_roleFeatures set_roles] in Hrid.
  rewrite map_app in Hrid. apply in_app_or in Hrid. destruct Hrid as [Hrid|[Hrid|[]]].
  - rewrite (He rid fid Hrid Hfid). rewrite rowsFor_none_role; [reflexivity|].
    intros p Hp E. apply in_map_iff in Hp. destruct Hp as [f [Ef _]]. subst p.
    rewrite roleRow_roleId in E. apply Hfresh. now rewrite E.
  - subst rid. rewrite rowsFor_none_role by assumption.
    unfold featureIds in Hfid. cbn [features afterCreateRole set_roleFeatures set_roles] in Hfid.
    apply in_map_iff in Hfid. destruct Hfid as [f [Ef Hfin]]. subst fid.
    rewrite rowsFor_roleRows; [reflexivity|apply (so_features db Hs)|assumption].
Qed.

Lemma Coverage_afterDeleteRole db id : Coverage db -> Coverage (afterDeleteRole db id).
Proof.
  intros [Hs He]. unfold pairCount in He.
  constructor; [now apply Schema_afterDeleteRole|].
  intros rid fid Hrid Hfid. unfold roleIds, afterDeleteRole in Hrid.
  cbn [roles set_roleFeatures set_roles] in Hrid.
  apply (map_key_filter_neq role_id) in Hrid. destruct Hrid as [Hrid Hne].
  unfold pairCount, afterDeleteRole. cbn [roleFeatures set_roleFeatures].
  rewrite filter_filter_implied; [now apply He|].
  intros p Hp. apply has_pair_true in Hp. destruct Hp as [Hp _].
  apply negb_true_iff, String.eqb_neq. congruence.
Qed.

Lemma Coverage_afterDeleteFeature db id :
  Coverage db -> Coverage (afterDeleteFeature db id).
Proof.
  intros [Hs He]. unfold pairCount in He.
  constructor; [now apply Schema_afterDeleteFeature|].
  intros rid fid Hrid Hfid. unfold featureIds, afterDeleteFeature in Hfid.
  cbn [features set_roleFeatures set_features] in Hfid.
  apply (map_key_filter_neq feature_id) in Hfid. destruct Hfid as [Hfid Hne].
  unfold pairCount, afterDeleteFeature. cbn [roleFeatures set_roleFeatures].
  rewrite filter_filter_implied; [now apply He|].
  intros p Hp. apply has_pair_true in Hp. destruct Hp as [_ Hp].
  apply negb_true_iff, String.eqb_neq. congruence.
Qed.

Lemma Coverage_rename db (rs : list Role) :
  map role_id rs = roleIds db -> Coverage db -> Coverage (set_roles rs db).
Proof.
  intros E [Hs He]. constructor; [now apply Schema_rename|].
  unfold roleIds, featureIds, pairCount in *.
  cbn [roles features roleFeatures set_roles]. now rewrite E.
Qed.

Lemma Coverage_afterReplaceRows db id (ps : list PermissionInput) :
  Coverage db ->
  In id (roleIds db) ->
  (forall p, In p ps -> In (pi_featureId p) (featureIds db)) ->
  Prisma.pairs_distinct (updateRows id ps) = true ->
  forallb (Array_includes (map pi_featureId ps)) (featureIds db) = true ->
  Coverage (afterReplaceRows db id ps).
Proof.
  intros [Hs He] Hid Hfk Hpd Hcov. unfold pairCount in He.
  constructor; [now apply Schema_afterReplaceRows|].
  intros rid fid Hrid Hfid. unfold pairCount, afterReplaceRows.
  cbn [roleFeatures set_roleFeatures]. rewrite count_app.
  destruct (String.eqb_spec rid id) as [E|E].
  - subst rid. rewrite rowsFor_none_role.
    + apply count_distinct; [assumption|].
      rewrite forallb_forall in Hcov. specialize (Hcov fid Hfid).
      apply Array_includes_In in Hcov. apply in_map_iff in Hcov.
      destruct Hcov as [q [Eq Hq]]. apply existsb_exists.
      exists (rowOf id (pi_featureId q) (pi_flags q)). split.
      * unfold updateRows. apply in_map_iff. exists q. now split.
      * apply has_pair_true. now split.
    + intros p Hp. apply filter_In in Hp. destruct Hp as [_ Hn].
      now apply negb_true_iff, String.eqb_neq in Hn.
  - rewrite filter_filter_implied.
    + rewrite (He rid fid Hrid Hfid). rewrite rowsFor_none_role; [reflexivity|].
      intros p Hp Ep. unfold updateRows in Hp. apply in_map_iff in Hp.
      destruct Hp as [q [Eq _]]. subst p. cbn in Ep. congruence.
    + intros p Hp. apply has_pair_true in Hp. destruct Hp as [Hp _].
      apply negb_true_iff, String.eqb_neq. congruence.
Qed.

Lemma coverage_step db op :
  Coverage db -> backfills db op = true -> Coverage (exec op db).
Proof.
  intros Hc Hb. pose proof (exec_effect db op (cov_schema db Hc)) as He.
  destruct He as [op | newId data d Hd Hfresh | newId data Hd Hfresh | id
                  | newId data Hfresh | id data rs Hps Hids
                  | id data rs ps Hps Hids Hid Hex Hpd | id];
    cbn [backfills] in Hb.
  - exact Hc.
  - now apply Coverage_afterCreateFeature.
  - rewrite Hd in Hb. discriminate.
  - now apply Coverage_afterDeleteFeature.
  - now apply Coverage_afterCreateRole.
  - now apply Coverage_rename.
  - rewrite Hps in Hb. apply Coverage_afterReplaceRows; try assumption.
    + now apply Coverage_rename.
    + unfold roleIds. cbn [roles set_roles]. now rewrite Hids.
  - now apply Coverage_afterDeleteRole.
Qed.

(** C2, as the code has it.  Permission coverage (on a store the schema
    accepts, every existing role and feature have exactly one RoleFeature
    row between them, and no row is orphaned) holds at every point of a
    run of createRole, deleteRole, deleteFeature, createFeature with
    defaultPermissions supplied, and updateRole with no permission list
    or with one that names every existing feature; whether a call returns
    or throws. *)
Theorem coverage_preserved :
  forall (ops : list RbacOp) (db : Db),
    Coverage db -> allBackfill db ops = true -> Coverage (execAll ops db).
Proof.
  induction ops as [|op ops IH]; intros db Hc Hb; cbn in *; [exact Hc|].
  apply andb_true_iff in Hb. destruct Hb as [Hb Hrest].
  apply IH; [now apply coverage_step|exact Hrest].
Qed.

Lemma coverage_preserved_witness :
  Coverage (execAll [CreateFeature "f_bill" (billing (Some readOnly));
                     CreateRole "r_mgr" manager;
                     DeleteRole "r_clerk";
                     DeleteFeature "f_user"] db_seed).
Proof.
  apply coverage_preserved; [exact db_seed_Coverage|reflexivity].
Defined.

(** C2, as stated, fails twice.  createFeature without defaultPermissions
    inserts the feature and no row, and updateRole with a list that names
    one feature of two leaves the role with that one row: in both stores
    an existing role and an existing feature have no row between them. *)
Lemma coverage_broken_without_backfill :
  Coverage db_seed
  /\ fst (RbacService.createFeature "f_bill" (billing None) db_seed)
     = Ok (mkFeature "f_bill" "billing" None)
  /\ In "r_clerk" (roleIds (exec (CreateFeature "f_bill" (billing None)) db_seed))
  /\ In "f_bill" (featureIds (exec (CreateFeature "f_bill" (billing None)) db_seed))
  /\ pairCount (exec (CreateFeature "f_bill" (billing None)) db_seed)
               "r_clerk" "f_bill" = 0%nat
  /\ ~ Coverage (exec (CreateFeature "f_bill" (billing None)) db_seed)
  /\ fst (RbacService.updateRole "r_clerk" clerkReadsUsers db_seed)
     = Ok (r_clerk, [rowOf "r_clerk" "f_user" readOnly])
  /\ pairCount (exec (UpdateRole "r_clerk" clerkReadsUsers) db_seed)
               "r_clerk" "f_rbac" = 0%nat
  /\ ~ Coverage (exec (UpdateRole "r_clerk" clerkReadsUsers) db_seed).
Proof.
  split; [exact db_seed_Coverage|].
  split; [reflexivity|]. split; [simpl; tauto|]. split; [simpl; tauto|].
  split; [reflexivity|]. split.
  - intros Hc.
    assert (H : pairCount (exec (CreateFeature "f_bill" (billing None)) db_seed)
                          "r_clerk" "f_bill" = 1%nat).
    { apply (cov_exactly_one _ Hc); simpl; tauto. }
    discriminate H.
  - split; [reflexivity|]. split; [reflexivity|].
    intros Hc.
    assert (H : pairCount (exec (UpdateRole "r_clerk" clerkReadsUsers) db_seed)
                          "r_clerk" "f_rbac" = 1%nat).
    { apply (cov_exactly_one _ Hc); simpl; tauto. }
    discriminate H.
Qed.

(** ** SuperAdmin users and UserService *)

Section UserGuards.

Variable hash : string -> string.

Lemma createUser_rejects_SuperAdmin db newId data r :
  Prisma.roleById db (cu_roleId data) = Some r ->
  role_name r = "SuperAdmin" ->
  UserService.createUser hash newId data db = (Err CreateSystemError, db).
Proof.
  intros Hr Hn. unfold UserService.createUser, bind, Prisma.role_findUnique.
  rewrite Hr. cbn. now rewrite Hn.
Qed.

Lemma updateUser_rejects_deactivation db id data u r :
  uu_isActive data = Some false ->
  Prisma.userById db id = Some u ->
  Prisma.roleById db (user_roleId u) = Some r ->
  role_name r = "SuperAdmin" ->
  UserService.updateUser hash id data db = (Err UpdateSystemError, db).
Proof.
  intros Ha Hu Hr Hn. unfold UserService.updateUser. cbn [uu_isActive].
  rewrite Ha. apply bind_err. eapply bind_ok.
  - unfold UserService.roleOfUser. eapply bind_ok; [reflexivity|]. rewrite Hu.
    unfold Prisma.role_findUnique. now rewrite Hr.
  - cbn. now rewrite Hn.
Qed.

Lemma deleteUser_rejects_SuperAdmin db targetId requestingUserId u r :
  targetId <> requestingUserId ->
  Prisma.userById db targetId = Some u ->
  Prisma.roleById db (user_roleId u) = Some r ->
  role_name r = "SuperAdmin" ->
  UserService.deleteUser targetId requestingUserId db = (Err DeleteSystemError, db).
Proof.
  intros Hne Hu Hr Hn. unfold UserService.deleteUser.
  apply String.eqb_neq in Hne. rewrite Hne.
  eapply bind_ok.
  - unfold Prisma.user_findUniqueOrThrow. eapply bind_ok; [reflexivity|].
    rewrite Hu. reflexivity.
  - eapply bind_ok; [reflexivity|]. rewrite Hr. cbn. now rewrite Hn.
Qed.

(** C10, at the failing input.  The three guards hold (lemmas above), but
    updateUser writes any roleId it is given: it gives u_bob the SuperAdmin
    role, after which the store has two active SuperAdmin users; and it
    takes the role from u_root, after which u_root can be deactivated. *)
Theorem updateUser_makes_second_SuperAdmin :
  superAdmins db_seed = [u_root]
  /\ fst (UserService.updateUser hash "u_bob" promote db_seed)
     = Ok (mkUser "u_bob" "bob@example.com" "Bob" "hash2" true 3 "r_super")
  /\ superAdmins (snd (UserService.updateUser hash "u_bob" promote db_seed))
     = [u_root; mkUser "u_bob" "bob@example.com" "Bob" "hash2" true 3 "r_super"]
  /\ superAdmins (snd (UserService.updateUser hash "u_root" demote db_seed)) = []
  /\ fst (UserService.updateUser hash "u_root" deactivate
            (snd (UserService.updateUser hash "u_root" demote db_seed)))
     = Ok (mkUser "u_root" "root@example.com" "Root" "hash1" false 0 "r_clerk").
Proof. repeat split. Qed.

End UserGuards.

(** ** The account-state check of the request gate *)

Lemma userById_after_update db id f u :
  Prisma.userById db id = Some u ->
  user_id (f u) = id ->
  Prisma.userById
    (set_users (map (fun v => if user_id v =? id then f u else v) (users db)) db) id
  = Some (f u).
Proof.
  unfold Prisma.userById. cbn [users set_users]. intros H Hid.
  induction (users db) as [|a l IH]; simpl in *; [discriminate|].
  destruct (String.eqb_spec (user_id a) id) as [E|E].
  - apply String.eqb_eq in Hid. now rewrite Hid.
  - apply String.eqb_neq in E. rewrite E. now apply IH.
Qed.

Lemma incrementTokenVersion_ok db id u :
  Prisma.userById db id = Some u ->
  Prisma.user_update id Prisma.incrementTokenVersion db
  = (Ok (Prisma.incrementTokenVersion u),
     set_users (map (fun v => if user_id v =? id
                              then Prisma.incrementTokenVersion u else v)
                    (users db)) db).
Proof.
  intros H. unfold Prisma.user_update. rewrite H.
  cbn [Prisma.incrementTokenVersion user_email user_roleId].
  now rewrite !String.eqb_refl.
Qed.

Section Gate.

Variable decode : string -> option Jwt.

(** C3, as the code has it.  For a request whose bearer token verifies
    with subject [uid] and version claim [tvClaim], the check reads the
    store and leaves it as it is, and: it throws UnauthorizedError (401)
    when the user no longer exists; AccountDisabledError (403) when the
    user is inactive, whatever the version claim; UnauthorizedError (401)
    when the user is active and the claim differs from the user's
    tokenVersion.  So a token with a stale claim is always rejected, with
    401 or 403; in particular a token issued at the user's version is
    rejected once that version has been incremented. *)
Theorem stale_access_token_rejected :
  forall (now : Z) (auth : string) (db : Db) (uid : string) (tvClaim : Z)
         (jti_ : option string),
    String.prefix "Bearer " auth = true ->
    verify decode AccessJwt now (Routes.slice7 auth)
    = Some (mkPayload (JsString uid) (JsNumber tvClaim) jti_) ->
    let gate := Routes.authMiddleware decode now (Some auth) in
    snd (gate db) = db
    /\ (Prisma.userById db uid = None ->
        fst (gate db) = Err (UnauthorizedError "User no longer exists"))
    /\ (forall u, Prisma.userById db uid = Some u -> user_isActive u = false ->
          fst (gate db) = Err (AccountDisabledError "Your account has been disabled."))
    /\ (forall u, Prisma.userById db uid = Some u -> user_isActive u = true ->
          user_tokenVersion u <> tvClaim ->
          fst (gate db) = Err (UnauthorizedError "Session expired, please login again"))
    /\ (forall u, Prisma.userById db uid = Some u -> user_tokenVersion u <> tvClaim ->
          exists e, fst (gate db) = Err e
                    /\ (statusOfError e = 401%Z \/ statusOfError e = 403%Z))
    /\ (forall u, Prisma.userById db uid = Some u -> user_tokenVersion u = tvClaim ->
          let db' := snd (Prisma.user_update uid Prisma.incrementTokenVersion db) in
          fst (gate db')
          = Err (if user_isActive u
                 then UnauthorizedError "Session expired, please login again"
                 else AccountDisabledError "Your account has been disabled.")).
Proof.
  intros now auth db uid tvClaim jti_ Hpre Hver gate.
  assert (Hgate : forall d,
             gate d =
             match Prisma.userById d uid with
             | None => (Err (UnauthorizedError "User no longer exists"), d)
             | Some u =>
                 if negb (user_isActive u)
                 then (Err (AccountDisabledError "Your account has been disabled."), d)
                 else if negb (user_tokenVersion u =? tvClaim)%Z
                 then (Err (UnauthorizedError "Session expired, please login again"), d)
                 else (Ok (mkAuthUser uid tvClaim), d)
             end).
  { intros d. unfold gate, Routes.authMiddleware. rewrite Hpre, Hver.
    unfold bind, Prisma.user_findUnique.
    destruct (Prisma.userById d uid) as [u|]; [|reflexivity].
    destruct (user_isActive u); cbn [negb]; [|reflexivity].
    now destruct (user_tokenVersion u =? tvClaim)%Z. }
  assert (Hstale : forall u, Prisma.userById db uid = Some u ->
             user_isActive u = true -> user_tokenVersion u <> tvClaim ->
             fst (gate db) = Err (UnauthorizedError "Session expired, please login again")).
  { intros u Hu Ha Hne. rewrite Hgate, Hu, Ha. cbn [negb].
    apply Z.eqb_neq in Hne. now rewrite Hne. }
  assert (Hoff : forall u, Prisma.userById db uid = Some u -> user_isActive u = false ->
             fst (gate db) = Err (AccountDisabledError "Your account has been disabled.")).
  { intros u Hu Ha. now rewrite Hgate, Hu, Ha. }
  split; [|split; [|split; [|split; [|split]]]].
  - rewrite Hgate. destruct (Prisma.userById db uid) as [u|]; [|reflexivity].
    destruct (negb (user_isActive u)); [reflexivity|].
    now destruct (negb (user_tokenVersion u =? tvClaim)%Z).
  - intros Hu. now rewrite Hgate, Hu.
  - exact Hoff.
  - exact Hstale.
  - intros u Hu Hne. destruct (user_isActive u) eqn:Ha.
    + eexists. split; [now apply (Hstale u)|]. now left.
    + eexists. split; [now apply (Hoff u)|]. now right.
  - intros u Hu Hv db'. unfold db'. rewrite (incrementTokenVersion_ok db uid u Hu).
    cbn [snd]. rewrite Hgate.
    assert (Hid : user_id u = uid).
    { unfold Prisma.userById in Hu. now apply (find_key_In user_id) in Hu. }
    rewrite (userById_after_update db uid Prisma.incrementTokenVersion u Hu Hid).
    cbn [Prisma.incrementTokenVersion user_isActive user_tokenVersion].
    destruct (user_isActive u); cbn [negb]; [|reflexivity].
    assert (Hne : (user_tokenVersion u + 1 =? tvClaim)%Z = false).
    { apply Z.eqb_neq. lia. }
    now rewrite Hne.
Qed.

End Gate.

Lemma stale_access_token_rejected_witness :
  fst (Routes.authMiddleware decode_demo 50 (Some "Bearer acc_bob_v3")
         (snd (Prisma.user_update "u_bob" Prisma.incrementTokenVersion db_seed)))
  = Err (UnauthorizedError "Session expired, please login again").
Proof.
  destruct (stale_access_token_rejected decode_demo 50 "Bearer acc_bob_v3" db_seed
              "u_bob" 3 None eq_refl eq_refl) as [_ [_ [_ [_ [_ H]]]]].
  exact (H u_bob eq_refl eq_refl).
Defined.

(** C3, as stated, fails for an inactive user.  u_eve is inactive and at
    version 1; her tokenVersion is incremented to 2; the access token
    issued to her at version 1 is then answered with AccountDisabledError
    (403), not with UnauthorizedError (401). *)
Lemma stale_token_of_inactive_user_gets_403 :
  option_map user_tokenVersion (Prisma.userById db_seed "u_eve") = Some 1%Z
  /\ option_map user_tokenVersion (Prisma.userById db_eve_bumped "u_eve") = Some 2%Z
  /\ option_map user_isActive (Prisma.userById db_eve_bumped "u_eve") = Some false
  /\ verify decode_demo AccessJwt 50 (Routes.slice7 "Bearer acc_eve_v1")
     = Some (mkPayload (JsString "u_eve") (JsNumber 1) None)
  /\ Routes.authMiddleware decode_demo 50 (Some "Bearer acc_eve_v1") db_eve_bumped
     = (Err (AccountDisabledError "Your account has been disabled."), db_eve_bumped)
  /\ statusOfError (AccountDisabledError "Your account has been disabled.") = 403%Z
  /\ (forall msg, fst (Routes.authMiddleware decode_demo 50
                         (Some "Bearer acc_eve_v1") db_eve_bumped)
                  <> Err (UnauthorizedError msg)).
Proof.
  repeat split; try reflexivity; try discriminate.
Qed.

(** ** Session authority: refresh *)

Section Session.

Variable decode : string -> option Jwt.
Variable sign : JwtKind -> JwtPayload -> Z -> string.
Variable refreshLifetime : Z.

Lemma refreshRoute_verified now newId cookie body db tok uid tvClaim jti_ :
  jsOr cookie body = Some tok -> tok <> "" ->
  verify decode RefreshJwt now tok
  = Some (mkPayload (JsString uid) (JsNumber tvClaim) (Some jti_)) ->
  jti_ <> "" ->
  Routes.refreshRoute decode sign refreshLifetime now newId cookie body db
  = bind (AuthService.refresh refreshLifetime now newId jti_ uid tvClaim)
         (fun data =>
            ret (successResponse
                   (Some (mkSessionBody
                            (sign AccessJwt
                                  (mkPayload (JsString (su_id (rd_user data)))
                                             (JsNumber (rd_tokenVersion data)) None) now)
                            (sign RefreshJwt
                                  (mkPayload (JsString (su_id (rd_user data)))
                                             (JsNumber (rd_tokenVersion data))
                                             (Some (rd_refreshToken data))) now)
                            (rd_user data)))
                   "Token refreshed successfully" 200)) db.
Proof.
  intros Hin Hne Hver Hj. unfold Routes.refreshRoute. rewrite Hin.
  cbn [truthy orElse]. apply String.eqb_neq in Hne, Hj. rewrite Hne. cbn [negb].
  now rewrite Hver, Hj.
Qed.

Lemma refreshRoute_unverified now newId cookie body db tok :
  jsOr cookie body = Some tok -> tok <> "" ->
  verify decode RefreshJwt now tok = None ->
  Routes.refreshRoute decode sign refreshLifetime now newId cookie body db
  = (Ok (errorResponse 401 "Unauthorized"), db).
Proof.
  intros Hin Hne Hver. unfold Routes.refreshRoute. rewrite Hin.
  cbn [truthy orElse]. apply String.eqb_neq in Hne. rewrite Hne. cbn [negb].
  now rewrite Hver.
Qed.

(** C5.  Once the token has verified, its row is found and is not revoked,
    and the owning user is active, a version claim that differs from the
    user's current tokenVersion makes refresh fail with
    TokenVersionMismatch, in the service and through the route, and the
    store is left as it was. *)
Theorem refresh_version_mismatch :
  forall (now : Z) (newId jti_ uid : string) (tvClaim : Z) (db : Db)
         (row : RefreshToken) (user : User),
    Prisma.tokenById db jti_ = Some row ->
    rt_revoked row = false ->
    Prisma.userById db (rt_userId row) = Some user ->
    user_isActive user = true ->
    tvClaim <> user_tokenVersion user ->
    AuthService.refresh refreshLifetime now newId jti_ uid tvClaim db
    = (Err (AuthError TokenVersionMismatch), db)
    /\ (forall cookie body tok,
          jsOr cookie body = Some tok -> tok <> "" -> jti_ <> "" ->
          verify decode RefreshJwt now tok
          = Some (mkPayload (JsString uid) (JsNumber tvClaim) (Some jti_)) ->
          Routes.refreshRoute decode sign refreshLifetime now newId cookie body db
          = (Err (AuthError TokenVersionMismatch), db)).
Proof.
  intros now newId jti_ uid tvClaim db row user Hrow Hlive Huser Hact Hne.
  assert (Hsvc : AuthService.refresh refreshLifetime now newId jti_ uid tvClaim db
                 = (Err (AuthError TokenVersionMismatch), db)).
  { unfold AuthService.refresh. eapply bind_ok; [reflexivity|].
    rewrite Hrow, Hlive. eapply bind_ok.
    - unfold Prisma.user_findUniqueOrThrow. eapply bind_ok; [reflexivity|].
      rewrite Huser. reflexivity.
    - rewrite Hact. cbn [negb]. apply Z.eqb_neq in Hne. now rewrite Hne. }
  split; [exact Hsvc|].
  intros cookie body tok Hin Htok Hj Hver.
  rewrite (refreshRoute_verified now newId cookie body db tok uid tvClaim jti_)
    by assumption.
  now apply bind_err.
Qed.

End Session.

Lemma refresh_version_mismatch_witness :
  AuthService.refresh 604800 50 "jti_new" "jti_live" "u_bob" 2 db_seed
  = (Err (AuthError TokenVersionMismatch), db_seed).
Proof.
  apply (proj1 (refresh_version_mismatch decode_demo sign_demo 604800 50
                  "jti_new" "jti_live" "u_bob" 2 db_seed t_live u_bob
                  eq_refl eq_refl eq_refl eq_refl ltac:(discriminate))).
Defined.

Section Reuse.

Variable decode : string -> option Jwt.
Variable sign : JwtKind -> JwtPayload -> Z -> string.
Variable refreshLifetime : Z.

Lemma refresh_reuse now newId jti_ uid tvClaim db row owner :
  Prisma.tokenById db jti_ = Some row ->
  rt_revoked row = true ->
  Prisma.userById db (rt_userId row) = Some owner ->
  AuthService.refresh refreshLifetime now newId jti_ uid tvClaim db
  = (Err (AuthError InvalidToken),
     set_users (map (fun v => if user_id v =? rt_userId row
                              then Prisma.incrementTokenVersion owner else v)
                    (users db)) db).
Proof.
  intros Hrow Hdead Howner. unfold AuthService.refresh.
  eapply bind_ok; [reflexivity|]. rewrite Hrow, Hdead. cbv beta iota.
  eapply bind_ok; [apply incrementTokenVersion_ok; exact Howner|]. reflexivity.
Qed.

(** C1, as the code has it.  Let the refresh token [tok] carry the claims
    of a row that is revoked.  Whenever [tok] is presented to the refresh
    route, the request ends with status 401 and the row stays revoked.
    While [tok] still passes verification the failure is InvalidToken, and
    the tokenVersion of the owning user is incremented by one (nothing
    else in the store changes); once [tok] has expired the route answers
    401 before the service is called, and the store is left as it was. *)
Theorem revoked_refresh_token_rejected :
  forall (now : Z) (newId : string) (cookie body : option string) (db : Db)
         (tok : string) (j : Jwt) (uid : string) (tvClaim : Z) (jti_ : string)
         (row : RefreshToken) (owner : User),
    jsOr cookie body = Some tok -> tok <> "" ->
    decode tok = Some j ->
    jwt_kind j = RefreshJwt ->
    jwt_payload j = mkPayload (JsString uid) (JsNumber tvClaim) (Some jti_) ->
    jti_ <> "" ->
    Prisma.tokenById db jti_ = Some row ->
    rt_revoked row = true ->
    Prisma.userById db (rt_userId row) = Some owner ->
    let r := Routes.refreshRoute decode sign refreshLifetime now newId cookie body db in
    statusOf (fst r) = 401%Z
    /\ Prisma.tokenById (snd r) jti_ = Some row
    /\ ((now < jwt_exp j)%Z ->
        fst r = Err (AuthError InvalidToken)
        /\ snd r = set_users
                     (map (fun v => if user_id v =? rt_userId row
                                    then Prisma.incrementTokenVersion owner else v)
                          (users db)) db
        /\ Prisma.userById (snd r) (rt_userId row)
           = Some (Prisma.incrementTokenVersion owner)
        /\ user_tokenVersion (Prisma.incrementTokenVersion owner)
           = (user_tokenVersion owner + 1)%Z)
    /\ ((jwt_exp j <= now)%Z ->
        fst r = Ok (errorResponse 401 "Unauthorized") /\ snd r = db).
Proof.
  intros now newId cookie body db tok j uid tvClaim jti_ row owner
         Hin Htok Hdec Hkind Hpay Hj Hrow Hdead Howner r.
  assert (Hid : user_id owner = rt_userId row).
  { unfold Prisma.userById in Howner. now apply (find_key_In user_id) in Howner. }
  destruct (Z.ltb_spec now (jwt_exp j)) as [Hlive|Hexp].
  - assert (Hver : verify decode RefreshJwt now tok
                   = Some (mkPayload (JsString uid) (JsNumber tvClaim) (Some jti_))).
    { unfold verify. rewrite Hdec, Hkind. cbn [JwtKind_eqb andb].
      apply Z.ltb_lt in Hlive. now rewrite Hlive, Hpay. }
    assert (Hr : r = (Err (AuthError InvalidToken),
                      set_users
                        (map (fun v => if user_id v =? rt_userId row
                                       then Prisma.incrementTokenVersion owner else v)
                             (users db)) db)).
    { unfold r.
      rewrite (refreshRoute_verified decode sign refreshLifetime now newId cookie body
                 db tok uid tvClaim jti_) by assumption.
      apply bind_err. now apply refresh_reuse. }
    rewrite Hr. cbn [fst snd]. split; [reflexivity|]. split; [exact Hrow|].
    split; [|intros; lia]. intros _. repeat split.
    apply (userById_after_update db (rt_userId row) Prisma.incrementTokenVersion owner);
      assumption.
  - assert (Hver : verify decode RefreshJwt now tok = None).
    { unfold verify. rewrite Hdec, Hkind. cbn [JwtKind_eqb andb].
      apply Z.ltb_ge in Hexp. now rewrite Hexp. }
    assert (Hr : r = (Ok (errorResponse 401 "Unauthorized"), db)).
    { unfold r. now apply refreshRoute_unverified with (tok := tok). }
    rewrite Hr. cbn [fst snd]. split; [reflexivity|]. split; [exact Hrow|].
    split; [intros; lia|]. intros _. now split.
Qed.

End Reuse.

Lemma revoked_refresh_token_rejected_witness :
  Routes.refreshRoute decode_demo sign_demo 604800 50 "jti_new"
                      None (Some "ref_bob_dead") db_seed
  = (Err (AuthError InvalidToken),
     set_users [u_root; Prisma.incrementTokenVersion u_bob; u_eve] db_seed).
Proof.
  pose proof (revoked_refresh_token_rejected decode_demo sign_demo 604800 50 "jti_new"
                None (Some "ref_bob_dead") db_seed "ref_bob_dead"
                (mkJwt RefreshJwt
                       (mkPayload (JsString "u_bob") (JsNumber 3) (Some "jti_dead")) 1000)
                "u_bob" 3 "jti_dead" t_dead u_bob
                eq_refl ltac:(discriminate) eq_refl eq_refl eq_refl
                ltac:(discriminate) eq_refl eq_refl eq_refl) as H.
  destruct H as [_ [_ [H _]]]. destruct (H eq_refl) as [H1 [H2 _]].
  apply injective_projections; [exact H1|exact H2].
Defined.

(** C1, as stated, fails once the revoked token has expired: the route
    answers 401 on verification and the service is not called, so the
    owner's tokenVersion is 3 before and after. *)
Lemma expired_revoked_token_no_increment :
  Prisma.tokenById db_seed "jti_dead" = Some t_dead
  /\ rt_revoked t_dead = true
  /\ decode_demo "ref_bob_dead"
     = Some (mkJwt RefreshJwt
                   (mkPayload (JsString "u_bob") (JsNumber 3) (Some "jti_dead")) 1000)
  /\ Routes.refreshRoute decode_demo sign_demo 604800 2000 "jti_new"
                         None (Some "ref_bob_dead") db_seed
     = (Ok (errorResponse 401 "Unauthorized"), db_seed)
  /\ option_map user_tokenVersion (Prisma.userById db_seed "u_bob") = Some 3%Z
  /\ option_map user_tokenVersion
       (Prisma.userById
          (snd (Routes.refreshRoute decode_demo sign_demo 604800 2000 "jti_new"
                                    None (Some "ref_bob_dead") db_seed)) "u_bob")
     = Some 3%Z.
Proof. repeat split. Qed.

(** ** Session authority: logout-all *)

Lemma revoke_revoked t : rt_revoked t = true -> Prisma.revoke t = t.
Proof. destruct t as [i u e r]. cbn. intros ->. reflexivity. Qed.

Lemma tokenById_revokeWhere db w id t :
  Prisma.tokenById db id = Some t ->
  Prisma.tokenById (set_refreshTokens (revokeWhere w (refreshTokens db)) db) id
  = Some (if w t then Prisma.revoke t else t).
Proof.
  unfold Prisma.tokenById, revokeWhere. cbn [refreshTokens set_refreshTokens].
  induction (refreshTokens db) as [|a l IH]; simpl; [discriminate|].
  assert (Hk : rt_id (if w a then Prisma.revoke a else a) = rt_id a).
  { now destruct (w a). }
  rewrite Hk. destruct (rt_id a =? id); [|exact IH].
  intros H. inversion H. now subst.
Qed.

Lemma logoutAll_ok uid tid tv db row user :
  Prisma.tokenById db tid = Some row ->
  rt_revoked row = false ->
  rt_userId row = uid ->
  Prisma.userById db uid = Some user ->
  user_isActive user = true ->
  tv = user_tokenVersion user ->
  AuthService.logoutAll uid tid tv db = (Ok tt, afterLogoutAll db user).
Proof.
  intros Hrow Hlive Hown Huser Hact Htv.
  assert (Hid : user_id user = uid).
  { unfold Prisma.userById in Huser. now apply (find_key_In user_id) in Huser. }
  unfold AuthService.logoutAll. eapply bind_ok; [reflexivity|].
  rewrite Hrow, Hown, String.eqb_refl, Hlive. cbv beta iota. cbn [negb].
  eapply bind_ok.
  { unfold Prisma.user_findUniqueOrThrow. eapply bind_ok; [reflexivity|].
    rewrite Huser. reflexivity. }
  rewrite Hact, Htv, Z.eqb_refl. cbn [negb].
  apply transaction_ok. eapply bind_ok; [reflexivity|].
  eapply bind_ok.
  { apply incrementTokenVersion_ok. exact Huser. }
  unfold afterLogoutAll, revokeWhere. rewrite Hid. reflexivity.
Qed.

(** C4.  With an initiating refresh token whose row is already revoked,
    logoutAll fails with Unauthorized and leaves the store as it was: no
    row is revoked and no tokenVersion changes.  With a live initiating
    row of an active user at the current version it succeeds, and in the
    store it leaves every RefreshToken row of the user is revoked, the
    rows of other users are as they were, and the user's tokenVersion is
    one more than before while every other user is unchanged.  Both
    writes are one transaction: a logoutAll that throws leaves the store
    as it was.  That is so whatever the two writes do: logoutAll is the
    procedure [logoutAllOver] at the writes of the store, and over any
    two writes a throw of the procedure leaves the store as it was; in
    particular, when the revocation has written and the increment then
    fails, the revocation is undone with it. *)
Theorem logoutAll_contract :
  forall (uid tid : string) (tv : Z) (db : Db) (row : RefreshToken),
    Prisma.tokenById db tid = Some row ->
    (rt_revoked row = true ->
     AuthService.logoutAll uid tid tv db = (Err (AuthError Unauthorized), db))
    /\ (forall user,
          rt_revoked row = false -> rt_userId row = uid ->
          Prisma.userById db uid = Some user ->
          user_isActive user = true -> tv = user_tokenVersion user ->
          let db' := afterLogoutAll db user in
          AuthService.logoutAll uid tid tv db = (Ok tt, db')
          /\ refreshTokens db'
             = map (fun t => if rt_userId t =? uid
                             then mkRefreshToken (rt_id t) (rt_userId t)
                                                 (rt_expiresAt t) true
                             else t) (refreshTokens db)
          /\ (forall t, In t (refreshTokens db') -> rt_userId t = uid ->
                        rt_revoked t = true)
          /\ Prisma.userById db' uid = Some (Prisma.incrementTokenVersion user)
          /\ user_tokenVersion (Prisma.incrementTokenVersion user)
             = (user_tokenVersion user + 1)%Z
          /\ (forall v, In v (users db) -> user_id v <> uid -> In v (users db')))
    /\ (forall e db1,
          AuthService.logoutAll uid tid tv db = (Err e, db1) -> db1 = db)
    /\ AuthService.logoutAll uid tid tv
       = AuthService.logoutAllOver
           Prisma.refreshToken_revokeMany
           (fun id => Prisma.user_update id Prisma.incrementTokenVersion)
           uid tid tv
    /\ (forall revokeAll bump e db1,
          AuthService.logoutAllOver revokeAll bump uid tid tv db = (Err e, db1) ->
          db1 = db)
    /\ (forall user bump e,
          rt_revoked row = false -> rt_userId row = uid ->
          Prisma.userById db uid = Some user ->
          user_isActive user = true -> tv = user_tokenVersion user ->
          (forall d, exists d', bump uid d = (Err e, d')) ->
          let unrevoked := fun t => (rt_userId t =? uid) && negb (rt_revoked t) in
          Prisma.refreshToken_revokeMany unrevoked db
          = (Ok (length (filter unrevoked (refreshTokens db))),
             set_refreshTokens (revokeWhere unrevoked (refreshTokens db)) db)
          /\ AuthService.logoutAllOver Prisma.refreshToken_revokeMany bump uid tid tv db
             = (Err e, db)).
Proof.
  intros uid tid tv db row Hrow. split; [|split; [|split; [|split; [|split]]]].
  4: reflexivity.
  4:{ intros revokeAll bump e db1.
      unfold AuthService.logoutAllOver, bind, Prisma.refreshToken_findUnique.
      rewrite Hrow.
      destruct (negb (rt_userId row =? uid)); [intros H; now inversion H|].
      destruct (rt_revoked row); [intros H; now inversion H|].
      unfold Prisma.user_findUniqueOrThrow, Prisma.user_findUnique, bind.
      destruct (Prisma.userById db uid) as [user|]; [|intros H; now inversion H].
      cbn [ret].
      destruct (negb (user_isActive user)); [intros H; now inversion H|].
      destruct (negb (tv =? user_tokenVersion user)%Z); [intros H; now inversion H|].
      apply transaction_atomic. }
  4:{ intros user bump e Hlive Hown Huser Hact Htv Hfail unrevoked.
      split; [reflexivity|].
      unfold AuthService.logoutAllOver. eapply bind_ok; [reflexivity|].
      rewrite Hrow, Hown, String.eqb_refl, Hlive. cbv beta iota. cbn [negb].
      eapply bind_ok.
      { unfold Prisma.user_findUniqueOrThrow. eapply bind_ok; [reflexivity|].
        rewrite Huser. reflexivity. }
      rewrite Hact, Htv, Z.eqb_refl. cbn [negb].
      destruct (Hfail (set_refreshTokens
                         (revokeWhere unrevoked (refreshTokens db)) db)) as [d' Hd'].
      apply transaction_err with (db' := d').
      eapply bind_ok; [reflexivity|].
      apply bind_err. exact Hd'. }
  - intros Hdead. unfold AuthService.logoutAll. eapply bind_ok; [reflexivity|].
    rewrite Hrow, Hdead. cbv beta iota.
    now destruct (negb (rt_userId row =? uid)).
  - intros user Hlive Hown Huser Hact Htv db'.
    assert (Hid : user_id user = uid).
    { unfold Prisma.userById in Huser. now apply (find_key_In user_id) in Huser. }
    assert (Hrows : refreshTokens db'
             = map (fun t => if rt_userId t =? uid
                             then mkRefreshToken (rt_id t) (rt_userId t)
                                                 (rt_expiresAt t) true
                             else t) (refreshTokens db)).
    { unfold db', afterLogoutAll, revokeWhere. cbn [refreshTokens set_users set_refreshTokens].
      rewrite Hid. apply map_ext. intros t.
      destruct (rt_userId t =? uid); cbn [andb]; [|reflexivity].
      destruct (rt_revoked t) eqn:Er; cbn [negb]; [|reflexivity].
      destruct t as [i u e r]. cbn in Er. now subst r. }
    split; [now apply logoutAll_ok with (row := row)|].
    split; [exact Hrows|]. split; [|split; [|split]].
    + intros t Ht Hu. rewrite Hrows in Ht. apply in_map_iff in Ht.
      destruct Ht as [t0 [E _]]. subst t.
      destruct (String.eqb_spec (rt_userId t0) uid) as [E0|E0]; [reflexivity|].
      contradiction.
    + unfold db', afterLogoutAll. rewrite Hid.
      apply (userById_after_update
               (set_refreshTokens
                  (revokeWhere (fun t => (rt_userId t =? uid) && negb (rt_revoked t))
                               (refreshTokens db)) db)
               uid Prisma.incrementTokenVersion user); assumption.
    + reflexivity.
    + intros v Hv Hne. unfold db', afterLogoutAll. cbn [users set_users].
      apply in_map_iff. exists v. split; [|assumption].
      rewrite Hid. apply String.eqb_neq in Hne. now rewrite Hne.
  - intros e db1. unfold AuthService.logoutAll, bind, Prisma.refreshToken_findUnique.
    rewrite Hrow.
    destruct (negb (rt_userId row =? uid)); [intros H; now inversion H|].
    destruct (rt_revoked row); [intros H; now inversion H|].
    unfold Prisma.user_findUniqueOrThrow, Prisma.user_findUnique, bind.
    destruct (Prisma.userById db uid) as [user|]; [|intros H; now inversion H].
    cbn [ret].
    destruct (negb (user_isActive user)); [intros H; now inversion H|].
    destruct (negb (tv =? user_tokenVersion user)%Z); [intros H; now inversion H|].
    apply transaction_atomic.
Qed.

Lemma logoutAll_contract_witness :
  AuthService.logoutAll "u_bob" "jti_dead" 3 db_seed
  = (Err (AuthError Unauthorized), db_seed)
  /\ AuthService.logoutAll "u_bob" "jti_live" 3 db_seed
     = (Ok tt, afterLogoutAll db_seed u_bob)
  /\ (Prisma.tokenById
        (snd (Prisma.refreshToken_revokeMany
                (fun t => (rt_userId t =? "u_bob") && negb (rt_revoked t)) db_seed))
        "jti_live"
      = Some (Prisma.revoke t_live)
      /\ AuthService.logoutAllOver
           Prisma.refreshToken_revokeMany
           (fun _ => throw (PrismaClientKnownRequestError P2025))
           "u_bob" "jti_live" 3 db_seed
         = (Err (PrismaClientKnownRequestError P2025), db_seed)).
Proof.
  split; [|split].
  - apply (proj1 (logoutAll_contract "u_bob" "jti_dead" 3 db_seed t_dead eq_refl)).
    reflexivity.
  - apply (proj1 (proj2 (logoutAll_contract "u_bob" "jti_live" 3 db_seed t_live eq_refl))
             u_bob); reflexivity.
  - destruct (proj2 (proj2 (proj2 (proj2 (proj2
                (logoutAll_contract "u_bob" "jti_live" 3 db_seed t_live eq_refl)))))
                u_bob (fun _ => throw (PrismaClientKnownRequestError P2025))
                (PrismaClientKnownRequestError P2025)
                eq_refl eq_refl eq_refl eq_refl eq_refl
                (fun d => ex_intro _ d eq_refl)) as [Hrev Hall].
    split; [|exact Hall].
    rewrite Hrev. reflexivity.
Defined.

(** ** Session authority: logout *)

Lemma logout_total jti_ uid db :
  AuthService.logout jti_ uid db
  = (Ok tt,
     if existsb (fun t => (rt_id t =? jti_) && (rt_userId t =? uid)) (refreshTokens db)
     then afterLogout db jti_ uid else db).
Proof.
  unfold AuthService.logout, swallow, Prisma.refreshToken_revoke.
  now destruct (existsb _ (refreshTokens db)).
Qed.

Lemma revokeWhere_idem w ts :
  (forall t, w (Prisma.revoke t) = w t) ->
  revokeWhere w (revokeWhere w ts) = revokeWhere w ts.
Proof.
  intros Hw. unfold revokeWhere. rewrite map_map. apply map_ext. intros t.
  destruct (w t) eqn:E; [|now rewrite E].
  rewrite Hw, E. now destruct t.
Qed.

Lemma existsb_revokeWhere w ts :
  (forall t, w (Prisma.revoke t) = w t) ->
  existsb w (revokeWhere w ts) = existsb w ts.
Proof.
  intros Hw. unfold revokeWhere. induction ts as [|a l IH]; simpl; [reflexivity|].
  rewrite IH. f_equal. destruct (w a) eqn:E; [|exact E]. now rewrite Hw.
Qed.

Lemma logout_idempotent jti_ uid db :
  AuthService.logout jti_ uid (snd (AuthService.logout jti_ uid db))
  = AuthService.logout jti_ uid db.
Proof.
  rewrite !logout_total. cbn [snd].
  destruct (existsb _ (refreshTokens db)) eqn:E.
  - unfold afterLogout at 1. cbn [refreshTokens set_refreshTokens].
    rewrite existsb_revokeWhere by reflexivity. rewrite E. f_equal.
    unfold afterLogout. cbn [refreshTokens set_refreshTokens users roles features roleFeatures].
    now rewrite revokeWhere_idem by reflexivity.
  - now rewrite E.
Qed.

Section Logout.

Variable decode : string -> option Jwt.

(** The call the route makes, if any: the claims of a presented token
    that verifies with a string subject and a non-empty jti. *)
Lemma logoutRoute_cases now cookie body db :
  Routes.logoutRoute decode now cookie body db
  = (Ok (successResponse None "Logged out successfully" 200), db)
  \/ exists jti_ uid,
       Routes.logoutRoute decode now cookie body db
       = (Ok (successResponse None "Logged out successfully" 200),
          snd (AuthService.logout jti_ uid db)).
Proof.
  unfold Routes.logoutRoute.
  destruct (truthy (jsOr cookie body)); [|now left].
  destruct (verify decode RefreshJwt now (orElse (jsOr cookie body) ""))
    as [[[| uid | n] tv_ [jti_|]]|]; try (now left).
  destruct (jti_ =? "") eqn:Ej; [now left|].
  right. exists jti_, uid. unfold bind. rewrite logout_total. reflexivity.
Qed.

Lemma logout_then db jti_ uid (resp : Response unit) :
  (AuthService.logout jti_ uid ;;; ret resp) db
  = (Ok resp, snd (AuthService.logout jti_ uid db)).
Proof. unfold bind. now rewrite logout_total. Qed.

Lemma logoutRoute_idem now cookie body db :
  Routes.logoutRoute decode now cookie body
                     (snd (Routes.logoutRoute decode now cookie body db))
  = Routes.logoutRoute decode now cookie body db.
Proof.
  unfold Routes.logoutRoute.
  destruct (truthy (jsOr cookie body)); [|reflexivity].
  destruct (verify decode RefreshJwt now (orElse (jsOr cookie body) ""))
    as [[[| uid | n] tv_ [jti_|]]|]; try reflexivity.
  destruct (jti_ =? "") eqn:Ej; [reflexivity|].
  rewrite !logout_then. cbn [snd]. now rewrite logout_idempotent.
Qed.

(** The handler of the logout route.  For every cookie and every field
    of a validated body, and every store, it returns the 200 response
    "Logged out successfully" and throws nothing; running it again on the
    store it leaves returns the same response and changes nothing
    further.  When the presented token verifies and a row matches its jti
    and subject, that row is revoked in the store the handler leaves; it
    touches no other table. *)
Lemma logoutRoute_succeeds :
  forall (now : Z) (cookie body : option string) (db : Db),
    let r := Routes.logoutRoute decode now cookie body db in
    fst r = Ok (successResponse None "Logged out successfully" 200)
    /\ statusOf (fst r) = 200%Z
    /\ Routes.logoutRoute decode now cookie body (snd r) = r
    /\ users (snd r) = users db
    /\ roles (snd r) = roles db
    /\ features (snd r) = features db
    /\ roleFeatures (snd r) = roleFeatures db
    /\ (forall tok uid tvv jti_ row,
          jsOr cookie body = Some tok -> tok <> "" ->
          verify decode RefreshJwt now tok
          = Some (mkPayload (JsString uid) tvv (Some jti_)) ->
          jti_ <> "" ->
          Prisma.tokenById db jti_ = Some row ->
          rt_userId row = uid ->
          Prisma.tokenById (snd r) jti_ = Some (Prisma.revoke row)
          /\ rt_revoked (Prisma.revoke row) = true).
Proof.
  intros now cookie body db r.
  assert (Hr : r = (Ok (successResponse None "Logged out successfully" 200), snd r)).
  { unfold r. destruct (logoutRoute_cases now cookie body db) as [H|[j [u H]]];
      now rewrite H. }
  split; [now rewrite Hr|]. split; [now rewrite Hr|].
  split; [|split; [|split; [|split; [|split]]]].
  - unfold r. apply logoutRoute_idem.
  - unfold r. destruct (logoutRoute_cases now cookie body db) as [H|[j [u H]]];
      rewrite H; [reflexivity|]. rewrite logout_total. cbn [snd].
    now destruct (existsb _ (refreshTokens db)).
  - unfold r. destruct (logoutRoute_cases now cookie body db) as [H|[j [u H]]];
      rewrite H; [reflexivity|]. rewrite logout_total. cbn [snd].
    now destruct (existsb _ (refreshTokens db)).
  - unfold r. destruct (logoutRoute_cases now cookie body db) as [H|[j [u H]]];
      rewrite H; [reflexivity|]. rewrite logout_total. cbn [snd].
    now destruct (existsb _ (refreshTokens db)).
  - unfold r. destruct (logoutRoute_cases now cookie body db) as [H|[j [u H]]];
      rewrite H; [reflexivity|]. rewrite logout_total. cbn [snd].
    now destruct (existsb _ (refreshTokens db)).
  - intros tok uid tvv jti_ row Hin Htok Hver Hj Hrow Hown.
    split; [|reflexivity].
    assert (Hrun : r = (Ok (successResponse None "Logged out successfully" 200),
                        afterLogout db jti_ uid)).
    { unfold r, Routes.logoutRoute. rewrite Hin. cbn [truthy orElse].
      apply String.eqb_neq in Htok, Hj. rewrite Htok. cbn [negb].
      rewrite Hver, Hj. unfold bind. rewrite logout_total.
      assert (Hex : existsb (fun t => (rt_id t =? jti_) && (rt_userId t =? uid))
                            (refreshTokens db) = true).
      { apply existsb_exists. exists row.
        unfold Prisma.tokenById in Hrow. apply (find_key_In rt_id) in Hrow.
        destruct Hrow as [Hr1 Hr2]. split; [assumption|].
        now rewrite Hr2, Hown, !String.eqb_refl. }
      now rewrite Hex. }
    rewrite Hrun. cbn [snd]. unfold afterLogout.
    rewrite (tokenById_revokeWhere db _ jti_ row Hrow).
    assert (E : rt_id row = jti_).
    { unfold Prisma.tokenById in Hrow. now apply (find_key_In rt_id) in Hrow. }
    now rewrite E, Hown, !String.eqb_refl.
Qed.

End Logout.

(** C8.  POST /auth/logout validates the body before the handler runs.
    A body the schema of the route refuses is answered with 400 by the
    validation hook; the store is as it was and no row is revoked.  For
    every request whose body the schema accepts (any cookie; any string
    as token, valid, revoked, expired, malformed or unknown to the store;
    or no token) and every store, the route returns the 200 response
    "Logged out successfully" and throws nothing; repeating the request
    on the store it leaves returns the same response and changes nothing
    further.  When the presented token verifies and a row matches its jti
    and subject, that row is revoked in the store the route leaves; the
    route touches no other table.  The schema is not among the sources,
    and the statement is for every schema. *)
Theorem logout_succeeds_on_accepted_body :
  forall (decode : string -> option Jwt)
         (TokenSchema : SessionRoutes.BodyField -> option (option string))
         (now : Z) (cookie : option string) (body : SessionRoutes.BodyField)
         (db : Db),
    let route := SessionRoutes.logout decode TokenSchema now cookie body in
    let r := route db in
    (TokenSchema body = None ->
     r = (Ok (errorResponse 400 "Validation Error"), db)
     /\ statusOf (fst r) = 400%Z)
    /\ (forall field,
          TokenSchema body = Some field ->
          fst r = Ok (successResponse None "Logged out successfully" 200)
          /\ statusOf (fst r) = 200%Z
          /\ route (snd r) = r
          /\ users (snd r) = users db
          /\ roles (snd r) = roles db
          /\ features (snd r) = features db
          /\ roleFeatures (snd r) = roleFeatures db
          /\ (forall tok uid tvv jti_ row,
                jsOr cookie field = Some tok -> tok <> "" ->
                verify decode RefreshJwt now tok
                = Some (mkPayload (JsString uid) tvv (Some jti_)) ->
                jti_ <> "" ->
                Prisma.tokenById db jti_ = Some row ->
                rt_userId row = uid ->
                Prisma.tokenById (snd r) jti_ = Some (Prisma.revoke row)
                /\ rt_revoked (Prisma.revoke row) = true)).
Proof.
  intros decode TokenSchema now cookie body db route r. split.
  - intros Hno. unfold r, route, SessionRoutes.logout. rewrite Hno.
    split; reflexivity.
  - intros field Hyes. unfold r, route, SessionRoutes.logout. rewrite Hyes.
    apply logoutRoute_succeeds.
Qed.

Lemma logout_succeeds_on_accepted_body_witness :
  Prisma.tokenById
    (snd (SessionRoutes.logout decode_demo (SessionRoutes.tokenSchema false) 50 None
            (SessionRoutes.FieldString "ref_bob_live") db_seed))
    "jti_live"
  = Some (mkRefreshToken "jti_live" "u_bob" 1000 true)
  /\ SessionRoutes.logout decode_demo (SessionRoutes.tokenSchema false) 50 None
       (SessionRoutes.FieldString "not-a-jwt") db_seed
     = (Ok (successResponse None "Logged out successfully" 200), db_seed).
Proof.
  split.
  - destruct (proj2 (logout_succeeds_on_accepted_body
                       decode_demo (SessionRoutes.tokenSchema false) 50 None
                       (SessionRoutes.FieldString "ref_bob_live") db_seed)
                    (Some "ref_bob_live") eq_refl)
      as [_ [_ [_ [_ [_ [_ [_ H]]]]]]].
    apply (H "ref_bob_live" "u_bob" (JsNumber 3) "jti_live" t_live);
      try reflexivity; discriminate.
  - destruct (proj2 (logout_succeeds_on_accepted_body
                       decode_demo (SessionRoutes.tokenSchema false) 50 None
                       (SessionRoutes.FieldString "not-a-jwt") db_seed)
                    (Some "not-a-jwt") eq_refl)
      as [H _].
    apply injective_projections; [exact H|reflexivity].
Defined.

(** C8, as stated, fails on a body whose refresh_token is null: the route
    answers 400, whether or not the schema lets the field be left out,
    and logout does not report success.  It does so also when the cookie
    carries a live token, and that token's row is not revoked. *)
Lemma logout_null_token_rejected :
  SessionRoutes.logout decode_demo (SessionRoutes.tokenSchema true) 50 None
                       SessionRoutes.FieldNull db_seed
  = (Ok (errorResponse 400 "Validation Error"), db_seed)
  /\ SessionRoutes.logout decode_demo (SessionRoutes.tokenSchema false) 50 None
                          SessionRoutes.FieldNull db_seed
     = (Ok (errorResponse 400 "Validation Error"), db_seed)
  /\ statusOf (fst (SessionRoutes.logout decode_demo (SessionRoutes.tokenSchema false)
                      50 None SessionRoutes.FieldNull db_seed)) = 400%Z
  /\ error (errorResponse (A := unit) 400 "Validation Error") = true
  /\ Prisma.tokenById
       (snd (SessionRoutes.logout decode_demo (SessionRoutes.tokenSchema false) 50
               (Some "ref_bob_live") SessionRoutes.FieldNull db_seed))
       "jti_live"
     = Some t_live
  /\ rt_revoked t_live = false.
Proof. repeat split. Qed.

(** Any number of repetitions: the store after [n + 1] logout requests
    with the same token is the store after the first. *)
Lemma logout_repeated decode now cookie body db (n : nat) :
  Nat.iter (S n) (fun d => snd (Routes.logoutRoute decode now cookie body d)) db
  = snd (Routes.logoutRoute decode now cookie body db).
Proof.
  induction n as [|n IH]; [reflexivity|].
  change (Nat.iter (S (S n)) ?f db) with (f (Nat.iter (S n) f db)).
  rewrite IH. now rewrite logoutRoute_idem.
Qed.

(** ** A revoked row stays revoked *)

Section History.

Variable refreshLifetime : Z.

Lemma Monotone_refl db : Monotone db db.
Proof.
  constructor.
  - exists (fun _ => false), []. unfold revokeWhere.
    now rewrite map_id, app_nil_r.
  - exists (fun v => v). now rewrite map_id.
Qed.

Lemma Monotone_tokens db ts w extra :
  ts = revokeWhere w (refreshTokens db) ++ extra ->
  Monotone db (set_refreshTokens ts db).
Proof.
  intros E. constructor.
  - exists w, extra. exact E.
  - exists (fun v => v). cbn. now rewrite map_id.
Qed.

Lemma Monotone_increment db id u :
  user_id u = id ->
  Monotone db (set_users
                 (map (fun v => if user_id v =? id
                                then Prisma.incrementTokenVersion u else v)
                      (users db)) db).
Proof.
  intros Hid. constructor.
  - exists (fun _ => false), []. cbn. unfold revokeWhere.
    now rewrite map_id, app_nil_r.
  - eexists. split; [reflexivity|]. intros v. cbn beta.
    destruct (String.eqb_spec (user_id v) id) as [E|E]; [cbn; congruence|reflexivity].
Qed.

Lemma Monotone_trans db1 db2 db3 :
  Monotone db1 db2 -> Monotone db2 db3 -> Monotone db1 db3.
Proof.
  intros [[w1 [x1 H1]] [f1 [G1 K1]]] [[w2 [x2 H2]] [f2 [G2 K2]]]. constructor.
  - exists (fun t => w1 t || w2 (if w1 t then Prisma.revoke t else t)),
           (revokeWhere w2 x1 ++ x2).
    rewrite H2, H1. unfold revokeWhere. rewrite map_app, map_map, <- app_assoc.
    f_equal. apply map_ext. intros t. destruct (w1 t); cbn [orb].
    + destruct (w2 (Prisma.revoke t)); [now destruct t|reflexivity].
    + reflexivity.
  - exists (fun v => f2 (f1 v)). split.
    + now rewrite G2, G1, map_map.
    + intros v. now rewrite K2, K1.
Qed.

Lemma userById_id db id u : Prisma.userById db id = Some u -> user_id u = id.
Proof. unfold Prisma.userById. intros H. now apply (find_key_In user_id) in H. Qed.

Lemma tokenById_id db id t : Prisma.tokenById db id = Some t -> rt_id t = id.
Proof. unfold Prisma.tokenById. intros H. now apply (find_key_In rt_id) in H. Qed.

Lemma refreshToken_create_shape t db r db' :
  Prisma.refreshToken_create t db = (r, db') -> Monotone db db'.
Proof.
  unfold Prisma.refreshToken_create.
  destruct (existsb _ (refreshTokens db));
    [intros H; inversion H; apply Monotone_refl|].
  destruct (negb _); intros H; inversion H; [apply Monotone_refl|].
  apply (Monotone_tokens db _ (fun _ => false) [t]).
  unfold revokeWhere. now rewrite map_id.
Qed.

Lemma user_increment_shape id db r db' :
  Prisma.user_update id Prisma.incrementTokenVersion db = (r, db') -> Monotone db db'.
Proof.
  destruct (Prisma.userById db id) as [u|] eqn:Hu.
  - rewrite (incrementTokenVersion_ok db id u Hu). intros H. inversion H.
    apply Monotone_increment. now apply userById_id in Hu.
  - unfold Prisma.user_update. rewrite Hu. intros H. inversion H.
    apply Monotone_refl.
Qed.

Lemma runSession_Monotone op db : Monotone db (runSession refreshLifetime op db).
Proof.
  destruct op as [now newId userId | now newId jti_ userId tv_ | jti_ userId
                  | userId tokenId tv_]; cbn [runSession].
  - unfold AuthService.createRefreshToken, bind.
    destruct (Prisma.refreshToken_create _ db) as [[t|e] d] eqn:E; cbn [snd ret];
      now apply refreshToken_create_shape in E.
  - unfold AuthService.refresh, bind at 1, Prisma.refreshToken_findUnique.
    destruct (Prisma.tokenById db jti_) as [row|]; [|apply Monotone_refl].
    destruct (rt_revoked row).
    + unfold bind.
      destruct (Prisma.user_update _ _ db) as [[u|e] d] eqn:E; cbn [snd throw];
        now apply user_increment_shape in E.
    + unfold bind at 1, Prisma.user_findUniqueOrThrow, Prisma.user_findUnique, bind at 1.
      destruct (Prisma.userById db (rt_userId row)) as [user|]; [|apply Monotone_refl].
      cbn [ret]. destruct (negb (user_isActive user)); [apply Monotone_refl|].
      destruct (negb _); [apply Monotone_refl|].
      unfold bind at 1, transaction, bind at 1, Prisma.refreshToken_revoke.
      destruct (existsb _ (refreshTokens db)); [|apply Monotone_refl].
      match goal with
      | |- context [Prisma.refreshToken_create ?t ?d] =>
          destruct (Prisma.refreshToken_create t d) as [[t'|e] d'] eqn:E
      end; [|apply Monotone_refl].
      cbn [snd ret]. apply refreshToken_create_shape in E.
      eapply Monotone_trans; [|exact E].
      apply (Monotone_tokens db _ (fun t => rt_id t =? rt_id row) []).
      now rewrite app_nil_r.
  - rewrite logout_total. cbn [snd].
    destruct (existsb _ (refreshTokens db)); [|apply Monotone_refl].
    unfold afterLogout.
    apply (Monotone_tokens db _ (fun t => (rt_id t =? jti_) && (rt_userId t =? userId)) []).
    now rewrite app_nil_r.
  - unfold AuthService.logoutAll, bind at 1, Prisma.refreshToken_findUnique.
    destruct (Prisma.tokenById db tokenId) as [row|]; [|apply Monotone_refl].
    destruct (negb (rt_userId row =? userId)); [apply Monotone_refl|].
    destruct (rt_revoked row); [apply Monotone_refl|].
    unfold bind at 1, Prisma.user_findUniqueOrThrow, Prisma.user_findUnique, bind at 1.
    destruct (Prisma.userById db userId) as [user|]; [|apply Monotone_refl].
    cbn [ret]. destruct (negb (user_isActive user)); [apply Monotone_refl|].
    destruct (negb _); [apply Monotone_refl|].
    unfold transaction, bind at 1, Prisma.refreshToken_revokeMany.
    unfold bind.
    match goal with
    | |- context [Prisma.user_update ?i ?f ?d] =>
        destruct (Prisma.user_update i f d) as [[u|e] d'] eqn:E
    end; [|apply Monotone_refl].
    cbn [snd ret]. apply user_increment_shape in E.
    eapply Monotone_trans; [|exact E].
    apply (Monotone_tokens db _
             (fun t => (rt_userId t =? userId) && negb (rt_revoked t)) []).
    now rewrite app_nil_r.
Qed.

Lemma runSessions_Monotone ops db : Monotone db (runSessions refreshLifetime ops db).
Proof.
  revert db. induction ops as [|op ops IH]; intros db; cbn.
  - apply Monotone_refl.
  - eapply Monotone_trans; [apply runSession_Monotone|apply IH].
Qed.

Lemma Monotone_revoked db db' id t :
  Monotone db db' ->
  Prisma.tokenById db id = Some t -> rt_revoked t = true ->
  Prisma.tokenById db' id = Some t.
Proof.
  intros [[w [extra H]] _] Ht Hrev. unfold Prisma.tokenById. rewrite H.
  pose proof (tokenById_revokeWhere db w id t Ht) as Hw.
  unfold Prisma.tokenById in Hw. cbn [refreshTokens set_refreshTokens] in Hw.
  rewrite find_app_first, Hw.
  destruct (w t); [now rewrite revoke_revoked|reflexivity].
Qed.

End History.

Section OneShot.

Variable decode : string -> option Jwt.
Variable sign : JwtKind -> JwtPayload -> Z -> string.
Variable refreshLifetime : Z.

Lemma verify_stable kind now now' tok p :
  verify decode kind now tok = Some p ->
  verify decode kind now' tok = Some p \/ verify decode kind now' tok = None.
Proof.
  unfold verify. destruct (decode tok) as [j|]; [|discriminate].
  destruct (JwtKind_eqb (jwt_kind j) kind); cbn [andb]; [|discriminate].
  destruct (now <? jwt_exp j)%Z; [|discriminate]. intros H.
  destruct (now' <? jwt_exp j)%Z; [now left|now right].
Qed.

Lemma Monotone_user db db' id u :
  Monotone db db' -> Prisma.userById db id = Some u ->
  exists u', Prisma.userById db' id = Some u'.
Proof.
  intros [_ [f [Hf Hk]]] Hu. unfold Prisma.userById in *. rewrite Hf. clear Hf.
  induction (users db) as [|a l IH]; simpl in *; [discriminate|].
  rewrite Hk. destruct (user_id a =? id); [eauto|now apply IH].
Qed.

Lemma refresh_success_revokes now newId jti_ uid tvClaim db d db' :
  AuthService.refresh refreshLifetime now newId jti_ uid tvClaim db = (Ok d, db') ->
  exists row owner,
    Prisma.tokenById db jti_ = Some row
    /\ rt_revoked row = false
    /\ Prisma.userById db (rt_userId row) = Some owner
    /\ Prisma.tokenById db' jti_ = Some (Prisma.revoke row)
    /\ Monotone db db'.
Proof.
  intros H. pose proof (runSession_Monotone refreshLifetime
                          (OpRefresh now newId jti_ uid tvClaim) db) as Hm.
  cbn [runSession] in Hm. rewrite H in Hm. cbn [snd] in Hm.
  unfold AuthService.refresh in H.
  apply bind_Ok_inv in H. destruct H as [stored [d0 [H0 H]]].
  inversion H0. subst stored d0. clear H0.
  destruct (Prisma.tokenById db jti_) as [row|] eqn:Hrow; [|discriminate].
  destruct (rt_revoked row) eqn:Hlive.
  { apply bind_Ok_inv in H. destruct H as [? [? [_ H]]]. discriminate. }
  apply bind_Ok_inv in H. destruct H as [user [d1 [H1 H]]].
  unfold Prisma.user_findUniqueOrThrow, Prisma.user_findUnique, bind in H1.
  destruct (Prisma.userById db (rt_userId row)) as [owner|] eqn:Ho; [|discriminate].
  inversion H1. subst user d1. clear H1.
  destruct (negb (user_isActive owner)); [discriminate|].
  destruct (negb _); [discriminate|].
  apply bind_Ok_inv in H. destruct H as [t' [d2 [H2 H]]].
  inversion H. subst d db'. clear H.
  apply transaction_Ok_inv in H2.
  apply bind_Ok_inv in H2. destruct H2 as [u [d3 [H3 H4]]].
  unfold Prisma.refreshToken_revoke in H3.
  destruct (existsb _ (refreshTokens db)); [|discriminate].
  inversion H3. subst d3. clear H3.
  unfold Prisma.refreshToken_create in H4.
  cbn [refreshTokens set_refreshTokens users rt_id rt_userId] in H4.
  destruct (existsb _ _) in H4; [discriminate|].
  destruct (negb _) in H4; [discriminate|].
  inversion H4. subst d2. clear H4.
  exists row, owner.
  split; [reflexivity|]. split; [assumption|]. split; [assumption|].
  split; [|exact Hm].
  pose proof (tokenById_revokeWhere db (fun t => rt_id t =? rt_id row) jti_ row Hrow) as Hw.
  unfold Prisma.tokenById in *. cbn [refreshTokens set_refreshTokens] in *.
  unfold revokeWhere in Hw. rewrite find_app_first, Hw.
  now rewrite String.eqb_refl.
Qed.

(** One shot: once the route has redeemed [tok], no later request that
    presents [tok] is redeemed, whatever session operations ran in
    between and whatever the time: it ends with 401. *)
Lemma refresh_never_twice now newId cookie body db0 resp db1 tok :
  jsOr cookie body = Some tok ->
  Routes.refreshRoute decode sign refreshLifetime now newId cookie body db0
  = (Ok resp, db1) ->
  code resp = 200%Z ->
  forall ops now' newId' cookie' body',
    jsOr cookie' body' = Some tok ->
    let r := Routes.refreshRoute decode sign refreshLifetime now' newId' cookie' body'
                                 (runSessions refreshLifetime ops db1) in
    statusOf (fst r) = 401%Z
    /\ forall resp', fst r = Ok resp' -> code resp' = 401%Z.
Proof.
  intros Hin H Hcode ops now' newId' cookie' body' Hin' r.
  unfold Routes.refreshRoute in H. rewrite Hin in H. cbn [truthy orElse] in H.
  destruct (tok =? "") eqn:Etok; cbn [negb] in H;
    [inversion H; subst resp; discriminate Hcode|].
  destruct (verify decode RefreshJwt now tok) as [[[|uid|n] [| s |tvClaim] [jti_|]]|] eqn:Hver;
    try (inversion H; subst resp; discriminate Hcode).
  destruct (jti_ =? "") eqn:Ej; [inversion H; subst resp; discriminate Hcode|].
  apply bind_Ok_inv in H. destruct H as [d [db' [Hsvc H]]].
  inversion H. subst db'. clear H.
  apply refresh_success_revokes in Hsvc.
  destruct Hsvc as [row [owner [Hrow [Hlive [Ho [Hrow1 Hm1]]]]]].
  set (db := runSessions refreshLifetime ops db1) in *.
  pose proof (runSessions_Monotone refreshLifetime ops db1) as Hm. fold db in Hm.
  assert (Hdead : Prisma.tokenById db jti_ = Some (Prisma.revoke row)).
  { now apply (Monotone_revoked db1 db). }
  destruct (Monotone_user db0 db (rt_userId row) owner) as [owner' Ho'];
    [now apply (Monotone_trans db0 db1 db)|assumption|].
  apply String.eqb_neq in Etok, Ej.
  destruct (verify_stable RefreshJwt now now' tok _ Hver) as [Hv|Hv].
  - assert (Hr : fst r = Err (AuthError InvalidToken)).
    { unfold r.
      rewrite (refreshRoute_verified decode sign refreshLifetime now' newId'
                 cookie' body' db tok uid tvClaim jti_) by assumption.
      erewrite bind_err; [reflexivity|].
      apply (refresh_reuse refreshLifetime now' newId' jti_ uid tvClaim db
               (Prisma.revoke row) owner'); [assumption|reflexivity|assumption]. }
    rewrite Hr. split; [reflexivity|discriminate].
  - assert (Hr : r = (Ok (errorResponse 401 "Unauthorized"), db)).
    { unfold r. now apply refreshRoute_unverified with (tok := tok). }
    rewrite Hr. cbn [fst]. split; [reflexivity|].
    intros resp' E. now inversion E.
Qed.

End OneShot.

(* ================================================================== *)
(** * Further properties of the permission model *)
(* ================================================================== *)

(** X1. The constraints of the schema on the permission tables (ids are
    keys, both foreign keys of every RoleFeature row resolve, the pair
    (roleId, featureId) is unique) hold after any run of createFeature,
    deleteFeature, createRole, updateRole and deleteRole, whether the
    calls return or throw. *)
Theorem schema_kept_by_every_run :
  forall (ops : list RbacOp) (db : Db), SchemaOk db -> SchemaOk (execAll ops db).
Proof.
  induction ops as [|op ops IH]; intros db H; cbn; [exact H|].
  apply IH. now apply schema_step.
Qed.

Lemma schema_kept_by_every_run_witness :
  SchemaOk (execAll [CreateFeature "f_bill" (billing None);
                     UpdateRole "r_clerk" clerkReadsUsers;
                     DeleteRole "r_super";
                     CreateRole "r_clerk" manager] db_seed).
Proof. apply schema_kept_by_every_run. exact db_seed_SchemaOk. Defined.

(** The ids [findMany({ where: { id: { in: ids } } })] answers with, as
    far as the ids asked for are concerned, are the ids of the table. *)
Lemma includes_existing (ids : list string) (fs : list Feature) (id : string) :
  In id ids ->
  Array_includes
    (map feature_id (filter (fun f => Array_includes ids (feature_id f)) fs)) id
  = Array_includes (map feature_id fs) id.
Proof.
  intros Hin.
  destruct (Array_includes (map feature_id fs) id) eqn:E.
  - apply Array_includes_In. apply Array_includes_In in E.
    apply in_map_iff in E. destruct E as [f [Hf Hfs]].
    apply in_map_iff. exists f. split; [exact Hf|].
    apply filter_In. split; [exact Hfs|].
    apply Array_includes_In. now rewrite Hf.
  - destruct (Array_includes
                (map feature_id (filter (fun f => Array_includes ids (feature_id f)) fs))
                id) eqn:E'; [|reflexivity].
    apply Array_includes_In in E'. apply in_map_iff in E'.
    destruct E' as [f [Hf Hfs]]. apply filter_In in Hfs. destruct Hfs as [Hfs _].
    assert (In id (map feature_id fs)) as Hc
        by (apply in_map_iff; exists f; now split).
    apply Array_includes_In in Hc. congruence.
Qed.

(** X2. createRole checks the supplied featureIds before anything else:
    when one of them names no feature, the call throws
    InvalidFeatureIdError, whose message lists the unknown ids in the
    order of the request (repetitions included), and the store is left as
    it was; this is so even when the role name is taken. *)
Theorem createRole_rejects_unknown_featureIds :
  forall (db : Db) (newId : string) (data : CreateRoleInput)
         (ps : list PermissionInput),
    cr_permissions data = Some ps ->
    let invalid :=
      filter (fun id => negb (Array_includes (featureIds db) id))
             (map pi_featureId ps) in
    invalid <> [] ->
    RbacService.createRole newId data db
    = (Err (InvalidFeatureIdError
              ("Invalid featureId(s): " ++ String.concat ", " invalid)), db).
Proof.
  intros db newId data ps Hps invalid Hne.
  unfold RbacService.createRole. apply transaction_err with (db' := db).
  apply bind_err. rewrite Hps.
  destruct ps as [|p ps]; [now elim Hne|].
  unfold RbacService.validateFeatureIds, bind, Prisma.feature_findMany_in.
  cbv beta iota.
  assert (E : filter
                (fun id =>
                   negb (Array_includes
                           (map feature_id
                                (filter (fun f => Array_includes
                                                    (map pi_featureId (p :: ps))
                                                    (feature_id f))
                                        (features db))) id))
                (map pi_featureId (p :: ps)) = invalid).
  { unfold invalid. apply filter_ext_in. intros id Hid.
    unfold featureIds. now rewrite includes_existing. }
  rewrite E.
  destruct invalid as [|i inv]; [now elim Hne|]. reflexivity.
Qed.

Lemma createRole_rejects_unknown_featureIds_witness :
  RbacService.createRole "r_new"
    (mkCreateRoleInput "Clerk" None
       (Some [mkPermissionInput "f_ghost" noAccess;
              mkPermissionInput "f_user" readOnly;
              mkPermissionInput "f_ghost" readOnly;
              mkPermissionInput "f_none" noAccess])) db_seed
  = (Err (InvalidFeatureIdError "Invalid featureId(s): f_ghost, f_ghost, f_none"),
     db_seed).
Proof.
  apply (createRole_rejects_unknown_featureIds db_seed "r_new"
           (mkCreateRoleInput "Clerk" None
              (Some [mkPermissionInput "f_ghost" noAccess;
                     mkPermissionInput "f_user" readOnly;
                     mkPermissionInput "f_ghost" readOnly;
                     mkPermissionInput "f_none" noAccess])) _ eq_refl).
  discriminate.
Defined.

(* ------------------------------------------------------------------ *)
(** ** updateRole *)

Lemma find_map_replace {A} (key : A -> string) (l : list A) (id : string) (x y : A) :
  find (fun z => key z =? id) l = Some x ->
  key y = id ->
  find (fun z => key z =? id) (map (fun z => if key z =? id then y else z) l) = Some y.
Proof.
  intros Hf Hy. induction l as [|a l IH]; [discriminate|].
  simpl in *. destruct (key a =? id) eqn:E.
  - simpl. now rewrite Hy, String.eqb_refl.
  - simpl. rewrite E. now apply IH.
Qed.

Lemma map_key_replace {A} (key : A -> string) (l : list A) (id : string) (y : A) :
  key y = id ->
  map key (map (fun z => if key z =? id then y else z) l) = map key l.
Proof.
  intros Hy. rewrite map_map. apply map_ext. intros a.
  destruct (key a =? id) eqn:E; [|reflexivity].
  apply String.eqb_eq in E. congruence.
Qed.

Lemma role_update_Ok id name description db r' db' :
  Prisma.role_update id name description db = (Ok r', db') ->
  exists old,
    Prisma.roleById db id = Some old
    /\ r' = mkRole id (orElse name (role_name old))
                   (orElse description (role_description old))
    /\ db' = set_roles (map (fun q => if role_id q =? id then r' else q) (roles db)) db.
Proof.
  unfold Prisma.role_update. intros H.
  destruct (Prisma.roleById db id) as [old|] eqn:Hr; [|discriminate].
  exists old. split; [reflexivity|].
  match type of H with
  | (if ?c then _ else _) = _ => destruct c; [discriminate|]
  end.
  inversion H. subst. split; reflexivity.
Qed.

Lemma filter_role_split (id : string) (l : list RoleFeature) :
  filter (fun p => rf_roleId p =? id)
         (filter (fun p => negb (rf_roleId p =? id)) l) = [].
Proof.
  apply filter_none. intros p Hp. apply filter_In in Hp. destruct Hp as [_ Hp].
  now apply negb_true_iff in Hp.
Qed.

Lemma filter_negb_idem (id : string) (l : list RoleFeature) :
  filter (fun p => negb (rf_roleId p =? id))
         (filter (fun p => negb (rf_roleId p =? id)) l)
  = filter (fun p => negb (rf_roleId p =? id)) l.
Proof.
  apply filter_all. intros p Hp. apply filter_In in Hp. now destruct Hp.
Qed.

Lemma updateRows_own id ps :
  filter (fun p => rf_roleId p =? id) (updateRows id ps) = updateRows id ps.
Proof.
  apply filter_all. intros p Hp. unfold updateRows in Hp.
  apply in_map_iff in Hp. destruct Hp as [q [Hq _]]. subst p.
  apply String.eqb_refl.
Qed.

Lemma updateRows_others id ps :
  filter (fun p => negb (rf_roleId p =? id)) (updateRows id ps) = [].
Proof.
  apply filter_none. intros p Hp. unfold updateRows in Hp.
  apply in_map_iff in Hp. destruct Hp as [q [Hq _]]. subst p.
  cbn. now rewrite String.eqb_refl.
Qed.

(** The store after a successful updateRole, row by row in the order of
    the store. *)
Lemma updateRole_Ok_store :
  forall (db : Db) (id : string) (data : UpdateRoleInput) (role : Role)
         (perms : list RoleFeature) (db' : Db),
    RbacService.updateRole id data db = (Ok (role, perms), db') ->
    (exists old,
        Prisma.roleById db id = Some old
        /\ role = mkRole id (orElse (ur_name data) (role_name old))
                         (orElse (ur_description data) (role_description old)))
    /\ Prisma.roleById db' id = Some role
    /\ filter (fun p => rf_roleId p =? id) (roleFeatures db') = perms
    /\ perms = match ur_permissions data with
               | Some ps => updateRows id ps
               | None => filter (fun p => rf_roleId p =? id) (roleFeatures db)
               end
    /\ filter (fun p => negb (rf_roleId p =? id)) (roleFeatures db')
       = filter (fun p => negb (rf_roleId p =? id)) (roleFeatures db)
    /\ features db' = features db
    /\ users db' = users db
    /\ refreshTokens db' = refreshTokens db
    /\ map role_id (roles db') = map role_id (roles db).
Proof.
  intros db id data role perms db' H.
  unfold RbacService.updateRole in H. apply transaction_Ok_inv in H.
  apply bind_Ok_inv in H. destruct H as [r' [db1 [H1 H]]].
  apply role_update_Ok in H1. destruct H1 as [old [Hold [Hr' Hdb1]]].
  apply bind_Ok_inv in H. destruct H as [u [db2 [H2 H]]].
  apply bind_Ok_inv in H. destruct H as [ur [db3 [H3 H]]].
  pose proof (role_findUniqueOrThrow_state _ _ _ _ H3) as E3. subst db3.
  apply bind_Ok_inv in H. destruct H as [pp [db4 [H4 H]]].
  inversion H4. subst pp db4. inversion H. subst role perms db'. clear H H4.
  assert (Hrid : role_id r' = id) by (now rewrite Hr').
  assert (Hshape :
            roles db2 = roles db1 /\ features db2 = features db
            /\ users db2 = users db /\ refreshTokens db2 = refreshTokens db
            /\ roleFeatures db2
               = match ur_permissions data with
                 | Some ps =>
                     filter (fun p => negb (rf_roleId p =? id)) (roleFeatures db)
                            ++ updateRows id ps
                 | None => roleFeatures db
                 end).
  { destruct (ur_permissions data) as [ps|].
    - apply bind_Ok_inv in H2. destruct H2 as [n [dbd [Hd H2]]].
      inversion Hd. subst n dbd. clear Hd.
      destruct (0 <? length ps)%nat eqn:Hlen.
      + apply bind_Ok_inv in H2. destruct H2 as [n' [dbc [Hcm H2]]].
        inversion H2. subst dbc. clear H2.
        apply createMany_inv in Hcm. destruct Hcm as [_ [_ [_ Hdb2]]].
        rewrite Hdb2, Hdb1. repeat split; reflexivity.
      + apply Nat.ltb_ge in Hlen. destruct ps; [|simpl in Hlen; lia].
        inversion H2. subst db2. rewrite Hdb1. cbn.
        rewrite app_nil_r. repeat split; reflexivity.
    - inversion H2. subst db2. rewrite Hdb1. repeat split; reflexivity. }
  destruct Hshape as [Hroles [Hfeat [Husers [Htok Hrows]]]].
  assert (Hfind : Prisma.roleById db2 id = Some r').
  { unfold Prisma.roleById. rewrite Hroles, Hdb1. cbn.
    now apply find_map_replace with (x := old). }
  assert (Hur : ur = r').
  { unfold Prisma.role_findUniqueOrThrow, bind, Prisma.role_findUnique in H3.
    rewrite Hfind in H3. now inversion H3. }
  subst ur.
  split; [exists old; now split|].
  split; [exact Hfind|].
  split; [reflexivity|].
  split.
  { rewrite Hrows. destruct (ur_permissions data) as [ps|]; [|reflexivity].
    now rewrite filter_app, filter_role_split, updateRows_own. }
  split.
  { rewrite Hrows. destruct (ur_permissions data) as [ps|]; [|reflexivity].
    now rewrite filter_app, filter_negb_idem, updateRows_others, app_nil_r. }
  split; [exact Hfeat|]. split; [exact Husers|]. split; [exact Htok|].
  rewrite Hroles, Hdb1. cbn. now apply map_key_replace.
Qed.

(** X3. What a successful updateRole has done.  The role row carries the
    supplied name and description (an absent one is kept).  With a
    permission list, the rows of this role are afterwards the rows of the
    list, one for each entry and no other, an omitted flag being false: a
    feature the list does not name has no row for the role any more.
    Without a list the rows are as before.  The rows returned are those
    of the role in the store.  The read-back names no order, and the rows
    are stated as a collection, up to permutation.  The rows of every
    other role, the features, the users and the refresh tokens are
    untouched, and no role id changes. *)
Theorem updateRole_replaces_rows_of_one_role :
  forall (db : Db) (id : string) (data : UpdateRoleInput) (role : Role)
         (perms : list RoleFeature) (db' : Db),
    RbacService.updateRole id data db = (Ok (role, perms), db') ->
    (exists old,
        Prisma.roleById db id = Some old
        /\ role = mkRole id (orElse (ur_name data) (role_name old))
                         (orElse (ur_description data) (role_description old)))
    /\ Prisma.roleById db' id = Some role
    /\ Permutation perms (filter (fun p => rf_roleId p =? id) (roleFeatures db'))
    /\ Permutation perms
                   (match ur_permissions data with
                    | Some ps => updateRows id ps
                    | None => filter (fun p => rf_roleId p =? id) (roleFeatures db)
                    end)
    /\ Permutation (filter (fun p => negb (rf_roleId p =? id)) (roleFeatures db'))
                   (filter (fun p => negb (rf_roleId p =? id)) (roleFeatures db))
    /\ features db' = features db
    /\ users db' = users db
    /\ refreshTokens db' = refreshTokens db
    /\ Permutation (map role_id (roles db')) (map role_id (roles db)).
Proof.
  intros db id data role perms db' H.
  destruct (updateRole_Ok_store db id data role perms db' H)
    as [Hold [Hrole [Hown [Hperms [Hothers [Hf [Hu [Ht Hids]]]]]]]].
  split; [exact Hold|]. split; [exact Hrole|].
  split; [now rewrite Hown|]. split; [now rewrite <- Hperms|].
  split; [now rewrite Hothers|].
  split; [exact Hf|]. split; [exact Hu|]. split; [exact Ht|].
  now rewrite Hids.
Qed.

Lemma updateRole_replaces_rows_of_one_role_witness :
  Permutation [mkRoleFeature "r_clerk" "f_user" false true false false false]
              (filter (fun p => rf_roleId p =? "r_clerk")
                 (roleFeatures
                    (snd (RbacService.updateRole "r_clerk" clerkReadsUsers db_seed))))
  /\ Permutation
       (filter (fun p => negb (rf_roleId p =? "r_clerk"))
          (roleFeatures (snd (RbacService.updateRole "r_clerk" clerkReadsUsers db_seed))))
       (filter (fun p => negb (rf_roleId p =? "r_clerk")) (roleFeatures db_seed)).
Proof.
  destruct (updateRole_replaces_rows_of_one_role db_seed "r_clerk" clerkReadsUsers
              r_clerk [mkRoleFeature "r_clerk" "f_user" false true false false false]
              (snd (RbacService.updateRole "r_clerk" clerkReadsUsers db_seed))
              eq_refl)
    as [_ [_ [H1 [_ [H2 _]]]]].
  split; [exact H1|exact H2].
Defined.

Lemma pairs_distinct_updateRows id (ps : list PermissionInput) :
  Prisma.pairs_distinct (updateRows id ps) = true -> NoDup (map pi_featureId ps).
Proof.
  induction ps as [|p ps IH]; intros H; [constructor|].
  change (updateRows id (p :: ps))
    with (rowOf id (pi_featureId p) (pi_flags p) :: updateRows id ps) in H.
  cbn [Prisma.pairs_distinct] in H.
  apply andb_true_iff in H. destruct H as [Hn Hd].
  constructor; [|now apply IH].
  intros Hin. apply in_map_iff in Hin. destruct Hin as [q [Hq Hin]].
  apply negb_true_iff in Hn.
  assert (existsb (Prisma.same_pair (rowOf id (pi_featureId p) (pi_flags p)))
                  (updateRows id ps) = true) as Hc.
  { apply existsb_exists. exists (rowOf id (pi_featureId q) (pi_flags q)).
    split.
    - unfold updateRows. apply in_map_iff. exists q. now split.
    - unfold Prisma.same_pair. cbn. now rewrite Hq, !String.eqb_refl. }
  rewrite Hc in Hn. discriminate.
Qed.

Lemma NoDup_pairs_distinct_updateRows id (ps : list PermissionInput) :
  NoDup (map pi_featureId ps) -> Prisma.pairs_distinct (updateRows id ps) = true.
Proof.
  induction ps as [|p ps IH]; intros H; [reflexivity|].
  change (updateRows id (p :: ps))
    with (rowOf id (pi_featureId p) (pi_flags p) :: updateRows id ps).
  cbn [Prisma.pairs_distinct]. cbn [map] in H. inversion H as [|x l Hn Hd]. subst.
  apply andb_true_intro. split; [|now apply IH].
  apply negb_true_iff. apply not_true_is_false. intros Hc.
  apply existsb_exists in Hc. destruct Hc as [q [Hq Hsame]].
  unfold updateRows in Hq. apply in_map_iff in Hq.
  destruct Hq as [p0 [Hq Hp0]]. subst q.
  unfold Prisma.same_pair in Hsame. cbn in Hsame.
  apply andb_true_iff in Hsame. destruct Hsame as [_ Hsame].
  apply String.eqb_eq in Hsame. apply Hn. rewrite Hsame.
  apply in_map_iff. now exists p0.
Qed.

(** X4. updateRole does not check the supplied featureIds the way
    createRole does.  A list that names an unknown feature fails at the
    insert with P2003, and a list that names a feature twice fails there
    with P2002; in both cases the rename and the wipe of the role's rows,
    which ran before the insert, are rolled back with it. *)
Theorem updateRole_bad_permission_list_rolls_back :
  forall (db : Db) (id : string) (data : UpdateRoleInput)
         (ps : list PermissionInput) (r' : Role) (db1 : Db),
    Prisma.role_update id (ur_name data) (ur_description data) db = (Ok r', db1) ->
    ur_permissions data = Some ps ->
    ((exists p, In p ps /\ ~ In (pi_featureId p) (featureIds db)) ->
     NoDup (map pi_featureId ps) ->
     RbacService.updateRole id data db
     = (Err (PrismaClientKnownRequestError P2003), db))
    /\
    ((forall p, In p ps -> In (pi_featureId p) (featureIds db)) ->
     ~ NoDup (map pi_featureId ps) ->
     RbacService.updateRole id data db
     = (Err (PrismaClientKnownRequestError P2002), db)).
Proof.
  intros db id data ps r' db1 H1 Hps.
  pose proof (role_update_inv _ _ _ _ _ _ H1) as [Hid [Hids Hdb1]].
  set (dbd := set_roleFeatures
                (filter (fun p => negb (rf_roleId p =? id)) (roleFeatures db1)) db1).
  assert (Hfeat : featureIds dbd = featureIds db)
    by (unfold dbd; now rewrite Hdb1).
  assert (Hrole : Prisma.role_exists dbd id = true).
  { unfold Prisma.role_exists. apply (existsb_key_In role_id).
    unfold dbd. cbn. now rewrite Hids. }
  assert (Hbody : forall c,
             Prisma.roleFeature_createMany (updateRows id ps) dbd
             = (Err (PrismaClientKnownRequestError c), dbd) ->
             ps <> [] ->
             RbacService.updateRole id data db
             = (Err (PrismaClientKnownRequestError c), db)).
  { intros c Hc Hne. unfold RbacService.updateRole.
    apply transaction_err with (db' := dbd).
    eapply bind_ok; [exact H1|]. cbv beta.
    apply bind_err. rewrite Hps.
    eapply bind_ok; [reflexivity|]. cbv beta.
    destruct ps as [|p0 ps0]; [now elim Hne|].
    cbn [length Nat.ltb Nat.leb]. cbv beta iota.
    apply bind_err. exact Hc. }
  split.
  - intros [p [Hp Hmiss]] Hnd. apply Hbody; [|intros ->; now destruct Hp].
    unfold Prisma.roleFeature_createMany.
    rewrite (NoDup_pairs_distinct_updateRows id ps Hnd). cbn [negb orb].
    assert (Hcl : existsb (fun q => existsb (Prisma.same_pair q) (roleFeatures dbd))
                          (updateRows id ps) = false).
    { apply not_true_is_false. intros Hc. apply existsb_exists in Hc.
      destruct Hc as [q [Hq Hc]]. apply existsb_exists in Hc.
      destruct Hc as [x [Hx Hsame]].
      unfold updateRows in Hq. apply in_map_iff in Hq.
      destruct Hq as [p0 [Hq _]]. subst q.
      unfold dbd in Hx. cbn [roleFeatures set_roleFeatures] in Hx.
      apply filter_In in Hx. destruct Hx as [_ Hx].
      unfold Prisma.same_pair in Hsame. cbn in Hsame.
      apply andb_true_iff in Hsame. destruct Hsame as [Hsame _].
      apply String.eqb_eq in Hsame. rewrite <- Hsame, String.eqb_refl in Hx.
      discriminate. }
    rewrite Hcl.
    destruct (forallb (fun q => Prisma.role_exists dbd (rf_roleId q)
                                && Prisma.feature_exists dbd (rf_featureId q))
                      (updateRows id ps)) eqn:E; [|reflexivity].
    pose proof (updateRows_exist _ _ _ E p Hp) as Hin.
    rewrite Hfeat in Hin. contradiction.
  - intros _ Hdup.
    assert (Hne : ps <> []) by (intros ->; apply Hdup; constructor).
    apply Hbody; [|exact Hne].
    unfold Prisma.roleFeature_createMany.
    destruct (Prisma.pairs_distinct (updateRows id ps)) eqn:Ed; [|reflexivity].
    elim Hdup. now apply pairs_distinct_updateRows with (id := id).
Qed.

Lemma updateRole_bad_permission_list_rolls_back_witness :
  RbacService.updateRole "r_clerk"
    (mkUpdateRoleInput (Some "Teller") None
       (Some [mkPermissionInput "f_ghost" readOnly])) db_seed
  = (Err (PrismaClientKnownRequestError P2003), db_seed)
  /\ RbacService.updateRole "r_clerk"
       (mkUpdateRoleInput (Some "Teller") None
          (Some [mkPermissionInput "f_user" readOnly;
                 mkPermissionInput "f_user" noAccess])) db_seed
     = (Err (PrismaClientKnownRequestError P2002), db_seed).
Proof.
  split.
  - apply (proj1 (updateRole_bad_permission_list_rolls_back db_seed "r_clerk"
                    (mkUpdateRoleInput (Some "Teller") None
                       (Some [mkPermissionInput "f_ghost" readOnly]))
                    _ _ _ eq_refl eq_refl)).
    + exists (mkPermissionInput "f_ghost" readOnly). split; [now left|].
      cbn. intros [H|[H|[]]]; discriminate.
    + constructor; [intros []|constructor].
  - apply (proj2 (updateRole_bad_permission_list_rolls_back db_seed "r_clerk"
                    (mkUpdateRoleInput (Some "Teller") None
                       (Some [mkPermissionInput "f_user" readOnly;
                              mkPermissionInput "f_user" noAccess]))
                    _ _ _ eq_refl eq_refl)).
    + intros p [<-|[<-|[]]]; cbn; auto.
    + intros H. inversion H as [|x l Hn _]. apply Hn. now left.
Defined.

(* ------------------------------------------------------------------ *)
(** ** deleteRole and deleteFeature *)

Lemma protected_role_name (name : string) :
  Array_includes RbacService.PROTECTED_ROLES name = (name =? "SuperAdmin").
Proof. unfold Array_includes. cbn. now rewrite orb_false_r. Qed.

Lemma protected_feature_name (name : string) :
  Array_includes RbacService.PROTECTED_FEATURES name = (name =? "RBAC_management").
Proof. unfold Array_includes. cbn. now rewrite orb_false_r. Qed.

Lemma deleteRole_cases :
  forall (db : Db) (id : string),
    match RbacService.deleteRole id db with
    | (Ok r, db') =>
        Prisma.roleById db id = Some r
        /\ role_name r <> "SuperAdmin"
        /\ (forall u, In u (users db) -> user_roleId u <> id)
        /\ db' = afterDeleteRole db id
        /\ Prisma.roleById db' id = None
        /\ (forall p, In p (roleFeatures db') -> rf_roleId p <> id)
        /\ (forall p, In p (roleFeatures db) -> rf_roleId p <> id ->
                      In p (roleFeatures db'))
    | (Err e, db') =>
        db' = db
        /\ ((e = PrismaClientKnownRequestError P2025 /\ Prisma.roleById db id = None)
            \/ (e = DeleteSystemError
                /\ exists r, Prisma.roleById db id = Some r
                             /\ role_name r = "SuperAdmin")
            \/ (e = PrismaClientKnownRequestError P2003
                /\ exists u, In u (users db) /\ user_roleId u = id))
    end.
Proof.
  intros db id.
  unfold RbacService.deleteRole, Prisma.role_findUniqueOrThrow, bind,
    Prisma.role_findUnique.
  destruct (Prisma.roleById db id) as [r|] eqn:Hr; cbn -[Array_includes].
  2:{ split; [reflexivity|]. left. now split. }
  rewrite protected_role_name.
  destruct (role_name r =? "SuperAdmin") eqn:En.
  { cbn. split; [reflexivity|]. right. left. split; [reflexivity|].
    exists r. split; [reflexivity|]. now apply String.eqb_eq. }
  unfold Prisma.role_delete. rewrite Hr.
  destruct (existsb (fun u => user_roleId u =? id) (users db)) eqn:Eu.
  { split; [reflexivity|]. right. right. split; [reflexivity|].
    apply existsb_exists in Eu. destruct Eu as [u [Hu Eu]].
    exists u. split; [exact Hu|]. now apply String.eqb_eq. }
  split; [reflexivity|]. split; [now apply String.eqb_neq|].
  split.
  { intros u Hu E. 
    assert (existsb (fun u => user_roleId u =? id) (users db) = true) as Hc
        by (apply existsb_exists; exists u; split; [exact Hu|now apply String.eqb_eq]).
    congruence. }
  split; [reflexivity|].
  split.
  { unfold Prisma.roleById. cbn. apply (find_key_None role_id).
    intros Hin. apply (map_key_filter_neq role_id) in Hin. now destruct Hin. }
  split.
  - cbn. intros p Hp. apply filter_In in Hp. destruct Hp as [_ Hp].
    apply negb_true_iff in Hp. now apply String.eqb_neq.
  - cbn. intros p Hp Hne. apply filter_In. split; [exact Hp|].
    apply negb_true_iff. now apply String.eqb_neq.
Qed.

Lemma deleteFeature_cases :
  forall (db : Db) (id : string),
    match RbacService.deleteFeature id db with
    | (Ok f, db') =>
        Prisma.featureById db id = Some f
        /\ feature_name f <> "RBAC_management"
        /\ db' = afterDeleteFeature db id
        /\ Prisma.featureById db' id = None
        /\ (forall p, In p (roleFeatures db') -> rf_featureId p <> id)
        /\ (forall p, In p (roleFeatures db) -> rf_featureId p <> id ->
                      In p (roleFeatures db'))
        /\ roles db' = roles db /\ users db' = users db
    | (Err e, db') =>
        db' = db
        /\ ((e = PrismaClientKnownRequestError P2025
             /\ Prisma.featureById db id = None)
            \/ (e = DeleteSystemError
                /\ exists f, Prisma.featureById db id = Some f
                             /\ feature_name f = "RBAC_management"))
    end.
Proof.
  intros db id.
  unfold RbacService.deleteFeature, Prisma.feature_findUniqueOrThrow, bind,
    Prisma.feature_findUnique.
  destruct (Prisma.featureById db id) as [f|] eqn:Hf; cbn -[Array_includes].
  2:{ split; [reflexivity|]. left. now split. }
  rewrite protected_feature_name.
  destruct (feature_name f =? "RBAC_management") eqn:En.
  { cbn. split; [reflexivity|]. right. split; [reflexivity|].
    exists f. split; [reflexivity|]. now apply String.eqb_eq. }
  unfold Prisma.feature_delete. rewrite Hf.
  split; [reflexivity|]. split; [now apply String.eqb_neq|].
  split; [reflexivity|].
  split.
  { unfold Prisma.featureById. cbn. apply (find_key_None feature_id).
    intros Hin. apply (map_key_filter_neq feature_id) in Hin. now destruct Hin. }
  split.
  { cbn. intros p Hp. apply filter_In in Hp. destruct Hp as [_ Hp].
    apply negb_true_iff in Hp. now apply String.eqb_neq. }
  split.
  { cbn. intros p Hp Hne. apply filter_In. split; [exact Hp|].
    apply negb_true_iff. now apply String.eqb_neq. }
  split; reflexivity.
Qed.

(** X5. Every outcome of deleteRole.  It returns only for a role that
    exists, is not named SuperAdmin and is held by no user; the role and
    all its permission rows are then gone, and nothing else is.  It
    throws P2025 for an unknown id, DeleteSystemError for the SuperAdmin
    role and P2003 for a role some user holds, and then the store is as
    it was. *)
Theorem deleteRole_outcomes :
  forall (db : Db) (id : string),
    match RbacService.deleteRole id db with
    | (Ok r, db') =>
        Prisma.roleById db id = Some r
        /\ role_name r <> "SuperAdmin"
        /\ (forall u, In u (users db) -> user_roleId u <> id)
        /\ db' = afterDeleteRole db id
        /\ Prisma.roleById db' id = None
        /\ (forall p, In p (roleFeatures db') -> rf_roleId p <> id)
        /\ (forall p, In p (roleFeatures db) -> rf_roleId p <> id ->
                      In p (roleFeatures db'))
    | (Err e, db') =>
        db' = db
        /\ ((e = PrismaClientKnownRequestError P2025 /\ Prisma.roleById db id = None)
            \/ (e = DeleteSystemError
                /\ exists r, Prisma.roleById db id = Some r
                             /\ role_name r = "SuperAdmin")
            \/ (e = PrismaClientKnownRequestError P2003
                /\ exists u, In u (users db) /\ user_roleId u = id))
    end.
Proof. exact deleteRole_cases. Qed.

(** X6. Every outcome of deleteFeature.  It returns only for a feature
    that exists and is not named RBAC_management; the feature and the
    rows of every role for it are then gone, the rows for the other
    features, the roles and the users stay.  It throws P2025 for an
    unknown id and DeleteSystemError for the protected feature, and then
    the store is as it was. *)
Theorem deleteFeature_outcomes :
  forall (db : Db) (id : string),
    match RbacService.deleteFeature id db with
    | (Ok f, db') =>
        Prisma.featureById db id = Some f
        /\ feature_name f <> "RBAC_management"
        /\ db' = afterDeleteFeature db id
        /\ Prisma.featureById db' id = None
        /\ (forall p, In p (roleFeatures db') -> rf_featureId p <> id)
        /\ (forall p, In p (roleFeatures db) -> rf_featureId p <> id ->
                      In p (roleFeatures db'))
        /\ roles db' = roles db /\ users db' = users db
    | (Err e, db') =>
        db' = db
        /\ ((e = PrismaClientKnownRequestError P2025
             /\ Prisma.featureById db id = None)
            \/ (e = DeleteSystemError
                /\ exists f, Prisma.featureById db id = Some f
                             /\ feature_name f = "RBAC_management"))
    end.
Proof. exact deleteFeature_cases. Qed.

(* ================================================================== *)
(** * Paged reads *)
(* ================================================================== *)

Section Paging.

Context {A : Type}.

Lemma insertBy_perm (le : A -> A -> bool) (x : A) (l : list A) :
  Permutation (insertBy le x l) (x :: l).
Proof.
  induction l as [|y l IH]; cbn; [reflexivity|].
  destruct (le x y); [reflexivity|].
  rewrite IH. apply perm_swap.
Qed.

Lemma orderBy_perm (le : A -> A -> bool) (l : list A) : Permutation (orderBy le l) l.
Proof.
  induction l as [|x l IH]; cbn; [reflexivity|].
  rewrite insertBy_perm. now constructor.
Qed.

Lemma orderBy_length (le : A -> A -> bool) (l : list A) :
  length (orderBy le l) = length l.
Proof. apply Permutation_length, orderBy_perm. Qed.

Lemma insertBy_sorted (le : A -> A -> bool) (x : A) (l : list A) :
  (forall a b, le a b = true \/ le b a = true) ->
  Sorted (fun a b => le a b = true) l ->
  Sorted (fun a b => le a b = true) (insertBy le x l).
Proof.
  intros Htot Hs. induction l as [|y l IH]; cbn.
  - repeat constructor.
  - destruct (le x y) eqn:E.
    + constructor; [exact Hs|]. now constructor.
    + inversion Hs as [|y' l' Hs' Hhd]; subst.
      constructor; [now apply IH|].
      destruct l as [|z l]; cbn.
      * constructor. destruct (Htot x y); congruence.
      * destruct (le x z); constructor.
        -- destruct (Htot x y); congruence.
        -- now inversion Hhd.
Qed.

Lemma orderBy_sorted (le : A -> A -> bool) (l : list A) :
  (forall a b, le a b = true \/ le b a = true) ->
  Sorted (fun a b => le a b = true) (orderBy le l).
Proof.
  intros Htot. induction l as [|x l IH]; cbn; [constructor|].
  now apply insertBy_sorted.
Qed.

Lemma skipTake_length (skip take : Z) (rows : list A) :
  (length (skipTake skip take rows) <= Z.to_nat take)%nat.
Proof. unfold skipTake. apply firstn_le_length. Qed.

Lemma skipTake_In (skip take : Z) (rows : list A) (x : A) :
  In x (skipTake skip take rows) -> In x rows.
Proof.
  unfold skipTake. intros H.
  rewrite <- (firstn_skipn (Z.to_nat skip) rows). apply in_or_app. right.
  rewrite <- (firstn_skipn (Z.to_nat take) (skipn (Z.to_nat skip) rows)).
  apply in_or_app. now left.
Qed.

Lemma firstn_plus (n k : nat) (rows : list A) :
  firstn n rows ++ firstn k (skipn n rows) = firstn (n + k) rows.
Proof.
  revert rows. induction n as [|n IH]; intros rows; [reflexivity|].
  destruct rows as [|x rows]; cbn.
  - now rewrite firstn_nil.
  - now rewrite IH.
Qed.

Lemma pages_concat_nat (rows : list A) (k n : nat) :
  concat (map (fun p => firstn k (skipn (p * k) rows)) (seq 0 n))
  = firstn (n * k) rows.
Proof.
  induction n as [|n IH]; [reflexivity|].
  rewrite seq_S, map_app, concat_app, IH. cbn [map concat plus].
  rewrite app_nil_r, firstn_plus. f_equal. lia.
Qed.

Lemma ceilDiv_bounds (total limit : Z) :
  (1 <= limit)%Z ->
  (limit * (ceilDiv total limit - 1) < total <= limit * ceilDiv total limit)%Z.
Proof.
  intros Hl. unfold ceilDiv.
  pose proof (Z.mul_div_le (total + limit - 1) limit ltac:(lia)).
  pose proof (Z.mul_succ_div_gt (total + limit - 1) limit ltac:(lia)).
  lia.
Qed.

Lemma ceilDiv_nonneg (total limit : Z) :
  (0 <= total)%Z -> (1 <= limit)%Z -> (0 <= ceilDiv total limit)%Z.
Proof.
  intros Ht Hl. pose proof (ceilDiv_bounds total limit Hl). nia.
Qed.

(** The pages 1 to [Math.ceil(total / limit)] of a list are the list. *)
Lemma pages_concat (rows : list A) (limit : Z) :
  (1 <= limit)%Z ->
  concat (map (fun p => skipTake ((Z.of_nat p - 1) * limit) limit rows)
              (seq 1 (Z.to_nat (ceilDiv (Z.of_nat (length rows)) limit))))
  = rows.
Proof.
  intros Hl.
  set (n := Z.to_nat (ceilDiv (Z.of_nat (length rows)) limit)).
  rewrite <- seq_shift, map_map.
  rewrite (map_ext _ (fun p => firstn (Z.to_nat limit) (skipn (p * Z.to_nat limit) rows))).
  2:{ intros p. unfold skipTake. do 2 f_equal. nia. }
  rewrite pages_concat_nat. apply firstn_all2.
  pose proof (ceilDiv_bounds (Z.of_nat (length rows)) limit Hl).
  pose proof (ceilDiv_nonneg (Z.of_nat (length rows)) limit ltac:(lia) Hl).
  unfold n. nia.
Qed.

Lemma page_full (rows : list A) (page limit : Z) :
  (1 <= page)%Z -> (1 <= limit)%Z ->
  (page < ceilDiv (Z.of_nat (length rows)) limit)%Z ->
  length (skipTake ((page - 1) * limit) limit rows) = Z.to_nat limit.
Proof.
  intros Hp Hl Hlt. unfold skipTake.
  pose proof (ceilDiv_bounds (Z.of_nat (length rows)) limit Hl).
  rewrite length_firstn, length_skipn. nia.
Qed.

Lemma page_beyond (rows : list A) (page limit : Z) :
  (1 <= page)%Z -> (1 <= limit)%Z ->
  (ceilDiv (Z.of_nat (length rows)) limit < page)%Z ->
  skipTake ((page - 1) * limit) limit rows = [].
Proof.
  intros Hp Hl Hlt. unfold skipTake.
  pose proof (ceilDiv_bounds (Z.of_nat (length rows)) limit Hl).
  rewrite skipn_all2; [now rewrite firstn_nil|]. nia.
Qed.

End Paging.

Lemma getAllFeatures_eq contains nameLe page limit search db :
  let le := fun a b : Feature => nameLe (feature_name a) (feature_name b) in
  let matching :=
    orderBy le (filter (RbacServiceExt.featureWhere contains search) (features db)) in
  RbacServiceExt.getAllFeatures contains nameLe page limit search db
  = (Ok (skipTake ((page - 1) * limit) limit matching,
         mkPagination (Z.of_nat (length matching)) page limit
                      (ceilDiv (Z.of_nat (length matching)) limit)), db).
Proof.
  intros le matching. unfold matching. rewrite orderBy_length. reflexivity.
Qed.

(** X7. getAllFeatures reads and does not write.  The statement is for
    a page and a limit of at least 1 whose [skip], (page - 1) * limit,
    and whose [take], limit, are below 2^31, and for a table of fewer
    than 2^31 features: the numbers that reach the database as they are.
    There the features that match the search, in the order of their
    names, are cut into pages of [limit]: a page holds at most [limit]
    features, every page before the last holds exactly [limit], a page
    after the last is empty, and the pages 1 to totalPages, one after the
    other, are all the matching features, each once.  The count is that
    of the matching features and totalPages is the least number of pages
    that holds them (0 when nothing matches). *)
Theorem getAllFeatures_pages :
  forall (contains nameLe : string -> string -> bool) (db : Db)
         (page limit : Z) (search : option string),
    (1 <= page)%Z -> (1 <= limit)%Z ->
    (limit < 2 ^ 31)%Z -> ((page - 1) * limit < 2 ^ 31)%Z ->
    (Z.of_nat (length (features db)) < 2 ^ 31)%Z ->
    let le := fun a b : Feature => nameLe (feature_name a) (feature_name b) in
    let matching :=
      orderBy le (filter (RbacServiceExt.featureWhere contains search) (features db)) in
    let total := Z.of_nat (length matching) in
    let pages := ceilDiv total limit in
    let get := fun p => RbacServiceExt.getAllFeatures contains nameLe p limit search db in
    get page = (Ok (skipTake ((page - 1) * limit) limit matching,
                    mkPagination total page limit pages), db)
    /\ Permutation matching
                   (filter (RbacServiceExt.featureWhere contains search) (features db))
    /\ ((forall a b, nameLe a b = true \/ nameLe b a = true) ->
        Sorted (fun a b => le a b = true) matching)
    /\ (length (itemsOf (get page)) <= Z.to_nat limit)%nat
    /\ (limit * (pages - 1) < total <= limit * pages)%Z
    /\ ((page < pages)%Z -> length (itemsOf (get page)) = Z.to_nat limit)
    /\ ((pages < page)%Z -> itemsOf (get page) = [])
    /\ concat (map (fun p => itemsOf (get (Z.of_nat p))) (seq 1 (Z.to_nat pages)))
       = matching.
Proof.
  intros contains nameLe db page limit search Hp Hl _ _ _ le matching total pages get.
  assert (Hget : forall p, itemsOf (get p) = skipTake ((p - 1) * limit) limit matching).
  { intros p. unfold get, itemsOf. now rewrite getAllFeatures_eq. }
  split; [apply getAllFeatures_eq|].
  split; [apply orderBy_perm|].
  split; [intros Htot; apply orderBy_sorted; intros a b; apply Htot|].
  split; [rewrite Hget; apply skipTake_length|].
  split; [now apply ceilDiv_bounds|].
  split; [intros Hlt; rewrite Hget; now apply page_full|].
  split; [intros Hlt; rewrite Hget; now apply page_beyond|].
  rewrite (map_ext _ (fun p => skipTake ((Z.of_nat p - 1) * limit) limit matching))
    by (intros p; apply Hget).
  now apply pages_concat.
Qed.

Lemma getAllFeatures_pages_witness :
  concat (map (fun p => itemsOf (RbacServiceExt.getAllFeatures
                                   includes String.leb (Z.of_nat p) 1 None db_seed))
              (seq 1 2))
  = [f_rbac; f_user]
  /\ itemsOf (RbacServiceExt.getAllFeatures includes String.leb 3 1 None db_seed) = [].
Proof.
  pose proof (getAllFeatures_pages includes String.leb db_seed 3 1 None
                ltac:(lia) ltac:(lia) ltac:(reflexivity) ltac:(reflexivity)
                ltac:(reflexivity)) as H.
  destruct H as [_ [_ [_ [_ [_ [_ [H1 H2]]]]]]].
  split; [exact H2|]. apply H1. reflexivity.
Defined.

(* ------------------------------------------------------------------ *)
(** ** Roles with their permissions *)

Lemma featureById_Some db fid :
  In fid (featureIds db) ->
  exists f, Prisma.featureById db fid = Some f /\ In f (features db)
            /\ feature_id f = fid.
Proof.
  intros Hin. unfold Prisma.featureById.
  destruct (find (fun f => feature_id f =? fid) (features db)) as [f|] eqn:E.
  - exists f. split; [reflexivity|]. now apply (find_key_In feature_id).
  - apply (find_key_None feature_id) in E. contradiction.
Qed.

(** On a store the schema accepts the join loses no row: the permissions
    of a role are its rows, each with the id and the name of its
    feature. *)
Lemma permissionsOf_rows db rid :
  SchemaOk db ->
  map pv_row (PrismaExt.permissionsOf db rid)
  = filter (fun p => rf_roleId p =? rid) (roleFeatures db)
  /\ forall pv, In pv (PrismaExt.permissionsOf db rid) ->
       rf_roleId (pv_row pv) = rid
       /\ In (pv_row pv) (roleFeatures db)
       /\ exists f, In f (features db)
                    /\ feature_id f = rf_featureId (pv_row pv)
                    /\ pv_feature pv = mkFeatureRef (feature_id f) (feature_name f).
Proof.
  intros Hs. unfold PrismaExt.permissionsOf.
  assert (Hall : forall p, In p (filter (fun p => rf_roleId p =? rid) (roleFeatures db)) ->
                           rf_roleId p = rid /\ In p (roleFeatures db)).
  { intros p Hp. apply filter_In in Hp. destruct Hp as [Hp E].
    split; [now apply String.eqb_eq|exact Hp]. }
  induction (filter (fun p => rf_roleId p =? rid) (roleFeatures db)) as [|p l IH].
  - split; [reflexivity|]. intros pv [].
  - destruct IH as [IH1 IH2]; [intros q Hq; apply Hall; now right|].
    destruct (Hall p (or_introl eq_refl)) as [Hrid Hp].
    destruct (so_rows db Hs p Hp) as [_ Hf].
    destruct (featureById_Some db _ Hf) as [f [Ef [Hfin Hfid]]].
    cbn [flat_map]. rewrite Ef. cbn [app map pv_row]. split.
    + now rewrite IH1.
    + intros pv [<-|Hpv]; [|now apply IH2].
      cbn. split; [exact Hrid|]. split; [exact Hp|].
      exists f. now repeat split.
Qed.

Lemma role_features_NoDup (l : list RoleFeature) rid :
  Prisma.pairs_distinct l = true ->
  NoDup (map rf_featureId (filter (fun p => rf_roleId p =? rid) l)).
Proof.
  induction l as [|p l IH]; intros H; [constructor|].
  cbn [Prisma.pairs_distinct] in H. apply andb_true_iff in H. destruct H as [Hn Hd].
  cbn [filter]. destruct (rf_roleId p =? rid) eqn:E; [|now apply IH].
  cbn [map]. constructor; [|now apply IH].
  intros Hin. apply in_map_iff in Hin. destruct Hin as [q [Hq Hin]].
  apply filter_In in Hin. destruct Hin as [Hin Eq].
  apply negb_true_iff in Hn.
  assert (existsb (Prisma.same_pair p) l = true) as Hc.
  { apply existsb_exists. exists q. split; [exact Hin|].
    unfold Prisma.same_pair. apply String.eqb_eq in E, Eq.
    rewrite E, Eq, Hq. now rewrite !String.eqb_refl. }
  congruence.
Qed.

(** Under permission coverage the rows of a role are for the features of
    the store, one row each. *)
Lemma role_rows_cover db rid :
  Coverage db -> In rid (roleIds db) ->
  Permutation (map rf_featureId
                   (filter (fun p => rf_roleId p =? rid) (roleFeatures db)))
              (featureIds db).
Proof.
  intros Hc Hrid. pose proof (cov_schema db Hc) as Hs.
  apply NoDup_Permutation.
  - apply role_features_NoDup, (so_pairs db Hs).
  - apply (so_features db Hs).
  - intros fid. split.
    + intros Hin. apply in_map_iff in Hin. destruct Hin as [p [Hp Hin]].
      apply filter_In in Hin. destruct Hin as [Hin _].
      subst fid. now apply (so_rows db Hs).
    + intros Hfid. pose proof (cov_exactly_one db Hc rid fid Hrid Hfid) as H1.
      unfold pairCount in H1.
      destruct (filter (Prisma.has_pair rid fid) (roleFeatures db)) as [|p l] eqn:E;
        [discriminate|].
      assert (In p (filter (Prisma.has_pair rid fid) (roleFeatures db))) as Hp
          by (rewrite E; now left).
      apply filter_In in Hp. destruct Hp as [Hp Hpair].
      apply has_pair_true in Hpair. destruct Hpair as [Hr Hf].
      apply in_map_iff. exists p. split; [exact Hf|].
      apply filter_In. split; [exact Hp|]. now apply String.eqb_eq.
Qed.

Lemma roleById_Some_In db id r :
  Prisma.roleById db id = Some r -> In r (roles db) /\ role_id r = id.
Proof. apply (find_key_In role_id). Qed.

(** X8. getMyRole under permission coverage.  For a user whose role the
    store has, the call returns the name of that role and one entry per
    feature of the store: the feature ids of the entries are those of
    the store, each once; an entry carries the name of its feature and
    the five flags of the one row the role has for it.  The store is not
    written; an unknown user id is P2025. *)
Theorem getMyRole_one_entry_per_feature :
  forall (db : Db) (userId : string) (u : User) (r : Role),
    Coverage db ->
    Prisma.userById db userId = Some u ->
    Prisma.roleById db (user_roleId u) = Some r ->
    exists perms,
      RbacServiceExt.getMyRole userId db = (Ok (mkMyRole (role_name r) perms), db)
      /\ Permutation (map mp_featureId perms) (featureIds db)
      /\ (forall e, In e perms ->
            exists f, In f (features db)
                      /\ feature_id f = mp_featureId e
                      /\ feature_name f = mp_featureName e
                      /\ rowsFor db (role_id r) (mp_featureId e)
                         = [mkRoleFeature (role_id r) (mp_featureId e)
                              (mp_canCreate e) (mp_canRead e) (mp_canUpdate e)
                              (mp_canDelete e) (mp_canPrint e)])
      /\ (forall id, Prisma.userById db id = None ->
            RbacServiceExt.getMyRole id db
            = (Err (PrismaClientKnownRequestError P2025), db)).
Proof.
  intros db userId u r Hc Hu Hr. pose proof (cov_schema db Hc) as Hs.
  destruct (roleById_Some_In _ _ _ Hr) as [Hrin Hrid].
  assert (Hrids : In (role_id r) (roleIds db)) by (now apply in_map).
  destruct (permissionsOf_rows db (role_id r) Hs) as [Hrows Hpv].
  exists (map RbacServiceExt.myPermission (PrismaExt.permissionsOf db (role_id r))).
  split.
  { unfold RbacServiceExt.getMyRole, Prisma.user_findUniqueOrThrow,
      Prisma.role_findUniqueOrThrow, bind, Prisma.user_findUnique,
      Prisma.role_findUnique, ret.
    now rewrite Hu, Hr. }
  split.
  { rewrite map_map.
    rewrite (map_ext_in _ (fun pv => rf_featureId (pv_row pv))).
    - rewrite <- map_map, Hrows. now apply role_rows_cover.
    - intros pv Hin. destruct (Hpv pv Hin) as [_ [_ [f [_ [Hfid Href]]]]].
      cbn. now rewrite Href. }
  split.
  { intros e He. apply in_map_iff in He. destruct He as [pv [<- Hin]].
    destruct (Hpv pv Hin) as [Hprid [Hpin [f [Hfin [Hfid Href]]]]].
    exists f. cbn. rewrite Href. cbn.
    split; [exact Hfin|]. split; [reflexivity|]. split; [reflexivity|].
    unfold rowsFor.
    assert (Hone : length (filter (Prisma.has_pair (role_id r) (feature_id f))
                                  (roleFeatures db)) = 1%nat).
    { apply (cov_exactly_one db Hc); [exact Hrids|]. now apply in_map. }
    assert (Hmem : In (pv_row pv)
                      (filter (Prisma.has_pair (role_id r) (feature_id f))
                              (roleFeatures db))).
    { apply filter_In. split; [exact Hpin|]. apply has_pair_true. now split. }
    destruct (filter (Prisma.has_pair (role_id r) (feature_id f)) (roleFeatures db))
      as [|q [|q' l]]; try discriminate.
    destruct Hmem as [->|[]].
    destruct (pv_row pv) as [a b c1 c2 c3 c4 c5]. cbn in *. now subst. }
  intros id Hid.
  unfold RbacServiceExt.getMyRole, Prisma.user_findUniqueOrThrow, bind,
    Prisma.user_findUnique. now rewrite Hid.
Qed.

Lemma getMyRole_one_entry_per_feature_witness :
  exists perms,
    RbacServiceExt.getMyRole "u_bob" db_seed = (Ok (mkMyRole "Clerk" perms), db_seed)
    /\ Permutation (map mp_featureId perms) ["f_rbac"; "f_user"].
Proof.
  destruct (getMyRole_one_entry_per_feature db_seed "u_bob" u_bob r_clerk
              db_seed_Coverage eq_refl eq_refl) as [perms [H [HP _]]].
  exists perms. split; [exact H|exact HP].
Defined.

Lemma getAllRoles_eq contains nameLe page limit search feature db :
  let le := fun a b : Role => nameLe (role_name a) (role_name b) in
  let matching :=
    orderBy le (filter (RbacServiceExt.roleWhere contains search feature db) (roles db)) in
  RbacServiceExt.getAllRoles contains nameLe page limit search feature db
  = (Ok (map (fun r => mkRoleView r (PrismaExt.permissionsOf db (role_id r)))
             (skipTake ((page - 1) * limit) limit matching),
         mkPagination (Z.of_nat (length matching)) page limit
                      (ceilDiv (Z.of_nat (length matching)) limit)), db).
Proof.
  intros le matching. unfold matching. rewrite orderBy_length. reflexivity.
Qed.

Lemma getRoleOptions_eq contains nameLe page limit search db :
  let le := fun a b : Role => nameLe (role_name a) (role_name b) in
  let matching :=
    orderBy le (filter (RbacServiceExt.roleWhere contains search None db) (roles db)) in
  RbacServiceExt.getRoleOptions contains nameLe page limit search db
  = (Ok (map (fun r => mkRoleOption (role_id r) (role_name r))
             (skipTake ((page - 1) * limit) limit matching),
         mkPagination (Z.of_nat (length matching)) page limit
                      (ceilDiv (Z.of_nat (length matching)) limit)), db).
Proof.
  intros le matching. unfold matching. rewrite orderBy_length. reflexivity.
Qed.

(** X9. getAllRoles on a store the schema accepts.  A page holds at most
    [limit] roles, all of them roles of the store that pass the filters:
    with a search, the name of the role contains it; with a feature
    filter, the role has a permission row for a feature whose name
    contains it.  Every listed role comes with all its permission rows,
    none lost and none of another role; under permission coverage these
    are one row per feature of the store.  The store is not written. *)
Theorem getAllRoles_lists_roles_with_their_rows :
  forall (contains nameLe : string -> string -> bool) (db : Db)
         (page limit : Z) (search feature : option string),
    SchemaOk db -> (1 <= page)%Z -> (1 <= limit)%Z ->
    exists views pg,
      RbacServiceExt.getAllRoles contains nameLe page limit search feature db
      = (Ok (views, pg), db)
      /\ (length views <= Z.to_nat limit)%nat
      /\ pg_total pg
         = Z.of_nat (length (filter (RbacServiceExt.roleWhere contains search feature db)
                                    (roles db)))
      /\ (forall v, In v views ->
            In (rv_role v) (roles db)
            /\ (truthy search = true ->
                contains (role_name (rv_role v)) (orElse search "") = true)
            /\ map pv_row (rv_permissions v)
               = filter (fun p => rf_roleId p =? role_id (rv_role v)) (roleFeatures db)
            /\ (truthy feature = true ->
                exists p f,
                  In p (roleFeatures db) /\ rf_roleId p = role_id (rv_role v)
                  /\ In f (features db) /\ feature_id f = rf_featureId p
                  /\ contains (feature_name f) (orElse feature "") = true))
      /\ (Coverage db ->
          forall v, In v views ->
            Permutation (map (fun pv => fr_id (pv_feature pv)) (rv_permissions v))
                        (featureIds db)).
Proof.
  intros contains nameLe db page limit search feature Hs Hp Hl.
  eexists. eexists. split; [apply getAllRoles_eq|].
  split; [rewrite length_map; apply skipTake_length|].
  split; [cbn; now rewrite orderBy_length|].
  assert (Hin : forall v,
             In v (map (fun r => mkRoleView r (PrismaExt.permissionsOf db (role_id r)))
                       (skipTake ((page - 1) * limit) limit
                          (orderBy (fun a b => nameLe (role_name a) (role_name b))
                             (filter (RbacServiceExt.roleWhere contains search feature db)
                                     (roles db))))) ->
             In (rv_role v) (roles db)
             /\ RbacServiceExt.roleWhere contains search feature db (rv_role v) = true
             /\ rv_permissions v = PrismaExt.permissionsOf db (role_id (rv_role v))).
  { intros v Hv. apply in_map_iff in Hv. destruct Hv as [r [<- Hr]].
    apply skipTake_In in Hr.
    apply (Permutation_in _ (orderBy_perm _ _)) in Hr.
    apply filter_In in Hr. destruct Hr as [Hr Hw]. cbn. now repeat split. }
  split.
  - intros v Hv. destruct (Hin v Hv) as [Hr [Hw Hperm]].
    destruct (permissionsOf_rows db (role_id (rv_role v)) Hs) as [Hrows Hpv].
    unfold RbacServiceExt.roleWhere in Hw. apply andb_true_iff in Hw.
    destruct Hw as [Hw1 Hw2].
    split; [exact Hr|].
    split; [intros Ht; now rewrite Ht in Hw1|].
    split; [now rewrite Hperm|].
    intros Ht. rewrite Ht in Hw2. apply existsb_exists in Hw2.
    destruct Hw2 as [pv [Hpvin Hc]].
    destruct (Hpv pv Hpvin) as [Hrid [Hpin [f [Hfin [Hfid Href]]]]].
    exists (pv_row pv), f. rewrite Href in Hc. cbn in Hc. now repeat split.
  - intros Hc v Hv. destruct (Hin v Hv) as [Hr [_ Hperm]].
    destruct (permissionsOf_rows db (role_id (rv_role v)) Hs) as [Hrows Hpv].
    rewrite Hperm.
    rewrite (map_ext_in _ (fun pv => rf_featureId (pv_row pv))).
    + rewrite <- map_map, Hrows. apply role_rows_cover; [exact Hc|].
      now apply in_map.
    + intros pv Hpvin. destruct (Hpv pv Hpvin) as [_ [_ [f [_ [Hfid Href]]]]].
      now rewrite Href.
Qed.

Lemma getAllRoles_lists_roles_with_their_rows_witness :
  exists views pg,
    RbacServiceExt.getAllRoles includes String.leb 1 10 None (Some "user") db_seed
    = (Ok (views, pg), db_seed)
    /\ (length views <= 10)%nat.
Proof.
  destruct (getAllRoles_lists_roles_with_their_rows includes String.leb db_seed 1 10
              None (Some "user") db_seed_SchemaOk ltac:(lia) ltac:(lia))
    as [views [pg [H [Hlen _]]]].
  exists views, pg. split; [exact H|exact Hlen].
Defined.

(** X10. getRoleOptions lists what getAllRoles lists without a feature
    filter: the same roles in the same order, reduced to id and name,
    under the same pagination record.  Its pages 1 to totalPages, one
    after the other, are the matching roles in the order of their names,
    each once. *)
Theorem getRoleOptions_agrees_with_getAllRoles :
  forall (contains nameLe : string -> string -> bool) (db : Db)
         (page limit : Z) (search : option string),
    (1 <= limit)%Z ->
    let options := fun p => RbacServiceExt.getRoleOptions contains nameLe p limit search db in
    let full := RbacServiceExt.getAllRoles contains nameLe page limit search None db in
    itemsOf (options page)
    = map (fun v => mkRoleOption (role_id (rv_role v)) (role_name (rv_role v)))
          (itemsOf full)
    /\ paginationOf (options page) = paginationOf full
    /\ snd (options page) = db
    /\ forall pg, paginationOf (options page) = Some pg ->
         concat (map (fun p => itemsOf (options (Z.of_nat p)))
                     (seq 1 (Z.to_nat (pg_totalPages pg))))
         = map (fun r => mkRoleOption (role_id r) (role_name r))
               (orderBy (fun a b => nameLe (role_name a) (role_name b))
                        (filter (RbacServiceExt.roleWhere contains search None db)
                                (roles db))).
Proof.
  intros contains nameLe db page limit search Hl options full.
  unfold options, full, itemsOf, paginationOf.
  rewrite getAllRoles_eq, getRoleOptions_eq. cbn [fst snd].
  split; [now rewrite map_map|]. split; [reflexivity|]. split; [reflexivity|].
  intros pg Hpg. inversion Hpg. subst pg. cbn [pg_totalPages].
  rewrite (map_ext _ (fun p =>
             map (fun r => mkRoleOption (role_id r) (role_name r))
                 (skipTake ((Z.of_nat p - 1) * limit) limit
                    (orderBy (fun a b => nameLe (role_name a) (role_name b))
                       (filter (RbacServiceExt.roleWhere contains search None db)
                               (roles db)))))).
  2:{ intros p. now rewrite getRoleOptions_eq. }
  rewrite <- map_map with (g := map (fun r => mkRoleOption (role_id r) (role_name r))).
  rewrite <- concat_map. f_equal. now apply pages_concat.
Qed.

Lemma getRoleOptions_agrees_with_getAllRoles_witness :
  itemsOf (RbacServiceExt.getRoleOptions includes String.leb 1 1 None db_seed)
  = [mkRoleOption "r_clerk" "Clerk"]
  /\ itemsOf (RbacServiceExt.getRoleOptions includes String.leb 2 1 None db_seed)
     = [mkRoleOption "r_super" "SuperAdmin"].
Proof.
  split.
  - rewrite (proj1 (getRoleOptions_agrees_with_getAllRoles includes String.leb db_seed
                      1 1 None ltac:(lia))). reflexivity.
  - rewrite (proj1 (getRoleOptions_agrees_with_getAllRoles includes String.leb db_seed
                      2 1 None ltac:(lia))). reflexivity.
Defined.

(* ------------------------------------------------------------------ *)
(** ** Users *)





(* ================================================================== *)
(** * updateFeature, and protection by name *)
(* ================================================================== *)

Lemma filter_map_replace {A} (key : A -> string) (l : list A) (id : string) (y : A) :
  key y = id ->
  filter (fun g => negb (key g =? id)) (map (fun g => if key g =? id then y else g) l)
  = filter (fun g => negb (key g =? id)) l.
Proof.
  intros Hy. induction l as [|a l IH]; [reflexivity|].
  cbn [map filter]. destruct (key a =? id) eqn:E.
  - rewrite Hy, String.eqb_refl. cbn [negb]. exact IH.
  - rewrite E. cbn [negb]. now rewrite IH.
Qed.

Lemma Schema_rename_features db (fs : list Feature) :
  map feature_id fs = featureIds db -> SchemaOk db -> SchemaOk (set_features fs db).
Proof.
  intros E [Hr Hf Ho Hp]. constructor; unfold roleIds, featureIds in *;
    cbn [roles features roleFeatures set_features]; rewrite ?E; assumption.
Qed.

Lemma Coverage_rename_features db (fs : list Feature) :
  map feature_id fs = featureIds db -> Coverage db -> Coverage (set_features fs db).
Proof.
  intros E [Hs He]. constructor; [now apply Schema_rename_features|].
  unfold roleIds, featureIds, pairCount in *.
  cbn [roles features roleFeatures set_features]. now rewrite E.
Qed.

(** X12. Every outcome of updateFeature.  It returns for a feature that
    exists and whose new name, when it changes, no feature carries: the
    row then has the supplied name and description (an absent one is
    kept) under the same id, every other feature, every permission row,
    role and user is as before, and the schema constraints and permission
    coverage carry over.  It throws P2025 for an unknown id and P2002 for
    a name another feature carries, and the store is then as it was.
    No feature name is protected against this call. *)
Theorem updateFeature_outcomes :
  forall (db : Db) (id : string) (data : UpdateFeatureInput),
    match RbacServiceExt.updateFeature id data db with
    | (Ok f', db') =>
        exists f,
          Prisma.featureById db id = Some f
          /\ f' = mkFeature id (orElse (uf_name data) (feature_name f))
                            (orElse (uf_description data) (feature_description f))
          /\ Prisma.featureById db' id = Some f'
          /\ featureIds db' = featureIds db
          /\ (forall g, In g (features db) -> feature_id g <> id -> In g (features db'))
          /\ roleFeatures db' = roleFeatures db
          /\ roles db' = roles db
          /\ users db' = users db
          /\ (SchemaOk db -> SchemaOk db')
          /\ (Coverage db -> Coverage db')
          /\ (feature_name f' = feature_name f
              \/ forall g, In g (features db) -> feature_name g <> feature_name f')
    | (Err e, db') =>
        db' = db
        /\ ((e = PrismaClientKnownRequestError P2025
             /\ Prisma.featureById db id = None)
            \/ (e = PrismaClientKnownRequestError P2002
                /\ exists f g,
                     Prisma.featureById db id = Some f
                     /\ In g (features db)
                     /\ uf_name data = Some (feature_name g)
                     /\ feature_name g <> feature_name f))
    end.
Proof.
  intros db id data.
  unfold RbacServiceExt.updateFeature, PrismaExt.feature_update.
  destruct (Prisma.featureById db id) as [f|] eqn:Hf.
  2:{ split; [reflexivity|]. left. now split. }
  set (f' := mkFeature id
               match uf_name data with Some n => n | None => feature_name f end
               match uf_description data with
               | Some d => d
               | None => feature_description f
               end).
  destruct (negb (feature_name f' =? feature_name f)) eqn:En.
  - destruct (existsb (fun g => feature_name g =? feature_name f') (features db)) eqn:Ex.
    + cbn [andb]. split; [reflexivity|]. right. split; [reflexivity|].
      apply existsb_exists in Ex. destruct Ex as [g [Hg Eg]].
      apply String.eqb_eq in Eg. apply negb_true_iff, String.eqb_neq in En.
      exists f, g. split; [reflexivity|]. split; [exact Hg|].
      unfold f' in Eg, En. cbn in Eg, En.
      destruct (uf_name data) as [n|]; [|congruence].
      split; [now rewrite Eg|]. congruence.
    + cbn [andb]. exists f.
      assert (Hids : map feature_id
                         (map (fun g => if feature_id g =? id then f' else g)
                              (features db)) = featureIds db)
        by (now apply map_key_replace).
      split; [reflexivity|]. split; [reflexivity|].
      split; [unfold Prisma.featureById; cbn;
              now apply find_map_replace with (x := f)|].
      split; [exact Hids|].
      split.
      { intros g Hg Hne. cbn. apply in_map_iff. exists g.
        apply String.eqb_neq in Hne. now rewrite Hne. }
      split; [reflexivity|]. split; [reflexivity|]. split; [reflexivity|].
      split; [now apply Schema_rename_features|].
      split; [now apply Coverage_rename_features|].
      right. intros g Hg Eg.
      assert (existsb (fun g => feature_name g =? feature_name f') (features db) = true)
        as Hc by (apply existsb_exists; exists g; split;
                  [exact Hg|now apply String.eqb_eq]).
      congruence.
  - cbn [andb]. exists f.
    assert (Hids : map feature_id
                       (map (fun g => if feature_id g =? id then f' else g)
                            (features db)) = featureIds db)
      by (now apply map_key_replace).
    split; [reflexivity|]. split; [reflexivity|].
    split; [unfold Prisma.featureById; cbn;
            now apply find_map_replace with (x := f)|].
    split; [exact Hids|].
    split.
    { intros g Hg Hne. cbn. apply in_map_iff. exists g.
      apply String.eqb_neq in Hne. now rewrite Hne. }
    split; [reflexivity|]. split; [reflexivity|]. split; [reflexivity|].
    split; [now apply Schema_rename_features|].
    split; [now apply Coverage_rename_features|].
    left. apply negb_false_iff in En. now apply String.eqb_eq.
Qed.

Lemma name_free_existsb {A} (name : A -> string) (l : list A) (n : string) :
  (forall g, In g l -> name g <> n) ->
  existsb (fun g => name g =? n) l = false.
Proof.
  intros H. destruct (existsb (fun g => name g =? n) l) eqn:E; [|reflexivity].
  apply existsb_exists in E. destruct E as [g [Hg E]].
  apply String.eqb_eq in E. now elim (H g Hg).
Qed.

(** X13. The protection of the feature RBAC_management is a test of the
    name at the moment of deleteFeature, and updateFeature renames any
    feature.  So the protected feature, which deleteFeature refuses, is
    deleted with all its permission rows by the two calls: rename to a
    free name, then delete. *)
Theorem protected_feature_deleted_after_rename :
  forall (db : Db) (id n : string) (f : Feature),
    Prisma.featureById db id = Some f ->
    feature_name f = "RBAC_management" ->
    n <> "RBAC_management" ->
    (forall g, In g (features db) -> feature_name g <> n) ->
    RbacService.deleteFeature id db = (Err DeleteSystemError, db)
    /\ RbacServiceExt.updateFeature id (mkUpdateFeatureInput (Some n) None) db
       = (Ok (mkFeature id n (feature_description f)),
          set_features
            (map (fun g => if feature_id g =? id
                           then mkFeature id n (feature_description f) else g)
                 (features db)) db)
    /\ RbacService.deleteFeature id
         (snd (RbacServiceExt.updateFeature id (mkUpdateFeatureInput (Some n) None) db))
       = (Ok (mkFeature id n (feature_description f)), afterDeleteFeature db id).
Proof.
  intros db id n f Hf Hname Hn Hfree.
  assert (Hupd : RbacServiceExt.updateFeature id (mkUpdateFeatureInput (Some n) None) db
                 = (Ok (mkFeature id n (feature_description f)),
                    set_features
                      (map (fun g => if feature_id g =? id
                                     then mkFeature id n (feature_description f) else g)
                           (features db)) db)).
  { unfold RbacServiceExt.updateFeature, PrismaExt.feature_update. rewrite Hf.
    cbn [uf_name uf_description feature_name].
    rewrite (name_free_existsb feature_name _ n Hfree).
    now rewrite andb_false_r. }
  split.
  { unfold RbacService.deleteFeature, Prisma.feature_findUniqueOrThrow, bind,
      Prisma.feature_findUnique. rewrite Hf. cbn -[Array_includes].
    rewrite protected_feature_name, Hname. reflexivity. }
  split; [exact Hupd|].
  rewrite Hupd. cbn [snd].
  set (f' := mkFeature id n (feature_description f)).
  set (db1 := set_features _ db).
  assert (Hf1 : Prisma.featureById db1 id = Some f').
  { unfold Prisma.featureById, db1. cbn.
    now apply find_map_replace with (x := f). }
  unfold RbacService.deleteFeature, Prisma.feature_findUniqueOrThrow, bind,
    Prisma.feature_findUnique. rewrite Hf1. cbn -[Array_includes].
  rewrite protected_feature_name.
  apply String.eqb_neq in Hn. rewrite Hn.
  unfold Prisma.feature_delete. rewrite Hf1.
  unfold afterDeleteFeature, db1. cbn.
  now rewrite (filter_map_replace feature_id).
Qed.

Lemma protected_feature_deleted_after_rename_witness :
  RbacService.deleteFeature "f_rbac" db_seed = (Err DeleteSystemError, db_seed)
  /\ RbacService.deleteFeature "f_rbac"
       (snd (RbacServiceExt.updateFeature "f_rbac"
               (mkUpdateFeatureInput (Some "old_rbac") None) db_seed))
     = (Ok (mkFeature "f_rbac" "old_rbac" None), afterDeleteFeature db_seed "f_rbac").
Proof.
  destruct (protected_feature_deleted_after_rename db_seed "f_rbac" "old_rbac" f_rbac
              eq_refl eq_refl ltac:(discriminate)) as [H1 [_ H2]].
  - intros g [<-|[<-|[]]]; discriminate.
  - split; [exact H1|exact H2].
Defined.

(** X14. Likewise for the role SuperAdmin: deleteRole tests the name,
    and updateRole renames any role.  When no user holds the role,
    renaming it to a free name and deleting it removes the role and all
    its permission rows. *)
Theorem protected_role_deleted_after_rename :
  forall (db : Db) (id n : string) (r : Role),
    Prisma.roleById db id = Some r ->
    role_name r = "SuperAdmin" ->
    n <> "SuperAdmin" ->
    (forall q, In q (roles db) -> role_name q <> n) ->
    (forall u, In u (users db) -> user_roleId u <> id) ->
    RbacService.deleteRole id db = (Err DeleteSystemError, db)
    /\ fst (RbacService.updateRole id (mkUpdateRoleInput (Some n) None None) db)
       = Ok (mkRole id n (role_description r),
             filter (fun p => rf_roleId p =? id) (roleFeatures db))
    /\ RbacService.deleteRole id
         (snd (RbacService.updateRole id (mkUpdateRoleInput (Some n) None None) db))
       = (Ok (mkRole id n (role_description r)), afterDeleteRole db id).
Proof.
  intros db id n r Hr Hname Hn Hfree Hunused.
  set (r' := mkRole id n (role_description r)).
  set (db1 := set_roles (map (fun q => if role_id q =? id then r' else q) (roles db)) db).
  assert (Hr1 : Prisma.roleById db1 id = Some r').
  { unfold Prisma.roleById, db1. cbn. now apply find_map_replace with (x := r). }
  assert (Hupd : RbacService.updateRole id (mkUpdateRoleInput (Some n) None None) db
                 = (Ok (r', filter (fun p => rf_roleId p =? id) (roleFeatures db)), db1)).
  { unfold RbacService.updateRole. apply transaction_ok.
    eapply bind_ok with (a := r') (db' := db1).
    - unfold Prisma.role_update. rewrite Hr.
      cbn [ur_name ur_description role_name].
      rewrite (name_free_existsb role_name _ n Hfree).
      now rewrite andb_false_r.
    - cbn [ur_permissions]. eapply bind_ok; [reflexivity|].
      cbv beta. eapply bind_ok with (a := r') (db' := db1).
      + unfold Prisma.role_findUniqueOrThrow, bind, Prisma.role_findUnique.
        now rewrite Hr1.
      + reflexivity. }
  split.
  { unfold RbacService.deleteRole, Prisma.role_findUniqueOrThrow, bind,
      Prisma.role_findUnique. rewrite Hr. cbn -[Array_includes].
    rewrite protected_role_name, Hname. reflexivity. }
  rewrite Hupd. cbn [fst snd]. split; [reflexivity|].
  unfold RbacService.deleteRole, Prisma.role_findUniqueOrThrow, bind,
    Prisma.role_findUnique. rewrite Hr1. cbn -[Array_includes].
  rewrite protected_role_name.
  apply String.eqb_neq in Hn. rewrite Hn.
  unfold Prisma.role_delete. rewrite Hr1.
  assert (Hu : existsb (fun u => user_roleId u =? id) (users db1) = false).
  { unfold db1. cbn. destruct (existsb _ (users db)) eqn:E; [|reflexivity].
    apply existsb_exists in E. destruct E as [u [Hu E]].
    apply String.eqb_eq in E. now elim (Hunused u Hu). }
  rewrite Hu. unfold afterDeleteRole, db1. cbn.
  now rewrite (filter_map_replace role_id).
Qed.

Lemma protected_role_deleted_after_rename_witness :
  RbacService.deleteRole "r_super"
    (snd (RbacService.updateRole "r_super"
            (mkUpdateRoleInput (Some "Retired") None None)
            (set_users [u_bob; u_eve] db_seed)))
  = (Ok (mkRole "r_super" "Retired" None),
     afterDeleteRole (set_users [u_bob; u_eve] db_seed) "r_super").
Proof.
  destruct (protected_role_deleted_after_rename (set_users [u_bob; u_eve] db_seed)
              "r_super" "Retired" r_super eq_refl eq_refl ltac:(discriminate))
    as [_ [_ H]].
  - intros q [<-|[<-|[]]]; discriminate.
  - intros u [<-|[<-|[]]]; discriminate.
  - exact H.
Defined.

(* ================================================================== *)
(** * The error hooks *)
(* ================================================================== *)

Lemma takeAlnum_spec (s : string) :
  s = (fst (takeAlnum s) ++ snd (takeAlnum s))%string
  /\ (forall c, In c (list_ascii_of_string (fst (takeAlnum s))) -> isAlnum c = true).
Proof.
  induction s as [|c s [IH1 IH2]]; cbn [takeAlnum].
  - split; [reflexivity|]. intros c [].
  - destruct (isAlnum c) eqn:E.
    + destruct (takeAlnum s) as [run rest]. cbn [fst snd] in *. split.
      * cbn. now rewrite <- IH1.
      * cbn. intros d [<-|Hd]; [exact E|now apply IH2].
    + cbn. split; [reflexivity|]. intros d [].
Qed.

Lemma takeAlnum_app (run rest : string) :
  (forall c, In c (list_ascii_of_string run) -> isAlnum c = true) ->
  match rest with
  | EmptyString => True
  | String c _ => isAlnum c = false
  end ->
  takeAlnum (run ++ rest)%string = (run, rest).
Proof.
  intros Hrun Hrest. induction run as [|c run IH]; cbn.
  - destruct rest as [|c r]; [reflexivity|]. cbn. now rewrite Hrest.
  - rewrite (Hrun c (or_introl eq_refl)). rewrite IH; [reflexivity|].
    intros d Hd. apply Hrun. now right.
Qed.

Lemma prefix_split (p s : string) :
  String.prefix p s = true -> exists post, s = (p ++ post)%string.
Proof.
  revert s. induction p as [|a p IH]; intros s H.
  - now exists s.
  - destruct s as [|b s]; [discriminate|]. cbn in H.
    destruct (ascii_dec a b) as [->|]; [|discriminate].
    destruct (IH s H) as [post ->]. now exists post.
Qed.

Lemma matchFkeyAt_sound (s run : string) :
  matchFkeyAt s = Some run ->
  run <> ""
  /\ (forall c, In c (list_ascii_of_string run) -> isAlnum c = true)
  /\ exists post, s = ("_" ++ run ++ "_fkey" ++ post)%string.
Proof.
  destruct s as [|c s]; [discriminate|]. cbn [matchFkeyAt].
  destruct (Ascii.eqb c "_") eqn:Ec; [|discriminate].
  apply Ascii.eqb_eq in Ec. subst c.
  pose proof (takeAlnum_spec s) as [Hs Hal].
  destruct (takeAlnum s) as [r rest]. cbn [fst snd] in *.
  destruct (negb (r =? "") && String.prefix "_fkey" rest) eqn:E; [|discriminate].
  intros H. inversion H. subst r. clear H.
  apply andb_true_iff in E. destruct E as [E1 E2].
  split; [now apply negb_true_iff, String.eqb_neq in E1|].
  split; [exact Hal|].
  destruct (prefix_split _ _ E2) as [post Hpost].
  exists post. rewrite Hs, Hpost. reflexivity.
Qed.

(** X15. What the hooks take from [meta.field_name] with the pattern
    [_([a-zA-Z0-9]+)_fkey]: the group of any match is a non-empty run of
    letters and digits that stands in the field name between an
    underscore and [_fkey]. *)
Theorem matchFkey_group :
  forall (s : string),
    match matchFkey s with
    | Some run =>
        run <> ""
        /\ (forall c, In c (list_ascii_of_string run) -> isAlnum c = true)
        /\ exists pre post, s = (pre ++ "_" ++ run ++ "_fkey" ++ post)%string
    | None => True
    end.
Proof.
  induction s as [|c s IH].
  - cbn. exact I.
  - cbn [matchFkey].
    destruct (matchFkeyAt (String c s)) as [run|] eqn:E.
    + destruct (matchFkeyAt_sound _ _ E) as [H1 [H2 [post H3]]].
      split; [exact H1|]. split; [exact H2|]. exists "", post. exact H3.
    + destruct (matchFkey s) as [run|]; [|exact I].
      destruct IH as [H1 [H2 [pre [post H3]]]].
      split; [exact H1|]. split; [exact H2|].
      exists (String c pre), post. cbn. now rewrite H3.
Qed.

Lemma prefix_app (p post : string) : String.prefix p (p ++ post) = true.
Proof.
  induction p as [|a p IH]; cbn; [now destruct post|].
  destruct (ascii_dec a a); [exact IH|congruence].
Qed.

Lemma matchFkey_step (c : ascii) (s : string) :
  matchFkey (String c s)
  = match matchFkeyAt (String c s) with
    | Some run => Some run
    | None => matchFkey s
    end.
Proof. reflexivity. Qed.

Lemma matchFkey_complete (table col post : string) :
  (forall c, In c (list_ascii_of_string table) -> c <> "_"%char) ->
  col <> "" ->
  (forall c, In c (list_ascii_of_string col) -> isAlnum c = true) ->
  matchFkey (table ++ "_" ++ col ++ "_fkey" ++ post) = Some col.
Proof.
  intros Ht Hne Hal. induction table as [|c table IH].
  - change ("" ++ "_" ++ col ++ "_fkey" ++ post)%string
      with (String "_" (col ++ "_fkey" ++ post)).
    rewrite matchFkey_step. unfold matchFkeyAt.
    rewrite Ascii.eqb_refl.
    rewrite (takeAlnum_app col ("_fkey" ++ post)); [|exact Hal|reflexivity].
    apply String.eqb_neq in Hne. rewrite Hne.
    now rewrite (prefix_app "_fkey" post).
  - change (String c table ++ "_" ++ col ++ "_fkey" ++ post)%string
      with (String c (table ++ "_" ++ col ++ "_fkey" ++ post)).
    rewrite matchFkey_step. unfold matchFkeyAt.
    assert (Ec : Ascii.eqb c "_" = false).
    { apply Ascii.eqb_neq. apply Ht. now left. }
    rewrite Ec. apply IH. intros d Hd. apply Ht. now right.
Qed.

(** X16. A P2003 whose meta names a constraint in the form the database
    gives it, [<table>_<column>_fkey], is answered by the hooks of /users
    and of /rbac with 400 and a message that names the column; without a
    field name the message names 'unknown'. *)
Theorem foreign_key_column_named_in_400 :
  forall (meta : PrismaMeta) (table col post : string),
    (forall c, In c (list_ascii_of_string table) -> c <> "_"%char) ->
    col <> "" ->
    (forall c, In c (list_ascii_of_string col) -> isAlnum c = true) ->
    field_name meta = Some (table ++ "_" ++ col ++ "_fkey" ++ post)%string ->
    let answer :=
      Some (errorResponse 400
              ("Invalid Reference: The ID provided for '" ++ col
               ++ "' does not exist.")) in
    UserRoutes.onError meta (PrismaClientKnownRequestError P2003) = answer
    /\ RbacRoutes.onError meta (PrismaClientKnownRequestError P2003) = answer
    /\ (forall tgt,
          UserRoutes.onError (mkMeta None tgt) (PrismaClientKnownRequestError P2003)
          = Some (errorResponse 400
                    "Invalid Reference: The ID provided for 'unknown' does not exist."))
    /\ (forall tgt,
          RbacRoutes.onError (mkMeta None tgt) (PrismaClientKnownRequestError P2003)
          = Some (errorResponse 400
                    "Invalid Reference: The ID provided for 'unknown' does not exist.")).
Proof.
  intros meta table col post Ht Hne Hal Hfield answer.
  assert (Hmsg : invalidReference meta
                 = ("Invalid Reference: The ID provided for '" ++ col
                    ++ "' does not exist.")%string).
  { unfold invalidReference. rewrite Hfield.
    assert (Htr : truthy (Some (table ++ "_" ++ col ++ "_fkey" ++ post)%string) = true)
      by (now destruct table).
    rewrite Htr. cbn [orElse].
    now rewrite matchFkey_complete. }
  split; [|split; [|split]].
  - unfold UserRoutes.onError. cbn [isPrisma PrismaCode_eqb]. now rewrite Hmsg.
  - unfold RbacRoutes.onError. cbn [isPrisma PrismaCode_eqb]. now rewrite Hmsg.
  - reflexivity.
  - reflexivity.
Qed.

Lemma foreign_key_column_named_in_400_witness :
  UserRoutes.onError (mkMeta (Some "User_roleId_fkey (index)") None)
                     (PrismaClientKnownRequestError P2003)
  = Some (errorResponse 400
            "Invalid Reference: The ID provided for 'roleId' does not exist.").
Proof.
  apply (proj1 (foreign_key_column_named_in_400
                  (mkMeta (Some "User_roleId_fkey (index)") None)
                  "User" "roleId" " (index)"
                  ltac:(intros c [<-|[<-|[<-|[<-|[]]]]]; discriminate)
                  ltac:(discriminate)
                  ltac:(intros c [<-|[<-|[<-|[<-|[<-|[<-|[]]]]]]]; reflexivity)
                  eq_refl)).
Defined.

(** X17. The hook of /rbac answers a P2003 in its first branch, so that
    its later branch for P2003 is never reached: an answer of the hook
    with status 409 is the one for P2002, whatever the meta says.
    Deleting a role that a user holds is therefore answered with 400 and
    the message of the first branch, not with 409, also when the meta
    names User_roleId_fkey. *)
Theorem rbac_hook_role_in_use_is_400 :
  forall (meta : PrismaMeta),
    (forall e resp,
        RbacRoutes.onError meta e = Some resp ->
        code resp = 409%Z ->
        e = PrismaClientKnownRequestError P2002
        /\ message resp = duplicateValue meta)
    /\ (forall db id r u,
          Prisma.roleById db id = Some r ->
          role_name r <> "SuperAdmin" ->
          In u (users db) -> user_roleId u = id ->
          RbacRoutes.deleteRoleHandler id db
          = (Err (PrismaClientKnownRequestError P2003), db)
          /\ firstAnswer (RbacRoutes.hooks meta) (PrismaClientKnownRequestError P2003)
             = Some (errorResponse 400 (invalidReference meta))
          /\ statusWith (RbacRoutes.hooks meta)
                        (fst (RbacRoutes.deleteRoleHandler id db)) = 400%Z).
Proof.
  intros meta. split.
  - intros e resp H Hc. unfold RbacRoutes.onError in H.
    destruct e as [[| |]| | | | | | | |]; cbn in H;
      try destruct (joinable meta); inversion H; subst resp;
      cbn in Hc; try discriminate.
    now split.
  - intros db id r u Hr Hn Hu Hrole.
    assert (Hdel : RbacRoutes.deleteRoleHandler id db
                   = (Err (PrismaClientKnownRequestError P2003), db)).
    { unfold RbacRoutes.deleteRoleHandler. apply bind_err.
      pose proof (deleteRole_cases db id) as H.
      destruct (RbacService.deleteRole id db) as [[r0|e] db'].
      - destruct H as [_ [_ [Hno _]]]. now elim (Hno u Hu).
      - destruct H as [-> [[-> Hnone]|[[-> [r1 [Hr1 Hn1]]]|[-> _]]]].
        + congruence.
        + rewrite Hr in Hr1. inversion Hr1. subst r1. contradiction.
        + reflexivity. }
    split; [exact Hdel|]. split; [reflexivity|]. now rewrite Hdel.
Qed.

Lemma rbac_hook_role_in_use_is_400_witness :
  statusWith (RbacRoutes.hooks (mkMeta (Some "User_roleId_fkey (index)") None))
             (fst (RbacRoutes.deleteRoleHandler "r_clerk" db_seed)) = 400%Z.
Proof.
  apply (proj2 (rbac_hook_role_in_use_is_400
                  (mkMeta (Some "User_roleId_fkey (index)") None))
               db_seed "r_clerk" r_clerk u_bob eq_refl
               ltac:(discriminate) ltac:(right; left; reflexivity) eq_refl).
Defined.

(* ================================================================== *)
(** * No throw of a service reaches the default 500 *)
(* ================================================================== *)

Section Throwing.

Context {A B : Type}.

Lemma Throws_ret (P : Error -> Prop) (a : A) : Throws P (ret a).
Proof. intros db e db' H. discriminate. Qed.

Lemma Throws_throw (P : Error -> Prop) (e : Error) : P e -> Throws P (@throw A e).
Proof. intros Hp db e' db' H. inversion H. now subst. Qed.

Lemma Throws_bind (P : Error -> Prop) (m : M A) (k : A -> M B) :
  Throws P m -> (forall a, Throws P (k a)) -> Throws P (bind m k).
Proof.
  intros Hm Hk db e db' H. unfold bind in H.
  destruct (m db) as [[a|e0] db1] eqn:E.
  - now apply (Hk a db1 e db').
  - inversion H. subst. eapply Hm. eassumption.
Qed.

Lemma Throws_transaction (P : Error -> Prop) (m : M A) :
  Throws P m -> Throws P (transaction m).
Proof.
  intros Hm db e db' H. unfold transaction in H.
  destruct (m db) as [[a|e0] db1] eqn:E; [discriminate|].
  inversion H. subst. eapply Hm. eassumption.
Qed.

Lemma Throws_weaken (P Q : Error -> Prop) (m : M A) :
  (forall e, P e -> Q e) -> Throws P m -> Throws Q m.
Proof. intros Hpq Hm db e db' H. apply Hpq. now apply (Hm db e db'). Qed.

Lemma Throws_read (P : Error -> Prop) (f : Db -> A) :
  Throws P (fun db => (Ok (f db), db)).
Proof. intros db e db' H. discriminate. Qed.

End Throwing.

Lemma PrismaOf_incl (cs ds : list PrismaCode) (e : Error) :
  incl cs ds -> PrismaOf cs e -> PrismaOf ds e.
Proof. destruct e; cbn; auto. Qed.

Ltac prisma_op :=
  let db := fresh "db" in
  let e := fresh "e" in
  let db' := fresh "db'" in
  let H := fresh "H" in
  intros db e db' H;
  repeat match type of H with
         | (match ?x with _ => _ end) = _ => destruct x
         | (if ?x then _ else _) = _ => destruct x
         end;
  inversion H; subst; cbn; auto.

Lemma Throws_feature_create newId name d :
  Throws (PrismaOf [P2002]) (Prisma.feature_create newId name d).
Proof. unfold Prisma.feature_create. prisma_op. Qed.

Lemma Throws_role_create newId name d :
  Throws (PrismaOf [P2002]) (Prisma.role_create newId name d).
Proof. unfold Prisma.role_create. prisma_op. Qed.

Lemma Throws_createMany rows :
  Throws (PrismaOf [P2003; P2002]) (Prisma.roleFeature_createMany rows).
Proof. unfold Prisma.roleFeature_createMany. prisma_op. Qed.

Lemma Throws_role_update id name d :
  Throws (PrismaOf [P2025; P2002]) (Prisma.role_update id name d).
Proof. unfold Prisma.role_update. prisma_op. Qed.

Lemma Throws_feature_update id name d :
  Throws (PrismaOf [P2025; P2002]) (PrismaExt.feature_update id name d).
Proof. unfold PrismaExt.feature_update. prisma_op. Qed.

Lemma Throws_role_findUniqueOrThrow id :
  Throws (PrismaOf [P2025]) (Prisma.role_findUniqueOrThrow id).
Proof.
  intros db e db' H.
  unfold Prisma.role_findUniqueOrThrow, bind, Prisma.role_findUnique in H.
  destruct (Prisma.roleById db id); inversion H; cbn; auto.
Qed.

Lemma Throws_user_findUniqueOrThrow id :
  Throws (PrismaOf [P2025]) (Prisma.user_findUniqueOrThrow id).
Proof.
  intros db e db' H.
  unfold Prisma.user_findUniqueOrThrow, bind, Prisma.user_findUnique in H.
  destruct (Prisma.userById db id); inversion H; cbn; auto.
Qed.

Lemma Throws_user_create u :
  Throws (PrismaOf [P2002; P2003]) (Prisma.user_create u).
Proof. unfold Prisma.user_create. prisma_op. Qed.

Lemma Throws_user_update id f :
  Throws (PrismaOf [P2025; P2002; P2003]) (Prisma.user_update id f).
Proof. unfold Prisma.user_update. prisma_op. Qed.

Lemma Throws_user_delete id :
  Throws (PrismaOf [P2025]) (Prisma.user_delete id).
Proof. unfold Prisma.user_delete. prisma_op. Qed.

Lemma Throws_deleteMany (P : Error -> Prop) rid :
  Throws P (Prisma.roleFeature_deleteMany_role rid).
Proof. intros db e db' H. discriminate. Qed.

(** The throws of the services of modules/rbac. *)
Lemma Throws_createFeature newId data :
  Throws (PrismaOf [P2003; P2002]) (RbacService.createFeature newId data).
Proof.
  unfold RbacService.createFeature. apply Throws_transaction.
  apply Throws_bind.
  - eapply Throws_weaken; [|apply Throws_feature_create].
    intros e. apply PrismaOf_incl. intros c [<-|[]]; cbn; auto.
  - intros f. apply Throws_bind; [|intros; apply Throws_ret].
    destruct (cf_defaultPermissions data); [|apply Throws_ret].
    apply Throws_bind; [apply Throws_read|]. intros rs.
    destruct (0 <? length rs)%nat; [|apply Throws_ret].
    apply Throws_bind; [apply Throws_createMany|intros; apply Throws_ret].
Qed.

Lemma Answered_incl hooks (a b : list Z) (e : Error) :
  incl a b -> Answered hooks a e -> Answered hooks b e.
Proof. intros Hi [resp [H1 H2]]. exists resp. split; [exact H1|now apply Hi]. Qed.

Lemma Answered_prisma_rbac meta (cs : list PrismaCode) (e : Error) :
  joinable meta = true ->
  PrismaOf cs e -> Answered (RbacRoutes.hooks meta) (map prismaStatus cs) e.
Proof.
  intros Hj.
  destruct e as [c| | | | | | | |]; cbn [PrismaOf]; try contradiction.
  intros Hin. destruct c; eexists;
    (split; [cbn; rewrite ?Hj; reflexivity|]);
    apply in_map with (f := prismaStatus) in Hin; exact Hin.
Qed.

Lemma Answered_prisma_user meta (cs : list PrismaCode) (e : Error) :
  joinable meta = true ->
  PrismaOf cs e -> Answered (UserRoutes.hooks meta) (map prismaStatus cs) e.
Proof.
  intros Hj.
  destruct e as [c| | | | | | | |]; cbn [PrismaOf]; try contradiction.
  intros Hin. destruct c; eexists;
    (split; [cbn; rewrite ?Hj; reflexivity|]);
    apply in_map with (f := prismaStatus) in Hin; exact Hin.
Qed.

Lemma route_status {A B} hooks (allowed : list Z) (svc : M A) (f : A -> Response B)
      (c : Z) :
  Throws (Answered hooks allowed) svc ->
  (forall a, code (f a) = c) ->
  forall db, In (statusWith hooks (fst (bind svc (fun a => ret (f a)) db)))
                (c :: allowed).
Proof.
  intros Ht Hc db. unfold bind.
  destruct (svc db) as [[a|e] db'] eqn:E; cbn.
  - left. now rewrite Hc.
  - right. destruct (Ht db e db' E) as [resp [H1 H2]]. now rewrite H1.
Qed.

Ltac in_list := cbn; repeat (first [left; reflexivity | right]).

Ltac prisma_answered lem thr :=
  eapply Throws_weaken; [|apply thr];
  let e := fresh "e" in
  let H := fresh "H" in
  intros e H; apply lem in H;
  revert H; apply Answered_incl;
  let x := fresh "x" in
  let Hx := fresh "Hx" in
  intros x Hx; cbn in Hx;
  repeat (destruct Hx as [<-|Hx]; [in_list|]); destruct Hx.

Section RbacThrows.

Variable meta : PrismaMeta.
Hypothesis Hjoin : joinable meta = true.

Lemma Answered_createFeature newId data :
  Throws (Answered (RbacRoutes.hooks meta) [400; 409]%Z) (RbacService.createFeature newId data).
Proof.
  prisma_answered (fun cs e => Answered_prisma_rbac meta cs e Hjoin) (Throws_createFeature newId data).
Qed.

Lemma Answered_updateFeature id data :
  Throws (Answered (RbacRoutes.hooks meta) [404; 409]%Z) (RbacServiceExt.updateFeature id data).
Proof.
  unfold RbacServiceExt.updateFeature.
  prisma_answered (fun cs e => Answered_prisma_rbac meta cs e Hjoin) (Throws_feature_update id (uf_name data) (uf_description data)).
Qed.

Lemma Answered_deleteFeature id :
  Throws (Answered (RbacRoutes.hooks meta) [404; 403]%Z) (RbacService.deleteFeature id).
Proof.
  intros db e db' H. pose proof (deleteFeature_cases db id) as Hc.
  rewrite H in Hc. destruct Hc as [_ [[-> _]|[-> _]]];
    eexists; (split; [reflexivity|in_list]).
Qed.

Lemma Answered_deleteRole id :
  Throws (Answered (RbacRoutes.hooks meta) [404; 403; 400]%Z) (RbacService.deleteRole id).
Proof.
  intros db e db' H. pose proof (deleteRole_cases db id) as Hc.
  rewrite H in Hc. destruct Hc as [_ [[-> _]|[[-> _]|[-> _]]]];
    eexists; (split; [reflexivity|in_list]).
Qed.

Lemma Answered_validateFeatureIds ps :
  Throws (Answered (RbacRoutes.hooks meta) [400]%Z) (RbacService.validateFeatureIds ps).
Proof.
  unfold RbacService.validateFeatureIds.
  destruct ps as [[|p ps]|]; try apply Throws_ret.
  apply Throws_bind; [apply Throws_read|]. intros fs.
  match goal with |- context [if ?c then _ else _] => destruct c end;
    [|apply Throws_ret].
  apply Throws_throw. eexists. split; [reflexivity|in_list].
Qed.

Lemma Answered_createRole newId data :
  Throws (Answered (RbacRoutes.hooks meta) [400; 409; 404]%Z) (RbacService.createRole newId data).
Proof.
  unfold RbacService.createRole. apply Throws_transaction.
  apply Throws_bind.
  { eapply Throws_weaken; [|apply Answered_validateFeatureIds].
    intros e. apply Answered_incl. intros x [<-|[]]. in_list. }
  intros _. apply Throws_bind.
  { prisma_answered (fun cs e => Answered_prisma_rbac meta cs e Hjoin)
                    (Throws_role_create newId (cr_name data) (cr_description data)). }
  intros role. apply Throws_bind; [apply Throws_read|]. intros fs.
  apply Throws_bind.
  { match goal with |- context [if ?c then _ else _] => destruct c end;
      [|apply Throws_ret].
    apply Throws_bind; [|intros; apply Throws_ret].
    prisma_answered (fun cs e => Answered_prisma_rbac meta cs e Hjoin)
                    (Throws_createMany (map (RbacService.roleRow role
                                               (RbacService.orEmpty (cr_permissions data)))
                                            fs)). }
  intros _. apply Throws_bind.
  { prisma_answered (fun cs e => Answered_prisma_rbac meta cs e Hjoin)
                    (Throws_role_findUniqueOrThrow (role_id role)). }
  intros r. apply Throws_bind; [apply Throws_read|]. intros; apply Throws_ret.
Qed.

Lemma Answered_updateRole id data :
  Throws (Answered (RbacRoutes.hooks meta) [404; 409; 400]%Z) (RbacService.updateRole id data).
Proof.
  unfold RbacService.updateRole. apply Throws_transaction.
  apply Throws_bind.
  { prisma_answered (fun cs e => Answered_prisma_rbac meta cs e Hjoin)
                    (Throws_role_update id (ur_name data) (ur_description data)). }
  intros _. apply Throws_bind.
  { destruct (ur_permissions data) as [ps|]; [|apply Throws_ret].
    apply Throws_bind; [apply Throws_deleteMany|]. intros _.
    destruct (0 <? length ps)%nat; [|apply Throws_ret].
    apply Throws_bind; [|intros; apply Throws_ret].
    prisma_answered (fun cs e => Answered_prisma_rbac meta cs e Hjoin)
                    (Throws_createMany
                       (map (fun p => rowOf id (pi_featureId p) (pi_flags p)) ps)). }
  intros _. apply Throws_bind.
  { prisma_answered (fun cs e => Answered_prisma_rbac meta cs e Hjoin) (Throws_role_findUniqueOrThrow id). }
  intros r. apply Throws_bind; [apply Throws_read|]. intros; apply Throws_ret.
Qed.

Lemma Answered_getMyRole userId :
  Throws (Answered (RbacRoutes.hooks meta) [404]%Z) (RbacServiceExt.getMyRole userId).
Proof.
  unfold RbacServiceExt.getMyRole. apply Throws_bind.
  { prisma_answered (fun cs e => Answered_prisma_rbac meta cs e Hjoin) (Throws_user_findUniqueOrThrow userId). }
  intros u. apply Throws_bind.
  { prisma_answered (fun cs e => Answered_prisma_rbac meta cs e Hjoin)
                    (Throws_role_findUniqueOrThrow (user_roleId u)). }
  intros r. apply Throws_read.
Qed.

End RbacThrows.

(** X18. No throw of a service of modules/rbac reaches the default 500
    once the request is with its handler.  The statement is about the
    handlers: authMiddleware, hasPermission and the schemas of params and
    body run before them and give the 401, 403 and 400 of their own.
    Whatever the store and the typed input, and whatever meta with no
    target or an array as target the store attaches to its errors, each
    handler of /rbac that writes, and that of /roles/me, ends with its
    success status or with a 400, 403, 404 or 409 of the hooks, as
    listed handler by handler.  With a string as target the hooks return
    no response to a P2002. *)
Theorem rbac_handlers_statuses :
  forall (meta : PrismaMeta),
    (joinable meta = true ->
     forall (db : Db) (newId id : string)
            (cf : CreateFeatureInput) (uf : UpdateFeatureInput)
            (cr : CreateRoleInput) (ur : UpdateRoleInput) (user : AuthUser),
       let hooks := RbacRoutes.hooks meta in
       In (statusWith hooks (fst (RbacRoutes.createFeatureHandler newId cf db)))
          [201; 400; 409]%Z
       /\ In (statusWith hooks (fst (RbacRoutes.updateFeatureHandler id uf db)))
             [200; 404; 409]%Z
       /\ In (statusWith hooks (fst (RbacRoutes.deleteFeatureHandler id db)))
             [200; 404; 403]%Z
       /\ In (statusWith hooks (fst (RbacRoutes.createRoleHandler newId cr db)))
             [201; 400; 409; 404]%Z
       /\ In (statusWith hooks (fst (RbacRoutes.updateRoleHandler id ur db)))
             [200; 404; 409; 400]%Z
       /\ In (statusWith hooks (fst (RbacRoutes.deleteRoleHandler id db)))
             [200; 404; 403; 400]%Z
       /\ In (statusWith hooks (fst (RbacRoutes.getMyRoleHandler user db)))
             [200; 404]%Z)
    /\ (joinable meta = false ->
        firstAnswer (RbacRoutes.hooks meta) (PrismaClientKnownRequestError P2002)
        = None).
Proof.
  intros meta. split.
  - intros Hj db newId id cf uf cr ur user hooks.
    split; [apply route_status; [now apply Answered_createFeature|reflexivity]|].
    split; [apply route_status; [now apply Answered_updateFeature|reflexivity]|].
    split; [apply route_status; [apply Answered_deleteFeature|reflexivity]|].
    split; [apply route_status; [now apply Answered_createRole|reflexivity]|].
    split; [apply route_status; [now apply Answered_updateRole|reflexivity]|].
    split; [apply route_status; [apply Answered_deleteRole|reflexivity]|].
    apply route_status; [now apply Answered_getMyRole|reflexivity].
  - intros Hj. cbn. now rewrite Hj.
Qed.

Lemma rbac_handlers_statuses_witness :
  In (statusWith (RbacRoutes.hooks (mkMeta None (Some (TargetArray ["name"]))))
                 (fst (RbacRoutes.createFeatureHandler
                         "f_new" (mkCreateFeatureInput "user_management" None None)
                         db_seed)))
     [201; 400; 409]%Z
  /\ firstAnswer (RbacRoutes.hooks (mkMeta None (Some (TargetString "Feature_name_key"))))
                 (PrismaClientKnownRequestError P2002)
     = None.
Proof.
  split.
  - apply (proj1 (rbac_handlers_statuses (mkMeta None (Some (TargetArray ["name"]))))
                 eq_refl db_seed "f_new" "r_clerk"
                 (mkCreateFeatureInput "user_management" None None)
                 (mkUpdateFeatureInput None None)
                 (mkCreateRoleInput "Auditor" None None)
                 (mkUpdateRoleInput None None None)
                 (mkAuthUser "u_bob" 3)).
  - apply (proj2 (rbac_handlers_statuses
                    (mkMeta None (Some (TargetString "Feature_name_key"))))
                 eq_refl).
Defined.

(* ================================================================== *)
(** * The user service *)
(* ================================================================== *)

Section UserOutcomes.

Variable hash : string -> string.

Lemma isSuperAdmin_name (o : option Role) :
  UserService.isSuperAdmin o = true
  <-> exists r, o = Some r /\ role_name r = "SuperAdmin".
Proof.
  destruct o as [r|]; cbn.
  - rewrite String.eqb_eq. split.
    + intros H. now exists r.
    + intros [r' [E H]]. inversion E. now subst.
  - split; [discriminate|]. intros [r [E _]]. discriminate.
Qed.

Lemma createUser_cases (db : Db) (newId : string) (data : CreateUserInput) :
  match UserService.createUser hash newId data db with
  | (Ok u, db') =>
      u = mkUser newId (cu_email data) (cu_name data) (hash (cu_password data))
                 (orElse (cu_isActive data) true) 0 (cu_roleId data)
      /\ db' = set_users (users db ++ [u]) db
      /\ (exists r, Prisma.roleById db (cu_roleId data) = Some r
                    /\ role_name r <> "SuperAdmin")
      /\ ~ In newId (map user_id (users db))
      /\ ~ In (cu_email data) (map user_email (users db))
  | (Err e, db') =>
      db' = db
      /\ ((e = CreateSystemError
           /\ exists r, Prisma.roleById db (cu_roleId data) = Some r
                        /\ role_name r = "SuperAdmin")
          \/ (e = PrismaClientKnownRequestError P2002
              /\ (In newId (map user_id (users db))
                  \/ In (cu_email data) (map user_email (users db))))
          \/ (e = PrismaClientKnownRequestError P2003
              /\ Prisma.roleById db (cu_roleId data) = None))
  end.
Proof.
  unfold UserService.createUser, bind, Prisma.role_findUnique.
  destruct (UserService.isSuperAdmin (Prisma.roleById db (cu_roleId data))) eqn:Es.
  { cbn. split; [reflexivity|]. left. split; [reflexivity|].
    now apply isSuperAdmin_name. }
  unfold Prisma.user_create. cbn [user_id user_email user_roleId].
  destruct (existsb _ (users db)) eqn:Ex.
  { split; [reflexivity|]. right. left. split; [reflexivity|].
    apply existsb_exists in Ex. destruct Ex as [v [Hv E]].
    apply orb_true_iff in E. destruct E as [E|E]; apply String.eqb_eq in E.
    - left. rewrite <- E. now apply in_map.
    - right. rewrite <- E. now apply in_map. }
  assert (Hfresh : ~ In newId (map user_id (users db))
                   /\ ~ In (cu_email data) (map user_email (users db))).
  { split; intros Hin; apply in_map_iff in Hin; destruct Hin as [v [E Hv]];
      assert (existsb (fun v => (user_id v =? newId) || (user_email v =? cu_email data))
                      (users db) = true) as Hc
        by (apply existsb_exists; exists v; split; [exact Hv|];
            rewrite E, String.eqb_refl; now rewrite ?orb_true_r);
      congruence. }
  destruct (Prisma.role_exists db (cu_roleId data)) eqn:Er; cbn [negb].
  - destruct Hfresh as [H1 H2].
    split; [reflexivity|]. split; [reflexivity|]. split; [|now split].
    unfold Prisma.role_exists in Er. unfold Prisma.roleById.
    destruct (find (fun r => role_id r =? cu_roleId data) (roles db)) as [r|] eqn:Ef.
    + exists r. split; [reflexivity|]. intros Hn.
      unfold Prisma.roleById in Es. rewrite Ef in Es. cbn in Es.
      apply String.eqb_neq in Es. contradiction.
    + apply (find_key_None role_id) in Ef.
      apply (existsb_key_In role_id) in Er. contradiction.
  - split; [reflexivity|]. right. right. split; [reflexivity|].
    unfold Prisma.role_exists in Er. apply (existsb_key_notIn role_id) in Er.
    now apply (find_key_None role_id).
Qed.

Lemma deleteUser_cases (db : Db) (targetId requestingUserId : string) :
  match UserService.deleteUser targetId requestingUserId db with
  | (Ok u, db') =>
      targetId <> requestingUserId
      /\ Prisma.userById db targetId = Some u
      /\ holdsSuperAdmin db u = false
      /\ users db' = filter (fun v => negb (user_id v =? targetId)) (users db)
      /\ Prisma.userById db' targetId = None
      /\ SamePermissions db db'
  | (Err e, db') =>
      db' = db
      /\ ((e = DeleteSelfError /\ targetId = requestingUserId)
          \/ (e = PrismaClientKnownRequestError P2025
              /\ targetId <> requestingUserId
              /\ Prisma.userById db targetId = None)
          \/ (e = DeleteSystemError
              /\ targetId <> requestingUserId
              /\ exists u, Prisma.userById db targetId = Some u
                           /\ holdsSuperAdmin db u = true))
  end.
Proof.
  unfold UserService.deleteUser.
  destruct (targetId =? requestingUserId) eqn:Eself.
  { cbn. split; [reflexivity|]. left. split; [reflexivity|]. now apply String.eqb_eq. }
  apply String.eqb_neq in Eself.
  unfold Prisma.user_findUniqueOrThrow, bind, Prisma.user_findUnique,
    Prisma.role_findUnique.
  destruct (Prisma.userById db targetId) as [u|] eqn:Hu; cbn -[Array_includes].
  2:{ split; [reflexivity|]. right. left. now repeat split. }
  assert (Hdel : Prisma.user_delete targetId db
                 = (Ok u,
                    set_refreshTokens
                      (filter (fun t => negb (rt_userId t =? targetId)) (refreshTokens db))
                      (set_users (filter (fun v => negb (user_id v =? targetId))
                                         (users db)) db)))
    by (unfold Prisma.user_delete; now rewrite Hu).
  assert (Hgone : forall db1,
             users db1 = filter (fun v => negb (user_id v =? targetId)) (users db) ->
             Prisma.userById db1 targetId = None).
  { intros db1 E. unfold Prisma.userById. rewrite E.
    apply (find_key_None user_id). intros Hin.
    apply (map_key_filter_neq user_id) in Hin. now destruct Hin. }
  unfold holdsSuperAdmin.
  destruct (Prisma.roleById db (user_roleId u)) as [r|] eqn:Hr.
  - unfold UserService.PROTECTED_ROLES, Array_includes. cbn [existsb].
    rewrite orb_false_r. cbn [UserService.isSuperAdmin].
    destruct (role_name r =? "SuperAdmin") eqn:En.
    + cbn. split; [reflexivity|]. right. right. split; [reflexivity|].
      split; [exact Eself|]. exists u. split; [reflexivity|].
      unfold holdsSuperAdmin. rewrite Hr. exact En.
    + rewrite Hdel. split; [exact Eself|]. split; [reflexivity|].
      split; [unfold holdsSuperAdmin; rewrite Hr; exact En|].
      split; [reflexivity|].
      split; [now apply Hgone|]. now repeat split.
  - rewrite Hdel. split; [exact Eself|]. split; [reflexivity|].
    split; [unfold holdsSuperAdmin; now rewrite Hr|].
    split; [reflexivity|].
    split; [now apply Hgone|]. now repeat split.
Qed.

Lemma roleOfUser_read id db :
  UserService.roleOfUser id db
  = (Ok (match Prisma.userById db id with
         | Some u => Prisma.roleById db (user_roleId u)
         | None => None
         end), db).
Proof.
  unfold UserService.roleOfUser, bind, Prisma.user_findUnique, Prisma.role_findUnique.
  now destruct (Prisma.userById db id).
Qed.

Lemma updateUser_cases (db : Db) (id : string) (data : UpdateUserInput) :
  let updateData :=
    mkUpdateUserInput (uu_email data) (uu_name data)
                      (UserService.hashIfPresent hash (uu_password data))
                      (uu_roleId data) (uu_isActive data) in
  match UserService.updateUser hash id data db with
  | (Ok u', db') =>
      exists u,
        Prisma.userById db id = Some u
        /\ u' = UserService.applyUpdate updateData u
        /\ db' = set_users (map (fun v => if user_id v =? id then u' else v) (users db)) db
        /\ (uu_isActive data = Some false -> holdsSuperAdmin db u = false)
  | (Err e, db') =>
      db' = db
      /\ ((e = UpdateSystemError
           /\ uu_isActive data = Some false
           /\ exists u, Prisma.userById db id = Some u /\ holdsSuperAdmin db u = true)
          \/ PrismaOf [P2025; P2002; P2003] e)
  end.
Proof.
  intros updateData. unfold UserService.updateUser. fold updateData.
  assert (Hupd :
            match Prisma.user_update id (UserService.applyUpdate updateData) db with
            | (Ok u', db') =>
                exists u,
                  Prisma.userById db id = Some u
                  /\ u' = UserService.applyUpdate updateData u
                  /\ db' = set_users
                             (map (fun v => if user_id v =? id then u' else v) (users db)) db
            | (Err e, db') => db' = db /\ PrismaOf [P2025; P2002; P2003] e
            end).
  { unfold Prisma.user_update.
    destruct (Prisma.userById db id) as [u|]; [|split; [reflexivity|cbn; auto]].
    repeat match goal with
           | |- context [if ?c then _ else _] => destruct c
           end; try (split; [reflexivity|cbn; auto]).
    exists u. now repeat split. }
  cbn [uu_isActive updateData].
  destruct (uu_isActive data) as [[|]|] eqn:Ea.
  - unfold bind at 1. cbn [ret].
    destruct (Prisma.user_update id (UserService.applyUpdate updateData) db)
      as [[u'|e] db'].
    + destruct Hupd as [u [H1 [H2 H3]]]. exists u. repeat split; try assumption.
      discriminate.
    + destruct Hupd as [H1 H2]. split; [exact H1|]. now right.
  - unfold bind at 1. unfold bind at 1. rewrite roleOfUser_read.
    destruct (UserService.isSuperAdmin
                match Prisma.userById db id with
                | Some u => Prisma.roleById db (user_roleId u)
                | None => None
                end) eqn:Es.
    + cbn. split; [reflexivity|]. left. split; [reflexivity|]. split; [reflexivity|].
      destruct (Prisma.userById db id) as [u|]; [|discriminate].
      exists u. now split.
    + cbn [ret].
      destruct (Prisma.user_update id (UserService.applyUpdate updateData) db)
        as [[u'|e] db'].
      * destruct Hupd as [u [H1 [H2 H3]]]. exists u. repeat split; try assumption.
        intros _. rewrite H1 in Es. exact Es.
      * destruct Hupd as [H1 H2]. split; [exact H1|]. now right.
  - unfold bind at 1. cbn [ret].
    destruct (Prisma.user_update id (UserService.applyUpdate updateData) db)
      as [[u'|e] db'].
    + destruct Hupd as [u [H1 [H2 H3]]]. exists u. repeat split; try assumption.
      discriminate.
    + destruct Hupd as [H1 H2]. split; [exact H1|]. now right.
Qed.

End UserOutcomes.

(** X19. Every outcome of createUser, by what is wrong with the input.
    The test for the role named SuperAdmin is the first step of the
    service: with such a role it throws CreateSystemError, whatever else
    is wrong.  With another role or none the insert decides: P2002 when
    the id or the e-mail is taken and the role exists, P2003 when the
    role does not exist and neither is taken, and one of the two when
    both are wrong; which of the two is the choice of the database and
    is not stated.  After each throw the store is as it was.  Otherwise
    the user is appended, with the hashed password, tokenVersion 0 and
    isActive defaulting to true. *)
Theorem createUser_outcomes :
  forall (hash : string -> string) (db : Db) (newId : string)
         (data : CreateUserInput),
    let role := Prisma.roleById db (cu_roleId data) in
    let taken := In newId (map user_id (users db))
                 \/ In (cu_email data) (map user_email (users db)) in
    let out := UserService.createUser hash newId data db in
    let u := mkUser newId (cu_email data) (cu_name data) (hash (cu_password data))
                    (orElse (cu_isActive data) true) 0 (cu_roleId data) in
    ((exists r, role = Some r /\ role_name r = "SuperAdmin") ->
     out = (Err CreateSystemError, db))
    /\ ((forall r, role = Some r -> role_name r <> "SuperAdmin") ->
        (taken -> role <> None ->
         out = (Err (PrismaClientKnownRequestError P2002), db))
        /\ (~ taken -> role = None ->
            out = (Err (PrismaClientKnownRequestError P2003), db))
        /\ (taken -> role = None ->
            out = (Err (PrismaClientKnownRequestError P2002), db)
            \/ out = (Err (PrismaClientKnownRequestError P2003), db))
        /\ (~ taken -> role <> None ->
            out = (Ok u, set_users (users db ++ [u]) db))).
Proof.
  intros hash db newId data role taken out u. split.
  - intros [r [Hr Hn]]. unfold out, UserService.createUser, bind, Prisma.role_findUnique.
    fold role. rewrite Hr. cbn [UserService.isSuperAdmin]. now rewrite Hn.
  - intros Hns. pose proof (createUser_cases hash db newId data) as Hc.
    fold out role in Hc. fold u in Hc.
    destruct out as [[u0|e] db'].
    + destruct Hc as [-> [-> [[r [Hr _]] [Hi He]]]].
      assert (Hnt : ~ taken) by (intros [H|H]; contradiction).
      repeat split.
      * intros Ht. contradiction.
      * intros _ Hnone. congruence.
      * intros Ht. contradiction.
    + destruct Hc as [-> [[-> [r [Hr Hn]]]|[[-> Ht]|[-> Hnone]]]].
      * elim (Hns r Hr Hn).
      * repeat split.
        -- intros Hnt. contradiction.
        -- intros _ _. now left.
        -- intros Hnt. contradiction.
      * repeat split.
        -- intros _ Hsome. contradiction.
        -- intros _ _. now right.
        -- intros _ Hsome. contradiction.
Qed.

Lemma createUser_outcomes_witness :
  UserService.createUser (fun p => p) "u_new"
    (mkCreateUserInput "new@example.com" "New" "pw" "r_super" None) db_seed
  = (Err CreateSystemError, db_seed)
  /\ UserService.createUser (fun p => p) "u_new"
       (mkCreateUserInput "bob@example.com" "New" "pw" "r_clerk" None) db_seed
     = (Err (PrismaClientKnownRequestError P2002), db_seed)
  /\ UserService.createUser (fun p => p) "u_new"
       (mkCreateUserInput "new@example.com" "New" "pw" "r_ghost" None) db_seed
     = (Err (PrismaClientKnownRequestError P2003), db_seed).
Proof.
  split; [|split].
  - apply (proj1 (createUser_outcomes (fun p => p) db_seed "u_new"
                    (mkCreateUserInput "new@example.com" "New" "pw" "r_super" None))).
    exists r_super. split; reflexivity.
  - apply (proj2 (createUser_outcomes (fun p => p) db_seed "u_new"
                    (mkCreateUserInput "bob@example.com" "New" "pw" "r_clerk" None))).
    + intros r Hr. inversion Hr. discriminate.
    + right. cbn. right; left. reflexivity.
    + discriminate.
  - apply (proj2 (createUser_outcomes (fun p => p) db_seed "u_new"
                    (mkCreateUserInput "new@example.com" "New" "pw" "r_ghost" None))).
    + intros r Hr. discriminate.
    + cbn. intros [[H|[H|[H|[]]]]|[H|[H|[H|[]]]]]; discriminate.
    + reflexivity.
Defined.

(** X20. Every outcome of deleteUser.  The test for deleting oneself
    comes first: it throws DeleteSelfError also when the id names no
    user.  Then P2025 for an unknown id and DeleteSystemError for a user
    whose role is named SuperAdmin; the store is then as it was.
    Otherwise the user is removed; the roles, features and permission
    rows are untouched. *)
Theorem deleteUser_outcomes :
  forall (db : Db) (targetId requestingUserId : string),
    match UserService.deleteUser targetId requestingUserId db with
    | (Ok u, db') =>
        targetId <> requestingUserId
        /\ Prisma.userById db targetId = Some u
        /\ holdsSuperAdmin db u = false
        /\ users db' = filter (fun v => negb (user_id v =? targetId)) (users db)
        /\ Prisma.userById db' targetId = None
        /\ SamePermissions db db'
    | (Err e, db') =>
        db' = db
        /\ ((e = DeleteSelfError /\ targetId = requestingUserId)
            \/ (e = PrismaClientKnownRequestError P2025
                /\ targetId <> requestingUserId
                /\ Prisma.userById db targetId = None)
            \/ (e = DeleteSystemError
                /\ targetId <> requestingUserId
                /\ exists u, Prisma.userById db targetId = Some u
                             /\ holdsSuperAdmin db u = true))
    end.
Proof. exact deleteUser_cases. Qed.

Section UserStatuses.

Variable hash : string -> string.
Variable meta : PrismaMeta.
Hypothesis Hjoin : joinable meta = true.

Lemma Answered_createUser newId data :
  Throws (Answered (UserRoutes.hooks meta) [403; 409; 400]%Z) (UserService.createUser hash newId data).
Proof.
  intros db e db' H. pose proof (createUser_cases hash db newId data) as Hc.
  rewrite H in Hc. destruct Hc as [_ [[-> _]|[[-> _]|[-> _]]]];
    eexists; (split; [cbn; rewrite ?Hjoin; reflexivity|in_list]).
Qed.

Lemma Answered_updateUser id data :
  Throws (Answered (UserRoutes.hooks meta) [403; 404; 409; 400]%Z) (UserService.updateUser hash id data).
Proof.
  intros db e db' H. pose proof (updateUser_cases hash db id data) as Hc.
  cbv zeta in Hc. rewrite H in Hc. destruct Hc as [_ [[-> _]|Hp]].
  - eexists. split; [reflexivity|in_list].
  - apply (fun cs e => Answered_prisma_user meta cs e Hjoin) in Hp. revert Hp. apply Answered_incl.
    intros x Hx. cbn in Hx.
    repeat (destruct Hx as [<-|Hx]; [in_list|]). destruct Hx.
Qed.

Lemma Answered_getUser id :
  Throws (Answered (UserRoutes.hooks meta) [404]%Z) (UserServiceExt.getUser id).
Proof.
  unfold UserServiceExt.getUser. apply Throws_bind; [|intros; apply Throws_ret].
  prisma_answered (fun cs e => Answered_prisma_user meta cs e Hjoin) (Throws_user_findUniqueOrThrow id).
Qed.

Lemma Answered_deleteUser targetId requestingUserId :
  Throws (Answered (UserRoutes.hooks meta) [403; 404]%Z)
         (UserService.deleteUser targetId requestingUserId).
Proof.
  intros db e db' H. pose proof (deleteUser_cases db targetId requestingUserId) as Hc.
  rewrite H in Hc. destruct Hc as [_ [[-> _]|[[-> _]|[-> _]]]];
    eexists; (split; [reflexivity|in_list]).
Qed.

End UserStatuses.

(** X21. No throw of the user service reaches the default 500 once the
    request is with its handler.  The statement is about the handlers:
    authMiddleware, hasPermission and the schemas of params and body run
    before them and give the 401, 403 and 400 of their own.  Whatever the
    store and the typed input, and whatever meta with no target or an
    array as target the store attaches to its errors, the handler of
    POST /users ends with 201, 403, 409 or 400, that of PATCH /users/:id
    with 200, 403, 404, 409 or 400, that of GET /users/:id with 200 or
    404 and that of DELETE /users/:id with 200, 403 or 404; with the id
    of the requesting user itself the last one ends with 403 whether or
    not a user has that id.  With a string as target the hooks return no
    response to a P2002. *)
Theorem user_handlers_statuses :
  forall (hash : string -> string) (meta : PrismaMeta),
    (joinable meta = true ->
     forall (db : Db) (newId id : string) (cu : CreateUserInput)
            (uu : UpdateUserInput) (user : AuthUser),
       let hooks := UserRoutes.hooks meta in
       In (statusWith hooks (fst (UserRoutes.createUserHandler hash newId cu db)))
          [201; 403; 409; 400]%Z
       /\ In (statusWith hooks (fst (UserRoutes.updateUserHandler hash id uu db)))
             [200; 403; 404; 409; 400]%Z
       /\ In (statusWith hooks (fst (UserRoutes.getUserHandler id db))) [200; 404]%Z
       /\ In (statusWith hooks (fst (UserRoutes.deleteUserHandler id user db)))
             [200; 403; 404]%Z
       /\ statusWith hooks (fst (UserRoutes.deleteUserHandler (au_id user) user db))
          = 403%Z)
    /\ (joinable meta = false ->
        firstAnswer (UserRoutes.hooks meta) (PrismaClientKnownRequestError P2002)
        = None).
Proof.
  intros hash meta. split.
  - intros Hj db newId id cu uu user hooks.
    split; [apply route_status; [now apply Answered_createUser|reflexivity]|].
    split; [apply route_status; [now apply Answered_updateUser|reflexivity]|].
    split; [apply route_status; [now apply Answered_getUser|reflexivity]|].
    split; [apply route_status; [apply Answered_deleteUser|reflexivity]|].
    unfold UserRoutes.deleteUserHandler, UserService.deleteUser, bind.
    now rewrite String.eqb_refl.
  - intros Hj. cbn. now rewrite Hj.
Qed.

Lemma user_handlers_statuses_witness :
  In (statusWith (UserRoutes.hooks (mkMeta None (Some (TargetArray ["email"]))))
                 (fst (UserRoutes.createUserHandler
                         (fun p => p) "u_new"
                         (mkCreateUserInput "bob@example.com" "Bob" "pw" "r_clerk" None)
                         db_seed)))
     [201; 403; 409; 400]%Z
  /\ firstAnswer (UserRoutes.hooks (mkMeta None (Some (TargetString "User_email_key"))))
                 (PrismaClientKnownRequestError P2002)
     = None.
Proof.
  split.
  - apply (proj1 (user_handlers_statuses (fun p => p)
                    (mkMeta None (Some (TargetArray ["email"]))))
                 eq_refl db_seed "u_new" "u_bob"
                 (mkCreateUserInput "bob@example.com" "Bob" "pw" "r_clerk" None)
                 (mkUpdateUserInput None None None None None)
                 (mkAuthUser "u_bob" 3)).
  - apply (proj2 (user_handlers_statuses (fun p => p)
                    (mkMeta None (Some (TargetString "User_email_key"))))
                 eq_refl).
Defined.

(* ------------------------------------------------------------------ *)
(** ** The users that hold the SuperAdmin role *)

Lemma holdsSuperAdmin_roles db db' u :
  roles db' = roles db -> holdsSuperAdmin db' u = holdsSuperAdmin db u.
Proof. intros E. unfold holdsSuperAdmin, Prisma.roleById. now rewrite E. Qed.

Lemma superAdmins_ext db db' :
  roles db' = roles db ->
  superAdmins db' = filter (holdsSuperAdmin db) (users db').
Proof.
  intros E. unfold superAdmins. apply filter_ext. intros u.
  now apply holdsSuperAdmin_roles.
Qed.

Lemma key_unique {A} (key : A -> string) (l : list A) (id : string) (u v : A) :
  NoDup (map key l) ->
  find (fun x => key x =? id) l = Some u ->
  In v l -> key v = id -> v = u.
Proof.
  intros Hnd Hf Hv Hk. induction l as [|a l IH]; [destruct Hv|].
  cbn in Hnd, Hf. inversion Hnd as [|x xs Hnot Hnd']. subst.
  destruct (key a =? key v) eqn:E.
  - inversion Hf. subst a. destruct Hv as [->|Hv]; [reflexivity|].
    apply String.eqb_eq in E. elim Hnot. rewrite E. now apply in_map.
  - destruct Hv as [->|Hv]; [now rewrite String.eqb_refl in E|].
    now apply IH.
Qed.

Lemma ids_of_filter_map {A} (key : A -> string) (holds : A -> bool) (g : A -> A)
      (l : list A) :
  (forall v, In v l -> key (g v) = key v /\ holds (g v) = holds v) ->
  map key (filter holds (map g l)) = map key (filter holds l).
Proof.
  induction l as [|a l IH]; intros H; [reflexivity|].
  cbn. destruct (H a (or_introl eq_refl)) as [Hk Hh]. rewrite Hh.
  destruct (holds a); cbn; rewrite IH; try (intros v Hv; apply H; now right);
    [now rewrite Hk|reflexivity].
Qed.

Lemma filter_drop_others {A} (key : A -> string) (holds : A -> bool) (id : string)
      (l : list A) :
  (forall v, In v l -> key v = id -> holds v = false) ->
  filter holds (filter (fun v => negb (key v =? id)) l) = filter holds l.
Proof.
  induction l as [|a l IH]; intros H; [reflexivity|].
  cbn. destruct (key a =? id) eqn:E; cbn.
  - apply String.eqb_eq in E. rewrite (H a (or_introl eq_refl) E).
    apply IH. intros v Hv. apply H. now right.
  - rewrite IH; [reflexivity|]. intros v Hv. apply H. now right.
Qed.

(** X22. Where the guards for the SuperAdmin role hold.  On a store in
    which user ids are unique, no call of createUser or deleteUser, and
    no call of updateUser that leaves out roleId, changes which users
    hold the role named SuperAdmin, whether the call returns or throws. *)
Theorem superAdmin_holders_kept :
  forall (hash : string -> string) (db : Db),
    NoDup (map user_id (users db)) ->
    (forall newId data,
        superAdminIds (snd (UserService.createUser hash newId data db))
        = superAdminIds db)
    /\ (forall targetId requestingUserId,
          superAdminIds (snd (UserService.deleteUser targetId requestingUserId db))
          = superAdminIds db)
    /\ (forall id data,
          uu_roleId data = None ->
          superAdminIds (snd (UserService.updateUser hash id data db))
          = superAdminIds db).
Proof.
  intros hash db Hnd. split; [|split].
  - intros newId data. pose proof (createUser_cases hash db newId data) as Hc.
    destruct (UserService.createUser hash newId data db) as [[u|e] db']; cbn [snd].
    + destruct Hc as [Hu [-> [[r [Hr Hn]] _]]].
      unfold superAdminIds. rewrite (superAdmins_ext db) by reflexivity.
      cbn [users set_users]. rewrite filter_app. cbn [filter].
      assert (Hh : holdsSuperAdmin db u = false).
      { unfold holdsSuperAdmin. rewrite Hu. cbn [user_roleId]. rewrite Hr. cbn.
        now apply String.eqb_neq. }
      rewrite Hh. now rewrite app_nil_r.
    + now destruct Hc as [-> _].
  - intros targetId requestingUserId.
    pose proof (deleteUser_cases db targetId requestingUserId) as Hc.
    destruct (UserService.deleteUser targetId requestingUserId db) as [[u|e] db'];
      cbn [snd].
    + destruct Hc as [_ [Hu [Hh [Husers [_ [Hroles _]]]]]].
      unfold superAdminIds. rewrite (superAdmins_ext db db' Hroles), Husers.
      f_equal. unfold superAdmins. apply (filter_drop_others user_id).
      intros v Hv E. rewrite (key_unique user_id _ targetId u v Hnd Hu Hv E).
      exact Hh.
    + now destruct Hc as [-> _].
  - intros id data Hrole. pose proof (updateUser_cases hash db id data) as Hc.
    cbv zeta in Hc.
    destruct (UserService.updateUser hash id data db) as [[u'|e] db']; cbn [snd].
    + destruct Hc as [u [Hu [Hu' [-> _]]]].
      unfold superAdminIds. rewrite (superAdmins_ext db) by reflexivity.
      cbn [users set_users]. unfold superAdmins. apply ids_of_filter_map.
      intros v Hv. destruct (user_id v =? id) eqn:E; [|now split].
      apply String.eqb_eq in E.
      rewrite (key_unique user_id _ id u v Hnd Hu Hv E).
      rewrite Hu'. split; [reflexivity|].
      unfold holdsSuperAdmin. cbn. now rewrite Hrole.
    + now destruct Hc as [-> _].
Qed.

Lemma superAdmin_holders_kept_witness :
  superAdminIds (snd (UserService.updateUser (fun p => p) "u_root" deactivate db_seed))
  = ["u_root"]
  /\ superAdminIds (snd (UserService.deleteUser "u_root" "u_bob" db_seed)) = ["u_root"].
Proof.
  destruct (superAdmin_holders_kept (fun p => p) db_seed) as [_ [H2 H3]].
  - repeat constructor; cbn; intuition discriminate.
  - split.
    + rewrite H3; reflexivity.
    + rewrite H2; reflexivity.
Defined.

(* ================================================================== *)
(** * authMiddleware and the session routes *)
(* ================================================================== *)

Section GateCases.

Variable decode : string -> option Jwt.

Ltac gate_rejects :=
  split; [reflexivity|];
  eexists; split; [reflexivity|];
  split; [first [left; reflexivity | right; reflexivity]|];
  try (intros Hc; discriminate Hc).

Lemma authMiddleware_cases now authorization db :
  match Routes.authMiddleware decode now authorization db with
  | (Ok au, db') =>
      db' = db
      /\ exists auth jti_ user,
           authorization = Some auth
           /\ String.prefix "Bearer " auth = true
           /\ verify decode AccessJwt now (Routes.slice7 auth)
              = Some (mkPayload (JsString (au_id au)) (JsNumber (au_tokenVersion au)) jti_)
           /\ Prisma.userById db (au_id au) = Some user
           /\ user_isActive user = true
           /\ user_tokenVersion user = au_tokenVersion au
  | (Err e, db') =>
      db' = db
      /\ exists resp,
           Routes.protectedOnError e = Some resp
           /\ (code resp = 401%Z \/ code resp = 403%Z)
           /\ (code resp = 403%Z ->
               exists auth sub_ tv_ jti_ user,
                 authorization = Some auth
                 /\ verify decode AccessJwt now (Routes.slice7 auth)
                    = Some (mkPayload (JsString sub_) (JsNumber tv_) jti_)
                 /\ Prisma.userById db sub_ = Some user
                 /\ user_isActive user = false)
  end.
Proof.
  unfold Routes.authMiddleware.
  destruct authorization as [auth|]; [|gate_rejects].
  destruct (String.prefix "Bearer " auth) eqn:Ep; [|gate_rejects].
  destruct (verify decode AccessJwt now (Routes.slice7 auth))
    as [[[|sub_|n] [|s|tv_] jti_]|] eqn:Ev; try gate_rejects.
  unfold bind, Prisma.user_findUnique.
  destruct (Prisma.userById db sub_) as [user|] eqn:Hu; [|gate_rejects].
  destruct (user_isActive user) eqn:Ea; cbn [negb].
  - destruct (user_tokenVersion user =? tv_)%Z eqn:Et; cbn [negb].
    + cbn. split; [reflexivity|]. exists auth, jti_, user.
      apply Z.eqb_eq in Et. now repeat split.
    + gate_rejects.
  - split; [reflexivity|]. eexists. split; [reflexivity|].
    split; [right; reflexivity|]. intros _.
    exists auth, sub_, tv_, jti_, user. now repeat split.
Qed.

Lemma authMiddleware_accepts now auth jti_ user db sub_ tv_ :
  String.prefix "Bearer " auth = true ->
  verify decode AccessJwt now (Routes.slice7 auth)
  = Some (mkPayload (JsString sub_) (JsNumber tv_) jti_) ->
  Prisma.userById db sub_ = Some user ->
  user_isActive user = true ->
  user_tokenVersion user = tv_ ->
  Routes.authMiddleware decode now (Some auth) db = (Ok (mkAuthUser sub_ tv_), db).
Proof.
  intros Hp Hv Hu Ha Ht. unfold Routes.authMiddleware.
  rewrite Hp, Hv. unfold bind, Prisma.user_findUnique. rewrite Hu, Ha.
  cbn [negb]. rewrite Ht, Z.eqb_refl. reflexivity.
Qed.

End GateCases.

(** X23. authMiddleware, the guard of the protected routes.  It lets a
    request through exactly when the Authorization header starts with
    "Bearer ", the rest of it verifies as an access token whose subject is a string and
    whose version is a number, the subject is a user of the store, that
    user is active and its tokenVersion is the one of the token; the user
    it derives is the subject and the version of the token.  It never
    writes the store.  Every rejection is an error the hook of
    createProtectedApp answers, with 401 or with 403, and the 403 is
    given only for a verified token of an inactive user. *)
Theorem authMiddleware_accepts_iff :
  forall (decode : string -> option Jwt) (now : Z) (authorization : option string)
         (db : Db),
    (forall au,
        fst (Routes.authMiddleware decode now authorization db) = Ok au
        <-> exists auth jti_ user,
              authorization = Some auth
              /\ String.prefix "Bearer " auth = true
              /\ verify decode AccessJwt now (Routes.slice7 auth)
                 = Some (mkPayload (JsString (au_id au))
                                   (JsNumber (au_tokenVersion au)) jti_)
              /\ Prisma.userById db (au_id au) = Some user
              /\ user_isActive user = true
              /\ user_tokenVersion user = au_tokenVersion au)
    /\ snd (Routes.authMiddleware decode now authorization db) = db
    /\ (forall e,
          fst (Routes.authMiddleware decode now authorization db) = Err e ->
          exists resp,
            Routes.protectedOnError e = Some resp
            /\ (code resp = 401%Z \/ code resp = 403%Z)
            /\ (code resp = 403%Z ->
                exists auth sub_ tv_ jti_ user,
                  authorization = Some auth
                  /\ verify decode AccessJwt now (Routes.slice7 auth)
                     = Some (mkPayload (JsString sub_) (JsNumber tv_) jti_)
                  /\ Prisma.userById db sub_ = Some user
                  /\ user_isActive user = false)).
Proof.
  intros decode now authorization db.
  pose proof (authMiddleware_cases decode now authorization db) as Hc.
  split; [|split].
  - intros au. split.
    + intros H.
      destruct (Routes.authMiddleware decode now authorization db) as [[au'|e] db'];
        [|discriminate].
      cbn in H. inversion H. subst au'. now destruct Hc as [_ Hc].
    + intros [auth [jti_ [user [-> [Hp [Hv [Hu [Ha Ht]]]]]]]].
      rewrite (authMiddleware_accepts decode now auth jti_ user db _ _ Hp Hv Hu Ha Ht).
      now destruct au.
  - destruct (Routes.authMiddleware decode now authorization db) as [[au'|e] db'];
      now destruct Hc as [-> _].
  - intros e H.
    destruct (Routes.authMiddleware decode now authorization db) as [[au'|e'] db'];
      [discriminate|].
    cbn in H. inversion H. subst e'. now destruct Hc as [_ Hc].
Qed.

Lemma find_map_replace_other {A} (key : A -> string) (l : list A) (id id' : string)
      (y : A) :
  key y = id -> id' <> id ->
  find (fun z => key z =? id') (map (fun z => if key z =? id then y else z) l)
  = find (fun z => key z =? id') l.
Proof.
  intros Hy Hne. induction l as [|a l IH]; [reflexivity|].
  cbn. destruct (key a =? id) eqn:E.
  - apply String.eqb_eq in E. rewrite Hy, E.
    assert (Hf : (id =? id') = false) by (apply String.eqb_neq; congruence).
    now rewrite Hf.
  - destruct (key a =? id'); [reflexivity|exact IH].
Qed.

(** X24. updateUser writes every column it is given and never the
    tokenVersion.  So a change of a user's password, e-mail, name or role
    ends no session: a request authMiddleware lets through before the
    update it lets through after it, as long as the update does not deactivate
    the user.  A password that is supplied and not empty is stored as
    its hash. *)
Theorem session_survives_updateUser :
  forall (hash : string -> string) (decode : string -> option Jwt) (now : Z)
         (authorization : option string) (db : Db) (id : string)
         (data : UpdateUserInput) (au : AuthUser) (u u' : User) (db' : Db),
    fst (Routes.authMiddleware decode now authorization db) = Ok au ->
    Prisma.userById db id = Some u ->
    UserService.updateUser hash id data db = (Ok u', db') ->
    uu_isActive data <> Some false ->
    user_tokenVersion u' = user_tokenVersion u
    /\ (forall p, uu_password data = Some p -> p <> "" -> user_password u' = hash p)
    /\ Routes.authMiddleware decode now authorization db' = (Ok au, db').
Proof.
  intros hash decode now authorization db id data au u u' db' Hgate Hu Hupd Hact.
  pose proof (updateUser_cases hash db id data) as Hc. cbv zeta in Hc.
  rewrite Hupd in Hc. destruct Hc as [u0 [Hu0 [Hu' [Hdb' _]]]].
  rewrite Hu in Hu0. inversion Hu0. subst u0. clear Hu0.
  assert (Hid : user_id u = id) by (now apply (find_key_In user_id) in Hu).
  split; [now rewrite Hu'|].
  split.
  { intros p Hp Hne. rewrite Hu'. cbn. rewrite Hp. cbn.
    apply String.eqb_neq in Hne. now rewrite Hne. }
  pose proof (authMiddleware_cases decode now authorization db) as Hg.
  destruct (Routes.authMiddleware decode now authorization db) as [[au'|e] db1];
    [|discriminate].
  cbn in Hgate. inversion Hgate. subst au'.
  destruct Hg as [_ [auth [jti_ [user [-> [Hp [Hv [Hus [Ha Ht]]]]]]]]].
  destruct au as [sub_ tv_]. cbn [au_id au_tokenVersion] in *.
  destruct (String.eqb_spec sub_ id) as [->|Hne].
  - rewrite Hu in Hus. inversion Hus. subst user.
    apply (authMiddleware_accepts decode now auth jti_ u' db' id tv_ Hp Hv).
    + rewrite Hdb'. unfold Prisma.userById. cbn [users set_users].
      apply find_map_replace with (x := u); [exact Hu|]. now rewrite Hu'.
    + rewrite Hu'. cbn. destruct (uu_isActive data) as [[|]|]; cbn;
        [reflexivity|now elim Hact|exact Ha].
    + rewrite Hu'. exact Ht.
  - apply (authMiddleware_accepts decode now auth jti_ user db' sub_ tv_ Hp Hv);
      [|exact Ha|exact Ht].
    rewrite Hdb'. unfold Prisma.userById. cbn [users set_users].
    rewrite (find_map_replace_other user_id); [exact Hus| |exact Hne].
    now rewrite Hu'.
Qed.

Lemma session_survives_updateUser_witness :
  Routes.authMiddleware decode_demo 50 (Some "Bearer acc_bob_v3")
    (snd (UserService.updateUser (fun p => String "#" p) "u_bob"
            (mkUpdateUserInput None None (Some "secret") None None) db_seed))
  = (Ok (mkAuthUser "u_bob" 3),
     snd (UserService.updateUser (fun p => String "#" p) "u_bob"
            (mkUpdateUserInput None None (Some "secret") None None) db_seed)).
Proof.
  apply (proj2 (proj2 (session_survives_updateUser
                         (fun p => String "#" p) decode_demo 50
                         (Some "Bearer acc_bob_v3") db_seed "u_bob"
                         (mkUpdateUserInput None None (Some "secret") None None)
                         (mkAuthUser "u_bob" 3) u_bob _ _
                         eq_refl eq_refl eq_refl ltac:(discriminate)))).
Defined.

(* ------------------------------------------------------------------ *)
(** ** The user service and the permission model *)

Lemma Coverage_same db db' : SamePermissions db db' -> Coverage db -> Coverage db'.
Proof.
  intros [Hr [Hf Hp]] [[H1 H2 H3 H4] H5].
  constructor; [constructor|]; unfold roleIds, featureIds, pairCount in *;
    rewrite ?Hr, ?Hf, ?Hp; assumption.
Qed.

(** X25. The user service does not touch the permission model: after
    createUser, updateUser or deleteUser, returned or thrown, the roles,
    the features and the permission rows are as before, so that
    permission coverage carries over. *)
Theorem user_service_keeps_permission_model :
  forall (hash : string -> string) (db : Db) (newId id requestingUserId : string)
         (cu : CreateUserInput) (uu : UpdateUserInput),
    let db1 := snd (UserService.createUser hash newId cu db) in
    let db2 := snd (UserService.updateUser hash id uu db) in
    let db3 := snd (UserService.deleteUser id requestingUserId db) in
    SamePermissions db db1 /\ SamePermissions db db2 /\ SamePermissions db db3
    /\ (Coverage db -> Coverage db1 /\ Coverage db2 /\ Coverage db3).
Proof.
  intros hash db newId id requestingUserId cu uu db1 db2 db3.
  assert (H1 : SamePermissions db db1).
  { unfold db1. pose proof (createUser_cases hash db newId cu) as Hc.
    destruct (UserService.createUser hash newId cu db) as [[u|e] db']; cbn [snd].
    - destruct Hc as [_ [-> _]]. now repeat split.
    - destruct Hc as [-> _]. now repeat split. }
  assert (H2 : SamePermissions db db2).
  { unfold db2. pose proof (updateUser_cases hash db id uu) as Hc. cbv zeta in Hc.
    destruct (UserService.updateUser hash id uu db) as [[u|e] db']; cbn [snd].
    - destruct Hc as [u0 [_ [_ [-> _]]]]. now repeat split.
    - destruct Hc as [-> _]. now repeat split. }
  assert (H3 : SamePermissions db db3).
  { unfold db3. pose proof (deleteUser_cases db id requestingUserId) as Hc.
    destruct (UserService.deleteUser id requestingUserId db) as [[u|e] db']; cbn [snd].
    - now destruct Hc as [_ [_ [_ [_ [_ Hs]]]]].
    - destruct Hc as [-> _]. now repeat split. }
  split; [exact H1|]. split; [exact H2|]. split; [exact H3|].
  intros Hc. split; [|split]; eapply Coverage_same; eassumption.
Qed.

(* ------------------------------------------------------------------ *)
(** ** The refresh token of a request: cookie before body *)

Lemma jsOr_cookie (c : string) (body : option string) :
  c <> "" -> jsOr (Some c) body = Some c.
Proof.
  intros Hne. unfold jsOr, truthy. apply String.eqb_neq in Hne. now rewrite Hne.
Qed.

(** X26. POST /auth/refresh and POST /auth/logout validate the body
    first, whatever the cookie holds: a body the schema of the route
    refuses is answered with 400 and the store is as it was, so that a
    cookie does not stand in for a body that fails validation.  For the
    bodies the schema accepts, the handler takes the refresh token from
    the cookie when the cookie is not empty, and only otherwise from the
    body: with a non-empty cookie two accepted bodies get the same answer
    and leave the same store; in particular a cookie that does not verify
    makes refresh answer 401 and leave the store as it was, whatever
    token an accepted body carries.  With an accepted body and no token
    in either place refresh answers 400 and leaves the store as it was.
    The schemas are not among the sources, and the statement is for
    every schema. *)
Theorem cookie_shadows_accepted_body :
  forall (decode : string -> option Jwt) (sign : JwtKind -> JwtPayload -> Z -> string)
         (refreshLifetime : Z)
         (TokenSchema RefreshTokenSchema
          : SessionRoutes.BodyField -> option (option string))
         (now : Z) (newId c : string) (db : Db),
    c <> "" ->
    let refresh :=
      SessionRoutes.refresh decode sign refreshLifetime RefreshTokenSchema now newId in
    let logout := SessionRoutes.logout decode TokenSchema now in
    (forall cookie body,
        RefreshTokenSchema body = None ->
        refresh cookie body db = (Ok (errorResponse 400 "Validation Error"), db))
    /\ (forall cookie body,
          TokenSchema body = None ->
          logout cookie body db = (Ok (errorResponse 400 "Validation Error"), db))
    /\ (forall body body',
          RefreshTokenSchema body <> None -> RefreshTokenSchema body' <> None ->
          refresh (Some c) body db = refresh (Some c) body' db)
    /\ (forall body body',
          TokenSchema body <> None -> TokenSchema body' <> None ->
          logout (Some c) body db = logout (Some c) body' db)
    /\ (verify decode RefreshJwt now c = None ->
        forall body,
          RefreshTokenSchema body <> None ->
          refresh (Some c) body db = (Ok (errorResponse 401 "Unauthorized"), db))
    /\ (forall cookie body field,
          truthy cookie = false ->
          RefreshTokenSchema body = Some field -> truthy field = false ->
          refresh cookie body db
          = (Ok (errorResponse 400 "Refresh token is missing"), db))
    /\ (forall cookie body,
          truthy cookie = false ->
          refresh cookie body db = refresh None body db).
Proof.
  intros decode sign refreshLifetime TokenSchema RefreshTokenSchema now newId c db
         Hne refresh logout.
  unfold refresh, logout, SessionRoutes.refresh, SessionRoutes.logout.
  split; [|split; [|split; [|split; [|split; [|split]]]]].
  - intros cookie body Hno. now rewrite Hno.
  - intros cookie body Hno. now rewrite Hno.
  - intros body body' Hb Hb'.
    destruct (RefreshTokenSchema body) as [f|]; [|now elim Hb].
    destruct (RefreshTokenSchema body') as [f'|]; [|now elim Hb'].
    unfold Routes.refreshRoute. now rewrite !jsOr_cookie by exact Hne.
  - intros body body' Hb Hb'.
    destruct (TokenSchema body) as [f|]; [|now elim Hb].
    destruct (TokenSchema body') as [f'|]; [|now elim Hb'].
    unfold Routes.logoutRoute. now rewrite !jsOr_cookie by exact Hne.
  - intros Hv body Hb.
    destruct (RefreshTokenSchema body) as [f|]; [|now elim Hb].
    apply refreshRoute_unverified with (tok := c); [now apply jsOr_cookie|exact Hne|exact Hv].
  - intros cookie body field Hc Hb Hf. rewrite Hb.
    unfold Routes.refreshRoute, jsOr. rewrite Hc, Hf. reflexivity.
  - intros cookie body Hc.
    destruct (RefreshTokenSchema body) as [f|]; [|reflexivity].
    unfold Routes.refreshRoute, jsOr. rewrite Hc. reflexivity.
Qed.

Lemma cookie_shadows_accepted_body_witness :
  SessionRoutes.refresh decode_demo sign_demo 604800 (SessionRoutes.tokenSchema false)
                        50 "jti_new" (Some "stale")
                        (SessionRoutes.FieldString "ref_bob_live") db_seed
  = (Ok (errorResponse 401 "Unauthorized"), db_seed)
  /\ SessionRoutes.logout decode_demo (SessionRoutes.tokenSchema false) 50
                          (Some "stale") SessionRoutes.FieldNull db_seed
     = (Ok (errorResponse 400 "Validation Error"), db_seed).
Proof.
  pose proof (cookie_shadows_accepted_body
                decode_demo sign_demo 604800
                (SessionRoutes.tokenSchema false) (SessionRoutes.tokenSchema false)
                50 "jti_new" "stale" db_seed ltac:(discriminate)) as H.
  cbv zeta in H. destruct H as [_ [H2 [_ [_ [H5 _]]]]].
  split.
  - apply H5; [reflexivity|discriminate].
  - apply H2. reflexivity.
Defined.

(* ------------------------------------------------------------------ *)
(** ** POST /auth/logout/all *)


(* ================================================================== *)
(** * Round trips *)
(* ================================================================== *)

Lemma Db_eta (db : Db) (us : list User) (ts : list RefreshToken) (rs : list Role)
      (fs : list Feature) (ps : list RoleFeature) :
  us = users db -> ts = refreshTokens db -> rs = roles db -> fs = features db ->
  ps = roleFeatures db -> mkDb us ts rs fs ps = db.
Proof. intros -> -> -> -> ->. now destruct db. Qed.

Lemma filter_fresh_key {A} (key : A -> string) (l : list A) (id : string) :
  ~ In id (map key l) -> filter (fun x => negb (key x =? id)) l = l.
Proof.
  intros Hn. apply filter_all. intros x Hx. apply negb_true_iff, String.eqb_neq.
  intros E. apply Hn. rewrite <- E. now apply in_map.
Qed.

(** X28. createFeature and deleteFeature are inverse on a store the
    schema accepts: deleting the feature that createFeature has just
    returned gives back that feature and restores the store exactly, rows
    written for the roles included, unless the feature was created under
    the protected name. *)
Theorem createFeature_then_deleteFeature :
  forall (db : Db) (newId : string) (data : CreateFeatureInput) (f : Feature)
         (db' : Db),
    SchemaOk db ->
    cf_name data <> "RBAC_management" ->
    RbacService.createFeature newId data db = (Ok f, db') ->
    RbacService.deleteFeature newId db' = (Ok f, db).
Proof.
  intros db newId data f db' Hs Hname Hc.
  destruct (createFeature_Ok_inv db newId data f db' Hs Hc) as [Hfree [Hf Hdb']].
  pose proof (feature_free_fresh _ _ _ Hfree) as Hfresh.
  assert (Hfeat : features db' = features db ++ [f])
    by (rewrite Hdb'; now destruct (cf_defaultPermissions data)).
  assert (Hfid : feature_id f = newId) by (now rewrite Hf).
  assert (Hfind : Prisma.featureById db' newId = Some f).
  { unfold Prisma.featureById. rewrite Hfeat, <- Hfid.
    apply (find_key_app_new feature_id). now rewrite Hfid. }
  unfold RbacService.deleteFeature, Prisma.feature_findUniqueOrThrow, bind,
    Prisma.feature_findUnique. rewrite Hfind. cbn -[Array_includes].
  rewrite protected_feature_name.
  assert (En : (feature_name f =? "RBAC_management") = false)
    by (rewrite Hf; cbn; now apply String.eqb_neq).
  rewrite En. unfold Prisma.feature_delete. rewrite Hfind. f_equal.
  assert (Hfs : filter (fun g => negb (feature_id g =? newId)) (features db')
                = features db).
  { rewrite Hfeat, filter_app, (filter_fresh_key feature_id) by exact Hfresh.
    cbn. rewrite Hfid, String.eqb_refl. cbn. now rewrite app_nil_r. }
  assert (Hold : filter (fun p => negb (rf_featureId p =? newId)) (roleFeatures db)
                 = roleFeatures db).
  { apply filter_all. intros p Hp. apply negb_true_iff, String.eqb_neq.
    now apply (Schema_fresh_feature db newId Hs Hfresh). }
  assert (Hps : filter (fun p => negb (rf_featureId p =? newId)) (roleFeatures db')
                = roleFeatures db).
  { rewrite Hdb'. destruct (cf_defaultPermissions data) as [d|]; cbn.
    - rewrite filter_app, Hold.
      rewrite (filter_none _ (map (RbacService.featureRow f d) (roles db))).
      + now rewrite app_nil_r.
      + intros p Hp. apply in_map_iff in Hp. destruct Hp as [r [<- _]].
        rewrite featureRow_featureId, Hfid, String.eqb_refl. reflexivity.
    - exact Hold. }
  unfold set_roleFeatures, set_features. cbn.
  apply Db_eta; rewrite ?Hfs, ?Hps; try reflexivity;
    rewrite Hdb'; now destruct (cf_defaultPermissions data).
Qed.

Lemma createFeature_then_deleteFeature_witness :
  RbacService.deleteFeature "f_bill"
    (snd (RbacService.createFeature "f_bill" (billing (Some readOnly)) db_seed))
  = (Ok (mkFeature "f_bill" "billing" None), db_seed).
Proof.
  apply (createFeature_then_deleteFeature db_seed "f_bill" (billing (Some readOnly))
           _ _ db_seed_SchemaOk ltac:(discriminate) eq_refl).
Defined.

(** X29. createRole and deleteRole are inverse on a store the schema
    accepts: deleting the role that createRole has just returned gives
    back that role and restores the store exactly, the row written for
    every feature included, unless the role was created under the
    protected name. *)
Theorem createRole_then_deleteRole :
  forall (db : Db) (newId : string) (data : CreateRoleInput)
         (res : Role * list RoleFeature) (db' : Db),
    SchemaOk db ->
    cr_name data <> "SuperAdmin" ->
    (forall u, In u (users db) -> user_roleId u <> newId) ->
    RbacService.createRole newId data db = (Ok res, db') ->
    RbacService.deleteRole newId db' = (Ok (fst res), db).
Proof.
  intros db newId data res db' Hs Hname Hunused Hc.
  destruct (createRole_Ok_inv db newId data res db' Hs Hc) as [Hfree [Hvalid Hdb']].
  pose proof (role_free_fresh _ _ _ Hfree) as Hfresh.
  pose proof (createRole_after_validate db newId data Hs Hfree
                (validateFeatureIds_ok db (cr_permissions data) Hvalid)) as Heq.
  cbv zeta in Heq. subst db'. rewrite Heq in Hc. inversion Hc as [Hres]. clear Hc.
  cbn [fst].
  set (r := mkRole newId (cr_name data) (cr_description data)) in *.
  set (ps := RbacService.orEmpty (cr_permissions data)) in *.
  assert (Hfind : Prisma.roleById (afterCreateRole db r ps) newId = Some r).
  { unfold Prisma.roleById. cbn.
    apply (find_key_app_new role_id (roles db) r). exact Hfresh. }
  unfold RbacService.deleteRole, Prisma.role_findUniqueOrThrow, bind,
    Prisma.role_findUnique. rewrite Hfind. cbn -[Array_includes].
  rewrite protected_role_name.
  apply String.eqb_neq in Hname. rewrite Hname.
  unfold Prisma.role_delete. rewrite Hfind.
  assert (Hu : existsb (fun u => user_roleId u =? newId) (users (afterCreateRole db r ps)) = false).
  { cbn. destruct (existsb _ (users db)) eqn:E; [|reflexivity].
    apply existsb_exists in E. destruct E as [u [Hu E]].
    apply String.eqb_eq in E. now elim (Hunused u Hu). }
  rewrite Hu. f_equal.
  assert (Hrs : filter (fun q => negb (role_id q =? newId)) (roles (afterCreateRole db r ps)) = roles db).
  { cbn. rewrite filter_app, (filter_fresh_key role_id) by exact Hfresh.
    cbn. rewrite String.eqb_refl. cbn. now rewrite app_nil_r. }
  assert (Hps : filter (fun p => negb (rf_roleId p =? newId)) (roleFeatures (afterCreateRole db r ps))
                = roleFeatures db).
  { cbn. rewrite filter_app.
    rewrite (filter_all _ (roleFeatures db)).
    - rewrite (filter_none _ (map (RbacService.roleRow r ps) (features db))).
      + now rewrite app_nil_r.
      + intros p Hp. apply in_map_iff in Hp. destruct Hp as [g [<- _]].
        rewrite roleRow_roleId. cbn. now rewrite String.eqb_refl.
    - intros p Hp. apply negb_true_iff, String.eqb_neq.
      now apply (Schema_fresh_role db newId Hs Hfresh). }
  unfold set_roleFeatures, set_roles. cbn.
  apply Db_eta; try reflexivity; [exact Hrs|exact Hps].
Qed.

Lemma createRole_then_deleteRole_witness :
  RbacService.deleteRole "r_mgr" (snd (RbacService.createRole "r_mgr" manager db_seed))
  = (Ok (mkRole "r_mgr" "Manager" None), db_seed).
Proof.
  apply (createRole_then_deleteRole db_seed "r_mgr" manager _ _ db_seed_SchemaOk
           ltac:(discriminate)
           ltac:(intros u [<-|[<-|[<-|[]]]]; discriminate)
           eq_refl).
Defined.

(* ================================================================== *)
(** * createRole: a feature named twice *)
(* ================================================================== *)

Lemma Map_get_last (ps : list PermissionInput) (p : PermissionInput) :
  Map_get (ps ++ [p]) (pi_featureId p) = Some p.
Proof.
  unfold Map_get. rewrite rev_app_distr. cbn. now rewrite String.eqb_refl.
Qed.

(** X30. createRole builds its lookup of the supplied permissions as a
    Map keyed by featureId, so that of several entries for one feature
    the last one counts: when the permission list ends with an entry for
    an existing feature, the new role's one row for that feature carries
    the flags of that entry, whatever the earlier entries say.  (The same
    list given to updateRole fails with P2002.) *)
Theorem createRole_last_entry_wins :
  forall (db : Db) (newId : string) (data : CreateRoleInput)
         (ps : list PermissionInput) (p : PermissionInput),
    SchemaOk db ->
    existsb (fun r => (role_id r =? newId) || (role_name r =? cr_name data))
            (roles db) = false ->
    cr_permissions data = Some (ps ++ [p]) ->
    (forall q, In q (ps ++ [p]) -> In (pi_featureId q) (featureIds db)) ->
    let r := mkRole newId (cr_name data) (cr_description data) in
    let db' := afterCreateRole db r (ps ++ [p]) in
    RbacService.createRole newId data db
    = (Ok (r, map (RbacService.roleRow r (ps ++ [p])) (features db)), db')
    /\ rowsFor db' newId (pi_featureId p)
       = [rowOf newId (pi_featureId p) (pi_flags p)].
Proof.
  intros db newId data ps p Hs Hfree Hps Hvalid r db'.
  pose proof (role_free_fresh _ _ _ Hfree) as Hfresh.
  assert (Hv : forall q, In q (RbacService.orEmpty (cr_permissions data)) ->
                         In (pi_featureId q) (featureIds db))
    by (now rewrite Hps).
  pose proof (createRole_after_validate db newId data Hs Hfree
                (validateFeatureIds_ok db (cr_permissions data) Hv)) as Heq.
  cbv zeta in Heq. rewrite Hps in Heq. cbn [RbacService.orEmpty] in Heq.
  split; [exact Heq|].
  destruct (featureById_Some db (pi_featureId p)) as [f [_ [Hfin Hfid]]];
    [apply Hvalid, in_or_app; right; now left|].
  unfold rowsFor, db', afterCreateRole. cbn [roleFeatures set_roleFeatures].
  rewrite filter_app.
  rewrite (rowsFor_none_role (roleFeatures db) newId (pi_featureId p))
    by (now apply Schema_fresh_role).
  cbn [app].
  change newId with (role_id r) at 1. rewrite <- Hfid.
  rewrite (rowsFor_roleRows r (ps ++ [p]) (features db) f (so_features db Hs) Hfin).
  unfold RbacService.roleRow. rewrite Hfid, Map_get_last. reflexivity.
Qed.

Lemma createRole_last_entry_wins_witness :
  rowsFor (afterCreateRole db_seed (mkRole "r_mgr" "Manager" None)
             [mkPermissionInput "f_user" (mkFlags (Some true) (Some true) None None None);
              mkPermissionInput "f_user" readOnly])
          "r_mgr" "f_user"
  = [mkRoleFeature "r_mgr" "f_user" false true false false false].
Proof.
  apply (proj2 (createRole_last_entry_wins db_seed "r_mgr"
                  (mkCreateRoleInput "Manager" None
                     (Some [mkPermissionInput "f_user"
                              (mkFlags (Some true) (Some true) None None None);
                            mkPermissionInput "f_user" readOnly]))
                  [mkPermissionInput "f_user"
                     (mkFlags (Some true) (Some true) None None None)]
                  (mkPermissionInput "f_user" readOnly)
                  db_seed_SchemaOk eq_refl eq_refl
                  ltac:(intros q [<-|[<-|[]]]; cbn; auto))).
Defined.
